(** * Dynamic filter engine: validator, evaluator and filter-set runner

    A shallow embedding of [src/utils/filterValidator.ts],
    [src/utils/filterEngine.ts] and [src/data/fieldDefinitions.ts].

    The TypeScript sources run on a JavaScript engine.  Values of type [any]
    are modelled by the inductive [JsValue]; numbers are IEEE-754 binary64
    values (Rocq's primitive [float]); an exception is an explicit [Throw]
    in the [Completion] type, and the conversions [String], [Number] and
    [new Date], which throw on an object that has no string form, return
    completions.  The built-ins whose behaviour is fixed by the
    engine and not by this repository (number parsing and printing, [RegExp],
    [Date]) are the fields of the class [Runtime]: every general theorem
    holds for every runtime, and [Reference.runtime] is a concrete one on
    which conditions can be evaluated. *)

From Stdlib Require Import ZArith Bool List String Ascii Floats Lia.
Import ListNotations.

Set Implicit Arguments.
Set Warnings "-register-all".
Open Scope string_scope.

(* ================================================================== *)
(** * JavaScript values *)
(* ================================================================== *)

(** The JSON-shaped data the application handles: employee records, filter
    payloads and everything [JSON.parse] can put into a stored condition.
    An object keeps its properties in insertion order. *)
Inductive JsValue : Type :=
| JUndefined
| JNull
| JBool (b : bool)
| JNum (x : float)
| JStr (s : string)
| JArr (items : list JsValue)
| JObj (props : list (string * JsValue)).

(** Induction on values that reaches into arrays and objects. *)
Section JsValueInduction.
Variable P : JsValue -> Prop.
Hypothesis Pundefined : P JUndefined.
Hypothesis Pnull : P JNull.
Hypothesis Pbool : forall b, P (JBool b).
Hypothesis Pnum : forall x, P (JNum x).
Hypothesis Pstr : forall s, P (JStr s).
Hypothesis Parr : forall items, Forall P items -> P (JArr items).
Hypothesis Pobj :
  forall props, Forall (fun entry => P (snd entry)) props -> P (JObj props).

Fixpoint JsValue_nested_ind (v : JsValue) : P v :=
  match v with
  | JUndefined => Pundefined
  | JNull => Pnull
  | JBool b => Pbool b
  | JNum x => Pnum x
  | JStr s => Pstr s
  | JArr items =>
      Parr ((fix all (l : list JsValue) : Forall P l :=
               match l with
               | [] => Forall_nil P
               | x :: rest => Forall_cons x (JsValue_nested_ind x) (all rest)
               end) items)
  | JObj props =>
      Pobj ((fix all (l : list (string * JsValue))
               : Forall (fun entry => P (snd entry)) l :=
               match l with
               | [] => Forall_nil _
               | entry :: rest =>
                   Forall_cons entry (JsValue_nested_ind (snd entry)) (all rest)
               end) props)
  end.

End JsValueInduction.

(** Exceptions the modelled code can raise. *)
Inductive JsError : Type := TypeError | SyntaxError.

(** The outcome of running a piece of code: a value, or a thrown error. *)
Inductive Completion (A : Type) : Type :=
| Normal (a : A)
| Throw (e : JsError).
Arguments Normal {A} a.
Arguments Throw {A} e.

Definition bind {A B} (c : Completion A) (k : A -> Completion B) : Completion B :=
  match c with
  | Normal a => k a
  | Throw e => Throw e
  end.

Notation "x <- c ;; k" := (bind c (fun x => k))
  (at level 61, c at next level, right associativity).

(** [try { body } catch { handler }]. *)
Definition tryCatch {A} (body : Completion A) (handler : Completion A) : Completion A :=
  match body with
  | Normal a => Normal a
  | Throw _ => handler
  end.

(** Running [f] on the elements of a list from the left; the first throw
    ends the run. *)
Section MapC.
Context {A B : Type} (f : A -> Completion B).

Fixpoint mapC (l : list A) : Completion (list B) :=
  match l with
  | [] => Normal []
  | x :: rest => y <- f x ;; ys <- mapC rest ;; Normal (y :: ys)
  end.

End MapC.

(** [!!v]: every value is truthy except [undefined], [null], [false],
    [0], [-0], [NaN] and the empty string. *)
Definition truthy (v : JsValue) : bool :=
  match v with
  | JUndefined | JNull => false
  | JBool b => b
  | JNum x => negb (PrimFloat.is_zero x || PrimFloat.is_nan x)
  | JStr s => negb (String.eqb s "")
  | JArr _ | JObj _ => true
  end.

(** [v === null || v === undefined]. *)
Definition isNullish (v : JsValue) : bool :=
  match v with
  | JUndefined | JNull => true
  | _ => false
  end.

Definition typeof (v : JsValue) : string :=
  match v with
  | JUndefined => "undefined"
  | JNull | JArr _ | JObj _ => "object"
  | JBool _ => "boolean"
  | JNum _ => "number"
  | JStr _ => "string"
  end.

(** [Array.isArray(v)]. *)
Definition isArray (v : JsValue) : bool :=
  match v with
  | JArr _ => true
  | _ => false
  end.

(** The elements of an array ([[]] for anything else; only used under
    an [isArray] test). *)
Definition arrayItems (v : JsValue) : list JsValue :=
  match v with
  | JArr items => items
  | _ => []
  end.

(** [v === ''] for an arbitrary value [v]. *)
Definition isEmptyString (v : JsValue) : bool :=
  match v with
  | JStr s => String.eqb s ""
  | _ => false
  end.

(** SameValueZero, the comparison of [Array.prototype.includes].  Objects
    and arrays compare by identity; a record and a condition are separate
    allocations, so an object never equals anything it is compared with. *)
Definition SameValueZero (a b : JsValue) : bool :=
  match a, b with
  | JUndefined, JUndefined => true
  | JNull, JNull => true
  | JBool x, JBool y => Bool.eqb x y
  | JNum x, JNum y => PrimFloat.eqb x y || (PrimFloat.is_nan x && PrimFloat.is_nan y)
  | JStr x, JStr y => String.eqb x y
  | _, _ => false
  end.

(** [arr.includes(v)]. *)
Definition arrayIncludes (arr : list JsValue) (v : JsValue) : bool :=
  existsb (fun x => SameValueZero x v) arr.

(* ------------------------------------------------------------------ *)
(** ** Strings *)

(** Strings are sequences of 8-bit characters; case mapping is the ASCII
    one. *)
Definition lowerChar (c : ascii) : ascii :=
  let n := nat_of_ascii c in
  if (65 <=? n)%nat && (n <=? 90)%nat then ascii_of_nat (n + 32) else c.

Fixpoint toLowerCase (s : string) : string :=
  match s with
  | EmptyString => EmptyString
  | String c rest => String (lowerChar c) (toLowerCase rest)
  end.

(** [s.startsWith(p)]. *)
Fixpoint startsWith (s p : string) : bool :=
  match p, s with
  | EmptyString, _ => true
  | String a p', String b s' => Ascii.eqb a b && startsWith s' p'
  | String _ _, EmptyString => false
  end.

(** [s.includes(p)]. *)
Fixpoint includes (s p : string) : bool :=
  startsWith s p ||
  match s with
  | EmptyString => false
  | String _ s' => includes s' p
  end.

Fixpoint revOnto (s acc : string) : string :=
  match s with
  | EmptyString => acc
  | String c rest => revOnto rest (String c acc)
  end.

(** [s.endsWith(p)]. *)
Definition endsWith (s p : string) : bool :=
  startsWith (revOnto s EmptyString) (revOnto p EmptyString).

(** [s.split(sep)] for a one-character separator: never empty, and
    [''.split('.')] is [['']]. *)
Fixpoint split (sep : ascii) (s : string) : list string :=
  match s with
  | EmptyString => [EmptyString]
  | String c rest =>
      if Ascii.eqb c sep then EmptyString :: split sep rest
      else match split sep rest with
           | seg :: segs => String c seg :: segs
           | [] => [String c EmptyString]
           end
  end.

(** [arr.join(',')] on already converted elements. *)
Fixpoint join (sep : string) (parts : list string) : string :=
  match parts with
  | [] => EmptyString
  | [p] => p
  | p :: rest => p ++ sep ++ join sep rest
  end.

(* ------------------------------------------------------------------ *)
(** ** Property access *)

Fixpoint assoc (k : string) (props : list (string * JsValue)) : option JsValue :=
  match props with
  | [] => None
  | (k', v) :: rest => if String.eqb k' k then Some v else assoc k rest
  end.

(** [Object.prototype.hasOwnProperty] on the properties of an object. *)
Definition hasOwnProperty (k : string) (props : list (string * JsValue)) : bool :=
  match assoc k props with
  | Some _ => true
  | None => false
  end.

Definition digitOf (c : ascii) : option nat :=
  let n := nat_of_ascii c in
  if (48 <=? n)%nat && (n <=? 57)%nat then Some (n - 48)%nat else None.

Fixpoint digitsValue (s : string) (acc : nat) : option nat :=
  match s with
  | EmptyString => Some acc
  | String c rest =>
      match digitOf c with
      | Some d => digitsValue rest (10 * acc + d)%nat
      | None => None
      end
  end.

(** A property name is an array index when it is the canonical decimal
    form of a natural number: ["0"], ["7"], ["12"], not ["07"] or [""]. *)
Definition arrayIndex (prop : string) : option nat :=
  match prop with
  | EmptyString => None
  | String c rest =>
      if Ascii.eqb c "0" && negb (String.eqb rest "") then None
      else digitsValue prop 0
  end.

Fixpoint charAt (s : string) (n : nat) : option ascii :=
  match s, n with
  | EmptyString, _ => None
  | String c _, O => Some c
  | String _ rest, S n' => charAt rest n'
  end.

Definition floatOfNat (n : nat) : float :=
  SF2Prim (binary_normalize prec emax (Z.of_nat n) 0 false).

(** [current?.[prop]]: [undefined] on [null] and [undefined]; otherwise
    the own data property, or [undefined] when there is none.  Arrays and
    strings have their elements and [length]; numbers and booleans have no
    own properties.  Inherited members (the methods of the prototypes) are
    functions and not part of the data model. *)
Definition getProp (current : JsValue) (prop : string) : JsValue :=
  match current with
  | JObj props =>
      match assoc prop props with
      | Some v => v
      | None => JUndefined
      end
  | JArr items =>
      if String.eqb prop "length" then JNum (floatOfNat (List.length items))
      else match arrayIndex prop with
           | Some i => nth i items JUndefined
           | None => JUndefined
           end
  | JStr s =>
      if String.eqb prop "length" then JNum (floatOfNat (String.length s))
      else match arrayIndex prop with
           | Some i =>
               match charAt s i with
               | Some c => JStr (String c EmptyString)
               | None => JUndefined
               end
           | None => JUndefined
           end
  | JUndefined | JNull | JBool _ | JNum _ => JUndefined
  end.

(** [v.prop] and the destructuring [const { prop } = v]: a TypeError on
    [null] and [undefined]. *)
Definition getMember (v : JsValue) (prop : string) : Completion JsValue :=
  if isNullish v then Throw TypeError else Normal (getProp v prop).

(* ================================================================== *)
(** * The engine's built-ins *)
(* ================================================================== *)

(** What the sources take from the JavaScript engine.  A time value is the
    number of milliseconds since the epoch, [NaN] for an invalid date. *)
Class Runtime : Type := {
  (** [Number(s)] on a string. *)
  StringToNumber : string -> float;
  (** [String(x)] on a number. *)
  NumberToString : float -> string;
  (** Compiled patterns. *)
  RegExp : Type;
  (** [new RegExp(source, 'i')]; throws SyntaxError on a malformed pattern. *)
  RegExp_new : string -> Completion RegExp;
  (** [regex.test(s)]. *)
  RegExp_test : RegExp -> string -> bool;
  (** [Date.parse(s)]. *)
  Date_parse : string -> float;
  (** [date.toDateString()] of the date with the given time value. *)
  Date_toDateString : float -> string
}.

(* ================================================================== *)
(** * Coercions *)
(* ================================================================== *)

Section Coercions.
Context {rt : Runtime}.

(** [String(v)].  An array prints its elements joined by commas, with
    [null] and [undefined] elements printed as nothing, and fails when an
    element does.  An object is converted by the first of its members
    [toString] and [valueOf] that is a function and returns a primitive.
    The data here holds no functions: an own property named [toString]
    hides [Object.prototype.toString] and cannot be called, [valueOf]
    (inherited, or hidden by an own property) yields no primitive, and
    the conversion throws a TypeError, as [String(JSON.parse('{"toString":1}'))]
    does.  An object without such a property prints as
    ["[object Object]"]. *)
Fixpoint ToString (v : JsValue) : Completion string :=
  match v with
  | JUndefined => Normal "undefined"
  | JNull => Normal "null"
  | JBool true => Normal "true"
  | JBool false => Normal "false"
  | JNum x => Normal (NumberToString x)
  | JStr s => Normal s
  | JArr items =>
      parts <- mapC (fun x => match x with
                              | JUndefined | JNull => Normal EmptyString
                              | _ => ToString x
                              end) items ;;
      Normal (join "," parts)
  | JObj props =>
      if hasOwnProperty "toString" props then Throw TypeError
      else Normal "[object Object]"
  end.

(** [Number(v)].  Arrays and objects convert through their string form
    ([valueOf] yields no primitive), and fail when that fails. *)
Definition ToNumber (v : JsValue) : Completion float :=
  match v with
  | JUndefined => Normal PrimFloat.nan
  | JNull => Normal PrimFloat.zero
  | JBool true => Normal PrimFloat.one
  | JBool false => Normal PrimFloat.zero
  | JNum x => Normal x
  | JStr s => Normal (StringToNumber s)
  | JArr _ | JObj _ => s <- ToString v ;; Normal (StringToNumber s)
  end.

(** Truncation towards zero of a finite number. *)
Definition truncate (x : float) : float :=
  match Prim2SF x with
  | S754_finite s m e =>
      let n := if (0 <=? e)%Z then Z.shiftl (Zpos m) e else Z.shiftr (Zpos m) (- e) in
      SF2Prim (binary_normalize prec emax (if s then (- n)%Z else n) 0 false)
  | _ => x
  end.

(** TimeClip: the time value of [new Date(x)] for a number [x]. *)
Definition TimeClip (x : float) : float :=
  if negb (PrimFloat.is_finite x) then PrimFloat.nan
  else if PrimFloat.ltb 8.64e15 (PrimFloat.abs x) then PrimFloat.nan
  else PrimFloat.add (truncate x) PrimFloat.zero.

(** The time value of [new Date(v)]: a string is parsed, an array or an
    object is parsed through its string form and fails when it has none,
    anything else is taken as a number of milliseconds. *)
Definition Date_new (v : JsValue) : Completion float :=
  match v with
  | JStr s => Normal (Date_parse s)
  | JArr _ | JObj _ => s <- ToString v ;; Normal (Date_parse s)
  | JUndefined | JNull | JBool _ | JNum _ => x <- ToNumber v ;; Normal (TimeClip x)
  end.

End Coercions.

(** JSON data none of whose objects has an own property named
    [toString]: the values that [String], [Number] and [new Date] convert
    without an error, together with everything that can be read from
    them. *)
Fixpoint plain (v : JsValue) : bool :=
  match v with
  | JArr items => forallb plain items
  | JObj props =>
      negb (hasOwnProperty "toString" props) &&
      forallb (fun entry => plain (snd entry)) props
  | JUndefined | JNull | JBool _ | JNum _ | JStr _ => true
  end.

(* ================================================================== *)
(** * Data model ([src/types]) *)
(* ================================================================== *)

(** [FilterCondition].  [fieldType] and [operator] are string unions in
    the TypeScript types and plain strings at run time (a condition read
    back from local storage can hold anything); a missing [field],
    [operator] or [fieldType] behaves as the empty string in every test the
    code makes on it ([!x], [x === 'literal'], [list.includes(x)]). *)
Record FilterCondition : Type := {
  id : string;
  field : string;
  fieldType : string;
  operator : string;
  value : JsValue;
  nestedKey : option string;
  logicalOperator : option string
}.

(** [FieldDefinition]. *)
Record FieldDefinition : Type := {
  key : string;
  label : string;
  type : string;
  operators : list string;
  options : option (list (string * JsValue));
  defNestedKey : option string
}.

(** [ValidationError]: an object with up to four optional messages. *)
Record ValidationError : Type := {
  errField : option string;
  errOperator : option string;
  errValue : option string;
  errGeneral : option string
}.

(** [{ field: msg }], [{ operator: msg }] and [{ value: msg }]. *)
Definition fieldError (msg : string) : ValidationError :=
  {| errField := Some msg; errOperator := None; errValue := None; errGeneral := None |}.
Definition operatorError (msg : string) : ValidationError :=
  {| errField := None; errOperator := Some msg; errValue := None; errGeneral := None |}.
Definition valueError (msg : string) : ValidationError :=
  {| errField := None; errOperator := None; errValue := Some msg; errGeneral := None |}.

(** The three error classes of the specification, by the key that is set. *)
Definition isSome {A} (o : option A) : bool :=
  match o with Some _ => true | None => false end.
Definition isFieldError (e : ValidationError) : bool := isSome (errField e).
Definition isOperatorError (e : ValidationError) : bool := isSome (errOperator e).
Definition isValueError (e : ValidationError) : bool := isSome (errValue e).

(* ================================================================== *)
(** * The field registry ([src/data/fieldDefinitions.ts]) *)
(* ================================================================== *)

Definition choices (values : list string) : option (list (string * JsValue)) :=
  Some (map (fun v => (v, JStr v)) values).

Definition mkField (k l t : string) (ops : list string)
    (opts : option (list (string * JsValue))) (nested : option string) : FieldDefinition :=
  {| key := k; label := l; type := t; operators := ops; options := opts;
     defNestedKey := nested |}.

Definition numberOperators : list string :=
  ["equals"; "greaterThan"; "lessThan"; "greaterThanOrEqual"; "lessThanOrEqual"; "between"].

Definition fieldDefinitions : list FieldDefinition :=
  [ mkField "name" "Name" "text"
      ["equals"; "contains"; "startsWith"; "endsWith"; "notContains"; "regex"] None None;
    mkField "email" "Email" "text" ["equals"; "contains"; "endsWith"; "regex"] None None;
    mkField "department" "Department" "singleSelect" ["is"; "isNot"]
      (choices ["Engineering"; "Product"; "Sales"; "Marketing"; "Design"; "Finance";
                "HR"; "Operations"; "Legal"]) None;
    mkField "role" "Role" "text" ["equals"; "contains"] None None;
    mkField "salary" "Salary" "amount" ["equals"; "between"; "greaterThan"; "lessThan"]
      None None;
    mkField "joinDate" "Join Date" "date" ["equals"; "before"; "after"; "between"] None None;
    mkField "isActive" "Active Status" "boolean" ["is"] None None;
    mkField "skills" "Skills" "multiSelect" ["in"; "notIn"; "containsAll"]
      (choices ["React"; "TypeScript"; "Node.js"; "Python"; "GraphQL"; "PostgreSQL";
                "AWS"; "Docker"; "Kubernetes"; "Vue.js"; "Angular"; "Java"; "Go";
                "Scala"; "Machine Learning"]) None;
    mkField "address.city" "City" "text" ["equals"; "contains"] None (Some "address.city");
    mkField "address.state" "State" "singleSelect" ["is"; "isNot"]
      (choices ["CA"; "NY"; "TX"; "WA"; "MA"; "OR"; "CO"; "FL"; "IL"; "GA"; "AZ"; "DC";
                "NV"; "NC"]) None;
    mkField "projects" "Number of Projects" "number" numberOperators None None;
    mkField "lastReview" "Last Review Date" "date"
      ["equals"; "before"; "after"; "between"] None None;
    mkField "performanceRating" "Performance Rating" "number" numberOperators None None ].

(** [getFieldDefinition]: the first definition with the given key. *)
Definition getFieldDefinition (fieldKey : string) : option FieldDefinition :=
  find (fun f => String.eqb (key f) fieldKey) fieldDefinitions.

(** [getNestedValue]:
    [path.split('.').reduce((current, prop) => current?.[prop], obj)]. *)
Definition getNestedValue (obj : JsValue) (path : string) : JsValue :=
  fold_left getProp (split "." path) obj.

(** A condition mirrors the registry when its [nestedKey] is the one its
    field's definition has, as [handleFieldChange] sets it; nothing is
    asked of a condition whose field is not in the registry.  Such a
    condition reads a record at a path of the registry, and these paths
    name data properties only: no segment is the name of a member that
    records, strings or arrays inherit from their prototypes (such as
    [constructor]), where [getProp], which reads own data properties,
    would not tell what the engine finds. *)
Definition mirrorsRegistry (condition : FilterCondition) : Prop :=
  forall def : FieldDefinition,
    getFieldDefinition (field condition) = Some def ->
    nestedKey condition = defNestedKey def.

(* ================================================================== *)
(** * Array methods with a callback *)
(* ================================================================== *)

(** [arr.every(p)], [arr.some(p)] and [arr.filter(p)] for a callback
    that can throw: elements are visited from the left, [every] stops at
    the first [false], [some] at the first [true], and an exception ends
    the whole call. *)
Fixpoint every {A} (p : A -> Completion bool) (l : list A) : Completion bool :=
  match l with
  | [] => Normal true
  | x :: rest => b <- p x ;; if b then every p rest else Normal false
  end.

Fixpoint some {A} (p : A -> Completion bool) (l : list A) : Completion bool :=
  match l with
  | [] => Normal false
  | x :: rest => b <- p x ;; if b then Normal true else some p rest
  end.

Fixpoint filterC {A} (p : A -> Completion bool) (l : list A) : Completion (list A) :=
  match l with
  | [] => Normal []
  | x :: rest =>
      b <- p x ;;
      kept <- filterC p rest ;;
      Normal (if b then x :: kept else kept)
  end.

(** [arr.forEach(f)] for a callback that updates what it has captured
    (here passed along as [state]) and can throw. *)
Fixpoint forEach {A S} (f : S -> A -> Completion S) (l : list A) (state : S)
  : Completion S :=
  match l with
  | [] => Normal state
  | x :: rest => state' <- f state x ;; forEach f rest state'
  end.

(* ================================================================== *)
(** * The validator ([src/utils/filterValidator.ts]) *)
(* ================================================================== *)

(** [if (c) return { value: msg }; k]. *)
Notation "'reject' msg 'when' c ;; k" :=
  (if c then Normal (Some (valueError msg)) else k)
  (at level 61, c at next level, right associativity, only parsing).

Definition isEmptyList {A} (l : list A) : bool :=
  match l with [] => true | _ :: _ => false end.

(** [v === '' || v === undefined || v === null]. *)
Definition isBlank (v : JsValue) : bool := isEmptyString v || isNullish v.

Section Validator.
Context {rt : Runtime}.

(** The [switch (fieldType)] of [validateValue]; [Normal None] is the
    [null] returned after the switch.  In the two [between] branches the
    destructuring [const { min, max } = value] sits behind
    [!value || typeof value !== 'object'], so [value] is an object there
    and reading its properties cannot throw.  The conversions [Number(min)],
    [Number(max)], [new Date(from)], [new Date(to)] and [new Date(value)]
    can: they are run in the order of the source, and a conversion that
    returned once returns the same number when the source repeats it. *)
Definition validateShape (fieldType operator : string) (value : JsValue)
  : Completion (option ValidationError) :=
  if String.eqb fieldType "text" then
    reject "Text value must be a string"
      when truthy value && negb (String.eqb (typeof value) "string") ;;
    Normal None
  else if String.eqb fieldType "number" || String.eqb fieldType "amount" then
    if String.eqb operator "between" then
      reject "Range values are required"
        when negb (truthy value) || negb (String.eqb (typeof value) "object") ;;
      let min := getProp value "min" in
      let max := getProp value "max" in
      reject "Minimum value is required" when isBlank min ;;
      reject "Maximum value is required" when isBlank max ;;
      numMin <- ToNumber min ;;
      reject "Minimum value must be a valid number" when PrimFloat.is_nan numMin ;;
      numMax <- ToNumber max ;;
      reject "Maximum value must be a valid number" when PrimFloat.is_nan numMax ;;
      reject "Minimum value cannot be greater than maximum value"
        when PrimFloat.ltb numMax numMin ;;
      Normal None
    else
      reject "Number value is required" when isBlank value ;;
      numValue <- ToNumber value ;;
      reject "Value must be a valid number" when PrimFloat.is_nan numValue ;;
      Normal None
  else if String.eqb fieldType "date" then
    if String.eqb operator "between" then
      reject "Date range is required"
        when negb (truthy value) || negb (String.eqb (typeof value) "object") ;;
      let from := getProp value "from" in
      let to := getProp value "to" in
      reject "Start date is required" when negb (truthy from) || isEmptyString from ;;
      reject "End date is required" when negb (truthy to) || isEmptyString to ;;
      fromDate <- Date_new from ;;
      toDate <- Date_new to ;;
      reject "Start date is invalid" when PrimFloat.is_nan fromDate ;;
      reject "End date is invalid" when PrimFloat.is_nan toDate ;;
      reject "Start date cannot be after end date" when PrimFloat.ltb toDate fromDate ;;
      Normal None
    else
      reject "Date is required" when negb (truthy value) || isEmptyString value ;;
      date <- Date_new value ;;
      reject "Invalid date" when PrimFloat.is_nan date ;;
      Normal None
  else if String.eqb fieldType "singleSelect" then
    reject "Please select an option" when negb (truthy value) || isEmptyString value ;;
    Normal None
  else if String.eqb fieldType "multiSelect" then
    reject "Please select at least one option"
      when negb (isArray value) || isEmptyList (arrayItems value) ;;
    Normal None
  else if String.eqb fieldType "boolean" then
    reject "Please select a value" when isNullish value ;;
    Normal None
  else Normal None.

(** [validateValue]: the presence check, then the per-type checks. *)
Definition validateValue (fieldType operator : string) (value : JsValue)
  : Completion (option ValidationError) :=
  if negb (truthy value) && negb (String.eqb operator "is") then
    if String.eqb fieldType "multiSelect" then
      reject "Please select at least one value"
        when negb (isArray value) || isEmptyList (arrayItems value) ;;
      validateShape fieldType operator value
    else if negb (String.eqb fieldType "boolean") then
      Normal (Some (valueError "Value is required"))
    else validateShape fieldType operator value
  else validateShape fieldType operator value.

(** [validateCondition]: [Normal None] is the source's [null]. *)
Definition validateCondition (condition : FilterCondition)
  : Completion (option ValidationError) :=
  (* Step 1: check if field is selected *)
  if String.eqb (field condition) "" then Normal (Some (fieldError "Please select a field"))
  (* Step 2: check if operator is selected *)
  else if String.eqb (operator condition) "" then
    Normal (Some (operatorError "Please select an operator"))
  else
    (* Step 3: get field definition *)
    match find (fun f => String.eqb (key f) (field condition)) fieldDefinitions with
    | None => Normal (Some (fieldError "Invalid field selected"))
    | Some fieldDef =>
        (* Step 4: the operator must be one of the definition's *)
        if negb (existsb (String.eqb (operator condition)) (operators fieldDef)) then
          Normal (Some (operatorError "Invalid operator for this field type"))
        (* Step 5: validate the value *)
        else validateValue (fieldType condition) (operator condition) (value condition)
    end.

(** [hasErrors]:
    [conditions.some(condition => validateCondition(condition) !== null)]. *)
Definition hasErrors (conditions : list FilterCondition) : Completion bool :=
  some (fun condition =>
          error <- validateCondition condition ;;
          Normal (isSome error))
       conditions.

End Validator.

(* ================================================================== *)
(** * The evaluator ([src/utils/filterEngine.ts]) *)
(* ================================================================== *)

Section Evaluator.
Context {rt : Runtime}.

(** [evaluateTextFilter].  [String(value)] and [String(filterValue)] are
    outside the [try] and can throw; inside it, the pattern is compiled
    and [String(value)] is converted once more. *)
Definition evaluateTextFilter (value : JsValue) (operator : string) (filterValue : JsValue)
  : Completion bool :=
  if isNullish value then Normal false
  else
    text <- ToString value ;;
    let strValue := toLowerCase text in
    filterText <- ToString filterValue ;;
    let strFilter := toLowerCase filterText in
    if String.eqb operator "equals" then Normal (String.eqb strValue strFilter)
    else if String.eqb operator "contains" then Normal (includes strValue strFilter)
    else if String.eqb operator "startsWith" then Normal (startsWith strValue strFilter)
    else if String.eqb operator "endsWith" then Normal (endsWith strValue strFilter)
    else if String.eqb operator "notContains" then Normal (negb (includes strValue strFilter))
    else if String.eqb operator "regex" then
      tryCatch
        (regex <- RegExp_new strFilter ;;
         subject <- ToString value ;;
         Normal (RegExp_test regex subject))
        (Normal false)
    else Normal true.

(** [evaluateNumberFilter].  [a >= b] on numbers is [b <= a]; in
    [between] the [&&] converts [max] only when the first comparison
    holds. *)
Definition evaluateNumberFilter (value : JsValue) (operator : string) (filterValue : JsValue)
  : Completion bool :=
  if isNullish value then Normal false
  else
    numValue <- ToNumber value ;;
    if PrimFloat.is_nan numValue then Normal false
    else if String.eqb operator "equals" then
      numFilter <- ToNumber filterValue ;;
      Normal (PrimFloat.eqb numValue numFilter)
    else if String.eqb operator "greaterThan" then
      numFilter <- ToNumber filterValue ;;
      Normal (PrimFloat.ltb numFilter numValue)
    else if String.eqb operator "lessThan" then
      numFilter <- ToNumber filterValue ;;
      Normal (PrimFloat.ltb numValue numFilter)
    else if String.eqb operator "greaterThanOrEqual" then
      numFilter <- ToNumber filterValue ;;
      Normal (PrimFloat.leb numFilter numValue)
    else if String.eqb operator "lessThanOrEqual" then
      numFilter <- ToNumber filterValue ;;
      Normal (PrimFloat.leb numValue numFilter)
    else if String.eqb operator "between" then
      min <- getMember filterValue "min" ;;
      max <- getMember filterValue "max" ;;
      numMin <- ToNumber min ;;
      if PrimFloat.leb numMin numValue then
        numMax <- ToNumber max ;;
        Normal (PrimFloat.leb numValue numMax)
      else Normal false
    else Normal true.

(** [evaluateDateFilter].  Dates compare by their time values. *)
Definition evaluateDateFilter (value : JsValue) (operator : string) (filterValue : JsValue)
  : Completion bool :=
  if negb (truthy value) then Normal false
  else
    date <- Date_new value ;;
    if PrimFloat.is_nan date then Normal false
    else if String.eqb operator "equals" then
      filterDate <- Date_new filterValue ;;
      Normal (String.eqb (Date_toDateString date) (Date_toDateString filterDate))
    else if String.eqb operator "before" then
      filterDate <- Date_new filterValue ;;
      Normal (PrimFloat.ltb date filterDate)
    else if String.eqb operator "after" then
      filterDate <- Date_new filterValue ;;
      Normal (PrimFloat.ltb filterDate date)
    else if String.eqb operator "between" then
      from <- getMember filterValue "from" ;;
      fromDate <- Date_new from ;;
      to <- getMember filterValue "to" ;;
      toDate <- Date_new to ;;
      Normal (PrimFloat.leb fromDate date && PrimFloat.leb date toDate)
    else Normal true.

(** [evaluateAmountFilter]. *)
Definition evaluateAmountFilter (value : JsValue) (operator : string) (filterValue : JsValue)
  : Completion bool :=
  evaluateNumberFilter value operator filterValue.

(** [evaluateSelectFilter]. *)
Definition evaluateSelectFilter (value : JsValue) (operator : string) (filterValue : JsValue)
  : Completion bool :=
  if isNullish value then Normal (String.eqb operator "isNot")
  else
    text <- ToString value ;;
    filterText <- ToString filterValue ;;
    let matches := String.eqb text filterText in
    Normal (if String.eqb operator "is" then matches else negb matches).

(** [evaluateMultiSelectFilter]. *)
Definition evaluateMultiSelectFilter (value : JsValue) (operator : string)
    (filterValue : JsValue) : Completion bool :=
  if negb (isArray value) && negb (truthy value) then Normal (String.eqb operator "notIn")
  else
    let value := if isArray value then arrayItems value else [value] in
    let filterArray := if isArray filterValue then arrayItems filterValue else [filterValue] in
    if String.eqb operator "in" then
      Normal (existsb (fun v => arrayIncludes filterArray v) value)
    else if String.eqb operator "notIn" then
      Normal (negb (existsb (fun v => arrayIncludes filterArray v) value))
    else if String.eqb operator "containsAll" then
      Normal (forallb (fun f => arrayIncludes value f) filterArray)
    else Normal true.

(** [evaluateBooleanFilter]. *)
Definition evaluateBooleanFilter (value : JsValue) (_operator : string)
    (filterValue : JsValue) : Completion bool :=
  let boolValue := truthy value in
  filterText <- ToString filterValue ;;
  let boolFilter := String.eqb (toLowerCase filterText) "true" in
  Normal (Bool.eqb boolValue boolFilter).

(** [condition.nestedKey || condition.field]. *)
Definition fieldKeyOf (condition : FilterCondition) : string :=
  match nestedKey condition with
  | Some k => if String.eqb k "" then field condition else k
  | None => field condition
  end.

(** [evaluateCondition]: the specification's [matches]. *)
Definition evaluateCondition (record : JsValue) (condition : FilterCondition)
  : Completion bool :=
  let filterValue := value condition in
  let fieldKey := fieldKeyOf condition in
  let value := getNestedValue record fieldKey in
  let ft := fieldType condition in
  if String.eqb ft "text" then
    evaluateTextFilter value (operator condition) filterValue
  else if String.eqb ft "number" then
    evaluateNumberFilter value (operator condition) filterValue
  else if String.eqb ft "date" then
    evaluateDateFilter value (operator condition) filterValue
  else if String.eqb ft "amount" then
    evaluateAmountFilter value (operator condition) filterValue
  else if String.eqb ft "singleSelect" then
    evaluateSelectFilter value (operator condition) filterValue
  else if String.eqb ft "multiSelect" then
    evaluateMultiSelectFilter value (operator condition) filterValue
  else if String.eqb ft "boolean" then
    evaluateBooleanFilter value (operator condition) filterValue
  else Normal true.

(** The callback of [applyFilters]: does one record pass? *)
Definition passes (conditions : list FilterCondition) (logicalOperator : string)
    (record : JsValue) : Completion bool :=
  if String.eqb logicalOperator "AND" then
    every (fun condition => evaluateCondition record condition) conditions
  else
    some (fun condition => evaluateCondition record condition) conditions.

(** [applyFilters]. *)
Definition applyFilters (data : list JsValue) (conditions : list FilterCondition)
    (logicalOperator : string) : Completion (list JsValue) :=
  if isEmptyList conditions then Normal data
  else filterC (passes conditions logicalOperator) data.

End Evaluator.

(* ================================================================== *)
(** * The application around the engine *)
(* ================================================================== *)

(** ** A condition as a plain predicate *)

Section Holds.
Context {rt : Runtime}.

(** Does the condition hold of the record?  An evaluation that throws
    counts as [false]; the properties below use [holds] only where
    evaluation returns. *)
Definition holds (record : JsValue) (condition : FilterCondition) : bool :=
  match evaluateCondition record condition with
  | Normal b => b
  | Throw _ => false
  end.

End Holds.

(** ** [Map] *)

(** A JavaScript [Map] with string keys: its entries in insertion order,
    one entry per key. *)
Definition JsMap (V : Type) : Type := list (string * V).

(** [m.set(k, v)]: an existing entry keeps its place and takes the new
    value; a new key goes to the end. *)
Fixpoint mapSet {V : Type} (k : string) (v : V) (m : JsMap V) : JsMap V :=
  match m with
  | [] => [(k, v)]
  | (k', v') :: rest =>
      if String.eqb k' k then (k, v) :: rest else (k', v') :: mapSet k v rest
  end.

(** [m.get(k)], with [None] for [undefined]. *)
Fixpoint mapGet {V : Type} (k : string) (m : JsMap V) : option V :=
  match m with
  | [] => None
  | (k', v) :: rest => if String.eqb k' k then Some v else mapGet k rest
  end.

(** [m.has(k)]. *)
Definition mapHas {V : Type} (k : string) (m : JsMap V) : bool := isSome (mapGet k m).

(** [FilterState]. *)
Module FilterState.
Record t : Type := {
  conditions : list FilterCondition;
  logicalOperator : string
}.
End FilterState.

(** ** [FilterValidator.validateAllConditions] *)

Section ValidateAll.
Context {rt : Runtime}.

(** The map from condition ids to errors, filled in the order of the
    conditions; a validation that throws ends the loop. *)
Definition validateAllConditions (conditions : list FilterCondition)
  : Completion (JsMap ValidationError) :=
  forEach
    (fun errors condition =>
       error <- validateCondition condition ;;
       Normal match error with
              | Some error => mapSet (id condition) error errors
              | None => errors
              end)
    conditions [].

End ValidateAll.

(** ** [App]: the displayed records *)

Module App.
Section WithRuntime.
Context {rt : Runtime}.

(** [filterState.conditions.filter(condition => !validateCondition(condition))]. *)
Definition validConditions (conditions : list FilterCondition)
  : Completion (list FilterCondition) :=
  filterC (fun condition =>
             error <- validateCondition condition ;;
             Normal (negb (isSome error)))
          conditions.

(** The value of the [filteredData] memo. *)
Definition filteredData (employeeData : list JsValue) (filterState : FilterState.t)
  : Completion (list JsValue) :=
  validConditions <- validConditions (FilterState.conditions filterState) ;;
  applyFilters employeeData validConditions (FilterState.logicalOperator filterState).

End WithRuntime.
End App.

(** ** [FilterConditionComponent]: editing one condition *)

Module FilterConditionComponent.

(** [getDefaultValue(fieldType, operator)]; the operator is optional. *)
Definition getDefaultValue (fieldType : string) (operator : option string) : JsValue :=
  if match operator with Some op => String.eqb op "between" | None => false end then
    if String.eqb fieldType "date" then JObj [("from", JStr ""); ("to", JStr "")]
    else JObj [("min", JStr ""); ("max", JStr "")]
  else if String.eqb fieldType "text" then JStr ""
  else if String.eqb fieldType "number" || String.eqb fieldType "amount" then JStr ""
  else if String.eqb fieldType "date" then JStr ""
  else if String.eqb fieldType "boolean" then JBool true
  else if String.eqb fieldType "singleSelect" then JStr ""
  else if String.eqb fieldType "multiSelect" then JArr []
  else JStr "".

(** The condition [handleFieldChange(fieldKey)] hands to
    [onConditionChange]; for a key that is not in the registry nothing is
    handed on and the condition stays as it is.  [field.operators[0]] of an
    empty list is [undefined], a missing operator. *)
Definition handleFieldChange (condition : FilterCondition) (fieldKey : string)
  : FilterCondition :=
  match find (fun f => String.eqb (key f) fieldKey) fieldDefinitions with
  | Some field =>
      {| id := id condition;
         field := fieldKey;
         fieldType := type field;
         operator := hd "" (operators field);
         value := getDefaultValue (type field) None;
         nestedKey := defNestedKey field;
         logicalOperator := logicalOperator condition |}
  | None => condition
  end.

(** The condition [handleOperatorChange(operator)] hands on. *)
Definition handleOperatorChange (condition : FilterCondition) (op : string)
  : FilterCondition :=
  {| id := id condition;
     field := field condition;
     fieldType := fieldType condition;
     operator := op;
     value := getDefaultValue (fieldType condition) (Some op);
     nestedKey := nestedKey condition;
     logicalOperator := logicalOperator condition |}.

(** The condition [handleValueChange(newValue)] hands on. *)
Definition handleValueChange (condition : FilterCondition) (newValue : JsValue)
  : FilterCondition :=
  {| id := id condition;
     field := field condition;
     fieldType := fieldType condition;
     operator := operator condition;
     value := newValue;
     nestedKey := nestedKey condition;
     logicalOperator := logicalOperator condition |}.

End FilterConditionComponent.

(** ** [FilterBuilder]: editing the list of conditions *)

Module FilterBuilder.

(** The state [handleAddFilter] hands to [onFiltersChange]; [newId] is
    the identifier [uuidv4()] returned. *)
Definition handleAddFilter (newId : string) (filterState : FilterState.t) : FilterState.t :=
  let newCondition :=
    {| id := newId; field := ""; fieldType := "text"; operator := "equals";
       value := JStr ""; nestedKey := None; logicalOperator := Some "AND" |} in
  {| FilterState.conditions := FilterState.conditions filterState ++ [newCondition];
     FilterState.logicalOperator := FilterState.logicalOperator filterState |}.

(** [handleUpdateCondition(id, updatedCondition)]. *)
Definition handleUpdateCondition (cid : string) (updatedCondition : FilterCondition)
    (filterState : FilterState.t) : FilterState.t :=
  {| FilterState.conditions :=
       map (fun c => if String.eqb (id c) cid then updatedCondition else c)
           (FilterState.conditions filterState);
     FilterState.logicalOperator := FilterState.logicalOperator filterState |}.

(** [handleRemoveCondition(id)]. *)
Definition handleRemoveCondition (cid : string) (filterState : FilterState.t)
  : FilterState.t :=
  {| FilterState.conditions :=
       filter (fun c => negb (String.eqb (id c) cid)) (FilterState.conditions filterState);
     FilterState.logicalOperator := FilterState.logicalOperator filterState |}.

(** [handleClearAll]. *)
Definition handleClearAll (filterState : FilterState.t) : FilterState.t :=
  {| FilterState.conditions := [];
     FilterState.logicalOperator := FilterState.logicalOperator filterState |}.

Section WithRuntime.
Context {rt : Runtime}.

(** The [hasErrors] flag of the builder: some condition with a field
    selected has an entry in the error map, which is computed first. *)
Definition hasErrors (filterState : FilterState.t) : Completion bool :=
  validationErrors <- validateAllConditions (FilterState.conditions filterState) ;;
  Normal (existsb
            (fun condition =>
               negb (String.eqb (field condition) "") &&
               mapHas (id condition) validationErrors)
            (FilterState.conditions filterState)).

End WithRuntime.
End FilterBuilder.

(* ================================================================== *)
(** * A reference runtime *)
(* ================================================================== *)

(** A concrete [Runtime], so that conditions can be run on concrete
    records.  It follows ECMA-262 on the inputs it accepts: decimal, hexadecimal,
    octal and binary numeric strings with correct rounding; shortest
    round-trip printing of numbers; ISO-8601 date strings, with UTC as the
    local time zone; and the fragment of the pattern language described
    at [parseAlt]. *)
Module Reference.

Local Open Scope Z_scope.

(* ------------------------------------------------------------------ *)
(** ** Numbers from strings *)

Definition isWhite (c : ascii) : bool :=
  let n := nat_of_ascii c in
  ((9 <=? n)%nat && (n <=? 13)%nat) || (n =? 32)%nat.

Fixpoint trimStart (s : string) : string :=
  match s with
  | String c rest => if isWhite c then trimStart rest else s
  | EmptyString => EmptyString
  end.

Definition trim (s : string) : string :=
  revOnto (trimStart (revOnto (trimStart s) EmptyString)) EmptyString.

(** The value of a digit in the given radix. *)
Definition digitIn (radix : Z) (c : ascii) : option Z :=
  let n := Z.of_nat (nat_of_ascii c) in
  let d := if (48 <=? n) && (n <=? 57) then n - 48
           else if (97 <=? n) && (n <=? 122) then n - 87
           else if (65 <=? n) && (n <=? 90) then n - 55
           else 99 in
  if d <? radix then Some d else None.

(** Reads the longest prefix of digits: the accumulated value, how many
    digits were read, and the rest of the string. *)
Fixpoint readDigits (radix : Z) (s : string) (acc count : Z) : Z * Z * string :=
  match s with
  | String c rest =>
      match digitIn radix c with
      | Some d => readDigits radix rest (radix * acc + d) (count + 1)
      | None => (acc, count, s)
      end
  | EmptyString => (acc, count, s)
  end.

(** The double nearest to [p / q] (ties to even), for positive [p], [q].
    The quotient is computed with at least 64 significant bits and a
    sticky last bit, which is enough for rounding to 53 bits. *)
Definition roundRatio (neg : bool) (p q : Z) : float :=
  let k := Z.max 0 (Z.log2 q - Z.log2 p + 64) in
  let n := Z.shiftl p k in
  let m := 2 * (n / q) + (if n mod q =? 0 then 0 else 1) in
  SF2Prim (binary_normalize prec emax (if neg then - m else m) (- k - 1) false).

(** The double nearest to [m * 10 ^ e], where [m >= 0] is written with
    [digits] decimal digits. *)
Definition decimalToFloat (neg : bool) (m digits e : Z) : float :=
  if m =? 0 then (if neg then PrimFloat.neg_zero else PrimFloat.zero)
  else if 310 <? e then (if neg then PrimFloat.neg_infinity else PrimFloat.infinity)
  else if digits + e <? -330 then (if neg then PrimFloat.neg_zero else PrimFloat.zero)
  else if 0 <=? e then
    SF2Prim (binary_normalize prec emax (if neg then - (m * 10 ^ e) else m * 10 ^ e) 0 false)
  else roundRatio neg m (10 ^ (- e)).

(** StrUnsignedDecimalLiteral, without [Infinity]:
    digits, an optional fraction, an optional exponent. *)
Definition parseDecimal (neg : bool) (s : string) : float :=
  let '(ip, ni, r1) := readDigits 10 s 0 0 in
  let '(m, nf, r2) :=
    match r1 with
    | String "." r => readDigits 10 r ip 0
    | _ => (ip, 0, r1)
    end in
  if ni + nf =? 0 then PrimFloat.nan
  else
    match r2 with
    | EmptyString => decimalToFloat neg m (ni + nf) (- nf)
    | String c r3 =>
        if Ascii.eqb c "e" || Ascii.eqb c "E" then
          let '(eneg, r4) :=
            match r3 with
            | String "-" r => (true, r)
            | String "+" r => (false, r)
            | _ => (false, r3)
            end in
          let '(ev, ne, r5) := readDigits 10 r4 0 0 in
          if (ne =? 0) || negb (String.eqb r5 "") then PrimFloat.nan
          else decimalToFloat neg m (ni + nf) ((if eneg then - ev else ev) - nf)
        else PrimFloat.nan
    end.

Definition parseRadix (radix : Z) (s : string) : float :=
  let '(v, n, r) := readDigits radix s 0 0 in
  if (n =? 0) || negb (String.eqb r "") then PrimFloat.nan
  else SF2Prim (binary_normalize prec emax v 0 false).

(** StringToNumber. *)
Definition StringToNumber (s : string) : float :=
  match trim s with
  | EmptyString => PrimFloat.zero
  | String "0" (String "x" r) | String "0" (String "X" r) => parseRadix 16 r
  | String "0" (String "o" r) | String "0" (String "O" r) => parseRadix 8 r
  | String "0" (String "b" r) | String "0" (String "B" r) => parseRadix 2 r
  | String "-" r =>
      if String.eqb r "Infinity" then PrimFloat.neg_infinity else parseDecimal true r
  | String "+" r =>
      if String.eqb r "Infinity" then PrimFloat.infinity else parseDecimal false r
  | t => if String.eqb t "Infinity" then PrimFloat.infinity else parseDecimal false t
  end.

(* ------------------------------------------------------------------ *)
(** ** Numbers to strings *)

Definition digitChar (d : Z) : ascii := ascii_of_nat (Z.to_nat (48 + d)).

(** The decimal digits of [n >= 0], at least one. *)
Fixpoint digitsOnto (fuel : nat) (n : Z) (acc : string) : string :=
  match fuel with
  | O => acc
  | S fuel' =>
      let acc' := String (digitChar (n mod 10)) acc in
      if n <? 10 then acc' else digitsOnto fuel' (n / 10) acc'
  end.

Definition decimalDigits (n : Z) : string :=
  digitsOnto (S (Z.to_nat (Z.log2 n))) n EmptyString.

Fixpoint zeros (n : nat) : string :=
  match n with
  | O => EmptyString
  | S n' => String "0" (zeros n')
  end.

Fixpoint takeChars (n : nat) (s : string) : string :=
  match n, s with
  | S n', String c rest => String c (takeChars n' rest)
  | _, _ => EmptyString
  end.

Fixpoint dropChars (n : nat) (s : string) : string :=
  match n, s with
  | S n', String _ rest => dropChars n' rest
  | _, _ => s
  end.

(** [p / q < 10 ^ n], for positive [p], [q] and any integer [n]. *)
Definition belowPow10 (p q n : Z) : bool :=
  if 0 <=? n then p <? q * 10 ^ n else p * 10 ^ (- n) <? q.

(** The integer [n] with [10 ^ (n - 1) <= p / q < 10 ^ n]: an estimate
    from the binary logarithms, corrected upwards. *)
Fixpoint decimalExponentFrom (fuel : nat) (p q n : Z) : Z :=
  match fuel with
  | O => n
  | S fuel' => if belowPow10 p q n then n else decimalExponentFrom fuel' p q (n + 1)
  end.

Definition decimalExponent (p q : Z) : Z :=
  decimalExponentFrom 8 p q ((Z.log2 p - Z.log2 q) * 30103 / 100000 - 2).

(** The candidates with [k] digits for printing [x = p / q]: the two
    [k]-digit integers around [x / 10 ^ (n - k)], nearest first (the even
    one first on a tie).  A candidate is [(s, n)], standing for
    [s * 10 ^ (n - k)]. *)
Definition candidates (p q n k : Z) : list (Z * Z) :=
  let '(num, den) := if 0 <=? n - k then (p, q * 10 ^ (n - k)) else (p * 10 ^ (k - n), q) in
  let lo := num / den in
  let r := num mod den in
  let up := if lo + 1 <? 10 ^ k then (lo + 1, n) else (10 ^ (k - 1), n + 1) in
  let down := (lo, n) in
  let ordered :=
    if 2 * r <? den then [down; up]
    else if den <? 2 * r then [up; down]
    else if Z.even lo then [down; up] else [up; down] in
  filter (fun c => 10 ^ (k - 1) <=? fst c) ordered.

(** The shortest decimal that reads back as [x]: the least [k], and for
    that [k] the candidate nearest to [x]. *)
Fixpoint shortest (fuel : nat) (x : float) (p q n k : Z) : Z * Z * Z :=
  match fuel with
  | O => (p, n, k)
  | S fuel' =>
      match filter (fun c => PrimFloat.eqb (decimalToFloat false (fst c) k (snd c - k)) x)
                   (candidates p q n k) with
      | (s, n') :: _ => (s, n', k)
      | [] => shortest fuel' x p q n (k + 1)
      end
  end.

(** The layout of Number::toString for the digits [s] (there are [k] of
    them) and the decimal exponent [n]. *)
Definition layout (s n k : Z) : string :=
  let ds := decimalDigits s in
  if (k <=? n) && (n <=? 21) then ds ++ zeros (Z.to_nat (n - k))
  else if (0 <? n) && (n <=? 21) then
    takeChars (Z.to_nat n) ds ++ "." ++ dropChars (Z.to_nat n) ds
  else if (-6 <? n) && (n <=? 0) then "0." ++ zeros (Z.to_nat (- n)) ++ ds
  else
    let e := n - 1 in
    let exponent := (if e <? 0 then "e-" else "e+") ++ decimalDigits (Z.abs e) in
    if k =? 1 then ds ++ exponent
    else takeChars 1 ds ++ "." ++ dropChars 1 ds ++ exponent.

(** Number::toString in radix 10. *)
Definition NumberToString (x : float) : string :=
  match Prim2SF x with
  | S754_nan => "NaN"
  | S754_zero _ => "0"
  | S754_infinity false => "Infinity"
  | S754_infinity true => "-Infinity"
  | S754_finite neg m e =>
      let '(p, q) := if 0 <=? e then (Z.shiftl (Zpos m) e, 1) else (Zpos m, Z.shiftl 1 (- e)) in
      let '(s, n, k) := shortest 17 (PrimFloat.abs x) p q (decimalExponent p q) 1 in
      (if neg then "-" else "") ++ layout s n k
  end.

(* ------------------------------------------------------------------ *)
(** ** Patterns *)

(** Compiled patterns.  A class is a list of inclusive character ranges. *)
Inductive Re : Type :=
| REmpty
| RChar (c : ascii)
| RAny
| RClass (negated : bool) (ranges : list (ascii * ascii))
| RBol
| REol
| RSeq (a b : Re)
| RAlt (a b : Re)
| RStar (a : Re).

Definition code (c : ascii) : Z := Z.of_nat (nat_of_ascii c).

Definition isQuantifier (c : ascii) : bool :=
  Ascii.eqb c "*" || Ascii.eqb c "+" || Ascii.eqb c "?".

Definition isLetterOrDigit (c : ascii) : bool :=
  let n := code c in
  ((48 <=? n) && (n <=? 57)) || ((65 <=? n) && (n <=? 90)) || ((97 <=? n) && (n <=? 122)).

Definition digitRanges : list (ascii * ascii) := [("0", "9")]%char.
Definition wordRanges : list (ascii * ascii) :=
  [("a", "z"); ("A", "Z"); ("0", "9"); ("_", "_")]%char.
Definition spaceRanges : list (ascii * ascii) :=
  [(ascii_of_nat 9, ascii_of_nat 13); (" ", " ")]%char.

(** Does [s] begin with the character [c]?  Then the rest. *)
Definition after (c : ascii) (s : string) : option string :=
  match s with
  | String c' rest => if Ascii.eqb c' c then Some rest else None
  | EmptyString => None
  end.

(** The atom written with a backslash before [c], outside a class: the
    class escapes, the control escapes for newline, carriage return and
    tab, and the escape of a punctuation character, which stands for
    itself.  Other escapes are outside the fragment. *)
Definition escapeAtom (c : ascii) : option Re :=
  if Ascii.eqb c "d" then Some (RClass false digitRanges)
  else if Ascii.eqb c "D" then Some (RClass true digitRanges)
  else if Ascii.eqb c "w" then Some (RClass false wordRanges)
  else if Ascii.eqb c "W" then Some (RClass true wordRanges)
  else if Ascii.eqb c "s" then Some (RClass false spaceRanges)
  else if Ascii.eqb c "S" then Some (RClass true spaceRanges)
  else if Ascii.eqb c "n" then Some (RChar (ascii_of_nat 10))
  else if Ascii.eqb c "r" then Some (RChar (ascii_of_nat 13))
  else if Ascii.eqb c "t" then Some (RChar (ascii_of_nat 9))
  else if isLetterOrDigit c then None
  else Some (RChar c).

(** One character of a class, plain or escaped. *)
Definition classChar (s : string) : option (ascii * string) :=
  match s with
  | EmptyString => None
  | String c rest =>
      if Ascii.eqb c "\" then
        match rest with
        | String c' rest' => if isLetterOrDigit c' then None else Some (c', rest')
        | EmptyString => None
        end
      else Some (c, rest)
  end.

(** The ranges of a class, up to the closing bracket.  [a-b] with [a]
    after [b] is the syntax error "range out of order". *)
Fixpoint parseClass (fuel : nat) (s : string) (acc : list (ascii * ascii))
  : option (list (ascii * ascii) * string) :=
  match fuel with
  | O => None
  | S fuel' =>
      match after "]" s with
      | Some rest => Some (acc, rest)
      | None =>
          match classChar s with
          | None => None
          | Some (lo, rest) =>
              match after "-" rest with
              | Some rest' =>
                  if isSome (after "]" rest') then parseClass fuel' rest ((lo, lo) :: acc)
                  else
                    match classChar rest' with
                    | None => None
                    | Some (hi, rest'') =>
                        if code hi <? code lo then None
                        else parseClass fuel' rest'' ((lo, hi) :: acc)
                    end
              | None => parseClass fuel' rest ((lo, lo) :: acc)
              end
          end
      end
  end.

(** An optional quantifier after an atom, with its optional lazy mark
    (which does not change what [test] answers). *)
Definition quantify (a : Re) (s : string) : Re * string :=
  let lazy (r : string) :=
    match after "?" r with
    | Some r' => r'
    | None => r
    end in
  match s with
  | EmptyString => (a, s)
  | String c r =>
      if Ascii.eqb c "*" then (RStar a, lazy r)
      else if Ascii.eqb c "+" then (RSeq a (RStar a), lazy r)
      else if Ascii.eqb c "?" then (RAlt a REmpty, lazy r)
      else (a, s)
  end.

(** The parser: a disjunction is alternatives separated by [|]; an
    alternative is a sequence of assertions ([^], [$]) and quantified atoms;
    an atom is a character, [.], an escape, a class or a group, capturing
    or [(?: )].  A quantifier with nothing to repeat, an unterminated class
    or group, a range out of order and a trailing backslash are syntax
    errors ([None]).  Braces, back-references, look-around and named groups
    are outside the fragment and are rejected too. *)
Fixpoint parseAlt (fuel : nat) (s : string) : option (Re * string) :=
  match fuel with
  | O => None
  | S fuel' =>
      match parseSeq fuel' REmpty s with
      | Some (a, rest) =>
          match after "|" rest with
          | Some rest' =>
              match parseAlt fuel' rest' with
              | Some (b, rest'') => Some (RAlt a b, rest'')
              | None => None
              end
          | None => Some (a, rest)
          end
      | None => None
      end
  end
with parseSeq (fuel : nat) (acc : Re) (s : string) : option (Re * string) :=
  match fuel with
  | O => None
  | S fuel' =>
      match s with
      | EmptyString => Some (acc, s)
      | String c rest =>
          if Ascii.eqb c "|" || Ascii.eqb c ")" then Some (acc, s)
          else if isQuantifier c then None
          else if Ascii.eqb c "^" then parseSeq fuel' (RSeq acc RBol) rest
          else if Ascii.eqb c "$" then parseSeq fuel' (RSeq acc REol) rest
          else
            match parseAtom fuel' s with
            | Some (a, rest') =>
                let '(a', rest'') := quantify a rest' in
                parseSeq fuel' (RSeq acc a') rest''
            | None => None
            end
      end
  end
with parseAtom (fuel : nat) (s : string) : option (Re * string) :=
  match fuel with
  | O => None
  | S fuel' =>
      match s with
      | EmptyString => None
      | String c rest =>
          if Ascii.eqb c "(" then
            let body :=
              match after "?" rest with
              | Some r => after ":" r
              | None => Some rest
              end in
            match body with
            | Some r =>
                match parseAlt fuel' r with
                | Some (a, rest') =>
                    match after ")" rest' with
                    | Some rest'' => Some (a, rest'')
                    | None => None
                    end
                | None => None
                end
            | None => None
            end
          else if Ascii.eqb c "[" then
            let '(negated, r) :=
              match after "^" rest with
              | Some r => (true, r)
              | None => (false, rest)
              end in
            match parseClass (S (String.length r)) r [] with
            | Some (ranges, rest') => Some (RClass negated ranges, rest')
            | None => None
            end
          else if Ascii.eqb c "." then Some (RAny, rest)
          else if Ascii.eqb c "\" then
            match rest with
            | String c' rest' =>
                match escapeAtom c' with
                | Some a => Some (a, rest')
                | None => None
                end
            | EmptyString => None
            end
          else if Ascii.eqb c "{" || Ascii.eqb c "}" then None
          else Some (RChar c, rest)
      end
  end.

(** [new RegExp(source, 'i')]. *)
Definition RegExp_new (source : string) : Completion Re :=
  match parseAlt (4 * String.length source + 4) source with
  | Some (re, EmptyString) => Normal re
  | _ => Throw SyntaxError
  end.

(** With the [i] flag two characters match when they agree up to case. *)
Definition swapCase (c : ascii) : ascii :=
  let n := nat_of_ascii c in
  if (65 <=? n)%nat && (n <=? 90)%nat then ascii_of_nat (n + 32)
  else if (97 <=? n)%nat && (n <=? 122)%nat then ascii_of_nat (n - 32)
  else c.

Definition inRange (c : ascii) (r : ascii * ascii) : bool :=
  (code (fst r) <=? code c) && (code c <=? code (snd r)).

Definition inClass (ranges : list (ascii * ascii)) (c : ascii) : bool :=
  existsb (fun r => inRange c r || inRange (swapCase c) r) ranges.

Definition isLineTerminator (c : ascii) : bool :=
  (code c =? 10) || (code c =? 13).

(** A backtracking matcher in continuation-passing style: [k] is what
    remains to be matched after [r].  [atStart] tells whether the position
    is the beginning of the input.  A starred pattern is repeated only
    while it consumes input. *)
Fixpoint matchRe (r : Re) (atStart : bool) (input : string)
    (k : bool -> string -> bool) : bool :=
  match r with
  | REmpty => k atStart input
  | RChar c =>
      match input with
      | String c' rest => Ascii.eqb (lowerChar c) (lowerChar c') && k false rest
      | EmptyString => false
      end
  | RAny =>
      match input with
      | String c' rest => negb (isLineTerminator c') && k false rest
      | EmptyString => false
      end
  | RClass negated ranges =>
      match input with
      | String c' rest => xorb negated (inClass ranges c') && k false rest
      | EmptyString => false
      end
  | RBol => atStart && k atStart input
  | REol => String.eqb input "" && k atStart input
  | RSeq a b => matchRe a atStart input (fun st rest => matchRe b st rest k)
  | RAlt a b => matchRe a atStart input k || matchRe b atStart input k
  | RStar a =>
      (fix loop (fuel : nat) (st : bool) (inp : string) : bool :=
         k st inp ||
         match fuel with
         | O => false
         | S fuel' =>
             matchRe a st inp
               (fun st' rest =>
                  (String.length rest <? String.length inp)%nat && loop fuel' st' rest)
         end) (String.length input) atStart input
  end.

(** [regex.test(s)]: is there a match starting at some position? *)
Fixpoint testFrom (re : Re) (atStart : bool) (s : string) : bool :=
  matchRe re atStart s (fun _ _ => true) ||
  match s with
  | EmptyString => false
  | String _ rest => testFrom re false rest
  end.

Definition RegExp_test (re : Re) (s : string) : bool := testFrom re true s.

(* ------------------------------------------------------------------ *)
(** ** Dates *)

(** The number of days from 1970-01-01 to the given day of the proleptic
    Gregorian calendar, and back. *)
Definition daysFromCivil (y m d : Z) : Z :=
  let y' := if m <=? 2 then y - 1 else y in
  let era := y' / 400 in
  let yoe := y' - era * 400 in
  let doy := (153 * (if 2 <? m then m - 3 else m + 9) + 2) / 5 + d - 1 in
  let doe := yoe * 365 + yoe / 4 - yoe / 100 + doy in
  era * 146097 + doe - 719468.

Definition civilFromDays (z : Z) : Z * Z * Z :=
  let z' := z + 719468 in
  let era := z' / 146097 in
  let doe := z' - era * 146097 in
  let yoe := (doe - doe / 1460 + doe / 36524 - doe / 146096) / 365 in
  let doy := doe - (365 * yoe + yoe / 4 - yoe / 100) in
  let mp := (5 * doy + 2) / 153 in
  let d := doy - (153 * mp + 2) / 5 + 1 in
  let m := if mp <? 10 then mp + 3 else mp - 9 in
  (yoe + era * 400 + (if m <=? 2 then 1 else 0), m, d).

Definition isLeapYear (y : Z) : bool :=
  ((y mod 4 =? 0) && negb (y mod 100 =? 0)) || (y mod 400 =? 0).

Definition daysInMonth (y m : Z) : Z :=
  if m =? 2 then (if isLeapYear y then 29 else 28)
  else if (m =? 4) || (m =? 6) || (m =? 9) || (m =? 11) then 30
  else 31.

(** Reads exactly [n] decimal digits. *)
Fixpoint readFixed (n : nat) (s : string) (acc : Z) : option (Z * string) :=
  match n with
  | O => Some (acc, s)
  | S n' =>
      match s with
      | String c rest =>
          match digitIn 10 c with
          | Some d => readFixed n' rest (10 * acc + d)
          | None => None
          end
      | EmptyString => None
      end
  end.

(** [sep] followed by two digits, or nothing: the optional [-MM], [-DD]
    and [:ss] parts, with the value to use when the part is absent. *)
Definition optionalPart (sep : ascii) (absent : Z) (s : string) : option (Z * string) :=
  match after sep s with
  | Some rest => readFixed 2 rest 0
  | None => Some (absent, s)
  end.

(** The time zone designator: [Z], [+HH:mm], [-HH:mm], or nothing (local
    time, which is UTC here).  The result is the offset in minutes. *)
Definition parseOffset (s : string) : option Z :=
  match s with
  | EmptyString => Some 0
  | String c rest =>
      if Ascii.eqb c "Z" then (if String.eqb rest "" then Some 0 else None)
      else if Ascii.eqb c "+" || Ascii.eqb c "-" then
        match readFixed 2 rest 0 with
        | Some (h, r1) =>
            match optionalPart ":" (-1) r1 with
            | Some (m, EmptyString) =>
                if (h <=? 23) && (0 <=? m) && (m <=? 59)
                then Some (if Ascii.eqb c "-" then - (h * 60 + m) else h * 60 + m)
                else None
            | _ => None
            end
        | None => None
        end
      else None
  end.

(** The time of day after the [T]: [HH:mm], [HH:mm:ss] or [HH:mm:ss.sss],
    then the offset.  The result is in milliseconds, offset applied. *)
Definition parseTime (s : string) : option Z :=
  match readFixed 2 s 0 with
  | Some (h, r1) =>
      match optionalPart ":" (-1) r1 with
      | Some (m, r2) =>
          match optionalPart ":" 0 r2 with
          | Some (sec, r3) =>
              let '(ms, count, r4) :=
                match after "." r3 with
                | Some r => readDigits 10 r 0 0
                | None => (0, 3, r3)
                end in
              match parseOffset r4 with
              | Some offset =>
                  if (0 <=? m) && (m <=? 59) && (sec <=? 59) && (count =? 3) &&
                     ((h <=? 23) || ((h =? 24) && (m =? 0) && (sec =? 0) && (ms =? 0)))
                  then Some (((h * 60 + m - offset) * 60 + sec) * 1000 + ms)
                  else None
              | None => None
              end
          | None => None
          end
      | None => None
      end
  | None => None
  end.

Definition floatOfZ (z : Z) : float :=
  SF2Prim (binary_normalize prec emax z 0 false).

(** [Date.parse] on the date-time string format of ECMA-262:
    [YYYY], [YYYY-MM] or [YYYY-MM-DD], alone or followed by [T] and a
    time.  Strings in other formats, which engines read in ways of their
    own, are invalid dates here. *)
Definition Date_parse (s : string) : float :=
  match readFixed 4 s 0 with
  | Some (y, r1) =>
      match optionalPart "-" 1 r1 with
      | Some (m, r2) =>
          match optionalPart "-" 1 r2 with
          | Some (d, r3) =>
              let time :=
                match r3 with
                | EmptyString => Some 0
                | String c r => if Ascii.eqb c "T" then parseTime r else None
                end in
              match time with
              | Some t =>
                  if (1 <=? m) && (m <=? 12) && (1 <=? d) && (d <=? daysInMonth y m)
                  then floatOfZ (daysFromCivil y m d * 86400000 + t)
                  else PrimFloat.nan
              | None => PrimFloat.nan
              end
          | None => PrimFloat.nan
          end
      | None => PrimFloat.nan
      end
  | None => PrimFloat.nan
  end.

(** The integer a whole-valued number stands for. *)
Definition integerOf (x : float) : Z :=
  match Prim2SF x with
  | S754_finite s m e =>
      let n := if 0 <=? e then Z.shiftl (Zpos m) e else Z.shiftr (Zpos m) (- e) in
      if s then - n else n
  | _ => 0
  end.

Definition padded (width : nat) (n : Z) : string :=
  let ds := decimalDigits n in
  zeros (width - String.length ds) ++ ds.

Definition weekdayNames : list string :=
  ["Sun"; "Mon"; "Tue"; "Wed"; "Thu"; "Fri"; "Sat"].
Definition monthNames : list string :=
  ["Jan"; "Feb"; "Mar"; "Apr"; "May"; "Jun"; "Jul"; "Aug"; "Sep"; "Oct"; "Nov"; "Dec"].

(** [toDateString]: weekday, month, day and year, in the local (UTC)
    time zone. *)
Definition Date_toDateString (t : float) : string :=
  if PrimFloat.is_nan t then "Invalid Date"
  else
    let day := integerOf t / 86400000 in
    let '(y, m, d) := civilFromDays day in
    nth (Z.to_nat ((day + 4) mod 7)) weekdayNames "" ++ " " ++
    nth (Z.to_nat (m - 1)) monthNames "" ++ " " ++
    padded 2 d ++ " " ++
    (if y <? 0 then "-" ++ padded 6 (- y) else padded 4 y).

(* ------------------------------------------------------------------ *)
(** ** The runtime *)

Definition runtime : Runtime :=
  @Build_Runtime StringToNumber NumberToString Re RegExp_new RegExp_test
    Date_parse Date_toDateString.

End Reference.

(* ================================================================== *)
(** * Sample data *)
(* ================================================================== *)

(** [{ ...condition, operator }]. *)
Definition withOperator (condition : FilterCondition) (op : string) : FilterCondition :=
  {| id := id condition; field := field condition; fieldType := fieldType condition;
     operator := op; value := value condition; nestedKey := nestedKey condition;
     logicalOperator := logicalOperator condition |}.

(** A condition as the filter builder creates it for a top-level field. *)
Definition mkCondition (f ft op : string) (v : JsValue) : FilterCondition :=
  {| id := "c1"; field := f; fieldType := ft; operator := op; value := v;
     nestedKey := None; logicalOperator := Some "AND" |}.

(** The members of the [FieldType] union. *)
Definition knownFieldTypes : list string :=
  ["text"; "number"; "date"; "amount"; "singleSelect"; "multiSelect"; "boolean"].

Definition john : JsValue :=
  JObj [("id", JNum 1); ("name", JStr "John"); ("department", JStr "Engineering");
        ("salary", JNum 95000); ("isActive", JBool true);
        ("skills", JArr [JStr "React"; JStr "TypeScript"]);
        ("address", JObj [("city", JStr "NYC"); ("state", JStr "NY")]);
        ("projects", JNum 0)].

Definition jane : JsValue :=
  JObj [("id", JNum 3); ("name", JStr "Jane Doe"); ("department", JStr "Sales");
        ("salary", JNum 120000); ("isActive", JBool false);
        ("skills", JArr [JStr "Python"]);
        ("address", JObj [("city", JStr "Austin"); ("state", JStr "TX")]);
        ("projects", JNum 4)].

(** A record without the [name], [department] and [skills] properties. *)
Definition anonymous : JsValue := JObj [("id", JNum 2); ("salary", JNum 50000)].

(** [la] is [lo] with some elements left out, order kept. *)
Inductive Subseq {A : Type} : list A -> list A -> Prop :=
| Subseq_nil : Subseq [] []
| Subseq_keep x la lo : Subseq la lo -> Subseq (x :: la) (x :: lo)
| Subseq_skip x la lo : Subseq la lo -> Subseq la (x :: lo).

(* ================================================================== *)
(** * Properties of the validator *)
(* ================================================================== *)

Unset Implicit Arguments.

Section ValidatorProperties.
Context {rt : Runtime}.

Lemma getFieldDefinition_key (k : string) (def : FieldDefinition) :
  getFieldDefinition k = Some def -> key def = k /\ In def fieldDefinitions.
Proof.
  unfold getFieldDefinition. intros H.
  apply find_some in H. destruct H as [Hin Hk].
  apply String.eqb_eq in Hk. auto.
Qed.

(** No definition of the registry has an empty key, and none lists an
    empty operator. *)
Lemma registry_keys_operators_nonempty (def : FieldDefinition) :
  In def fieldDefinitions ->
  key def <> "" /\ existsb (String.eqb "") (operators def) = false.
Proof.
  intros Hin.
  assert (Hall : forallb (fun d => negb (String.eqb (key d) "") &&
                                   negb (existsb (String.eqb "") (operators d)))
                         fieldDefinitions = true) by reflexivity.
  rewrite forallb_forall in Hall. specialize (Hall def Hin).
  apply andb_true_iff in Hall. destruct Hall as [Hk Ho].
  apply negb_true_iff in Hk, Ho. apply String.eqb_neq in Hk. auto.
Qed.

(** A condition that gets through the first four steps is judged by
    [validateValue] on its own [fieldType]. *)
Lemma validateCondition_reaches_value (c : FilterCondition) (def : FieldDefinition) :
  getFieldDefinition (field c) = Some def ->
  existsb (String.eqb (operator c)) (operators def) = true ->
  validateCondition c = validateValue (fieldType c) (operator c) (value c).
Proof.
  intros Hdef Hop.
  destruct (getFieldDefinition_key _ _ Hdef) as [Hkey Hin].
  destruct (registry_keys_operators_nonempty _ Hin) as [Hk Hempty].
  unfold validateCondition.
  destruct (String.eqb_spec (field c) "") as [E | _]; [congruence |].
  destruct (String.eqb_spec (operator c) "") as [E | _]; [rewrite E in Hop; congruence |].
  unfold getFieldDefinition in Hdef. rewrite Hdef, Hop. reflexivity.
Qed.

(** Operator legality is checked before the value: an operator outside
    the definition's list is reported whatever the value is. *)
Lemma illegal_operator_wins_over_value (c : FilterCondition) (def : FieldDefinition) :
  getFieldDefinition (field c) = Some def ->
  operator c <> "" ->
  existsb (String.eqb (operator c)) (operators def) = false ->
  validateCondition c = Normal (Some (operatorError "Invalid operator for this field type")).
Proof.
  intros Hdef Hne Hop.
  destruct (getFieldDefinition_key _ _ Hdef) as [Hkey Hin].
  destruct (registry_keys_operators_nonempty _ Hin) as [Hk _].
  unfold validateCondition.
  destruct (String.eqb_spec (field c) "") as [E | _]; [congruence |].
  destruct (String.eqb_spec (operator c) "") as [E | _]; [congruence |].
  unfold getFieldDefinition in Hdef. rewrite Hdef, Hop. reflexivity.
Qed.

(** C1, as amended.  For a condition whose field is not a key of the
    registry, [validateCondition] returns exactly one error, which is never
    a value error: it is a field error when the field is empty or the
    operator is present, and an operator error when the field is present
    (though unknown) and the operator is empty or missing, because the
    presence of the operator is checked before the registry is consulted. *)
Theorem unknown_field_error (c : FilterCondition) :
  getFieldDefinition (field c) = None ->
  exists e,
    validateCondition c = Normal (Some e) /\
    isValueError e = false /\
    isFieldError e = negb (isOperatorError e) /\
    (isFieldError e = true <-> field c = "" \/ operator c <> "") /\
    (isOperatorError e = true <-> field c <> "" /\ operator c = "").
Proof.
  intros Hnone. unfold validateCondition.
  destruct (String.eqb_spec (field c) "") as [Ef | Ef];
    [| destruct (String.eqb_spec (operator c) "") as [Eo | Eo];
       [| unfold getFieldDefinition in Hnone; rewrite Hnone ] ];
    (eexists; split; [reflexivity |]; cbn; intuition congruence).
Qed.

(** C3, as amended.  When the field resolves to a definition and the
    operator is one of the definition's, the verdict is that of
    [validateValue] on the condition's own declared [fieldType]: the
    definition is consulted for the field and the operator only, and its
    [type] plays no part. *)
Theorem value_checked_against_declared_type (c : FilterCondition) (def : FieldDefinition) :
  getFieldDefinition (field c) = Some def ->
  existsb (String.eqb (operator c)) (operators def) = true ->
  validateCondition c = validateValue (fieldType c) (operator c) (value c) /\
  forall c' : FilterCondition,
    field c' = field c -> operator c' = operator c -> value c' = value c ->
    fieldType c' = type def ->
    validateCondition c' = validateValue (type def) (operator c) (value c).
Proof.
  intros Hdef Hop. split.
  - exact (validateCondition_reaches_value c def Hdef Hop).
  - intros c' Hf Ho Hv Ht.
    rewrite (validateCondition_reaches_value c' def); congruence.
Qed.

(** [validateValue] on a number or amount field with an operator other
    than [between]. *)
Lemma validateValue_number (ft op : string) (v : JsValue) :
  ft = "number" \/ ft = "amount" ->
  op <> "between" ->
  validateValue ft op v =
    if negb (truthy v) && negb (String.eqb op "is")
    then Normal (Some (valueError "Value is required"))
    else if isBlank v then Normal (Some (valueError "Number value is required"))
    else numValue <- ToNumber v ;;
         if PrimFloat.is_nan numValue
         then Normal (Some (valueError "Value must be a valid number"))
         else Normal None.
Proof.
  intros Hft Hop. apply String.eqb_neq in Hop.
  unfold validateValue, validateShape.
  destruct Hft as [-> | ->]; cbn; rewrite Hop; reflexivity.
Qed.

(** C7, as amended.  For a number or amount condition with an operator
    other than [between] that is legal for its field, and a value that is
    neither the number zero nor [false], validation succeeds exactly when
    the value is not [''], [null] or [undefined] and [Number(value)] is a
    number other than [NaN].  Finiteness is not asked for. *)
Theorem number_value_validity (c : FilterCondition) (def : FieldDefinition) :
  getFieldDefinition (field c) = Some def ->
  existsb (String.eqb (operator c)) (operators def) = true ->
  fieldType c = "number" \/ fieldType c = "amount" ->
  operator c <> "between" ->
  (forall x, value c = JNum x -> PrimFloat.is_zero x = false) ->
  value c <> JBool false ->
  (validateCondition c = Normal None <->
   isBlank (value c) = false /\
   exists x, ToNumber (value c) = Normal x /\ PrimFloat.is_nan x = false).
Proof.
  intros Hdef Hop Hft Hbetween Hzero Hfalse.
  rewrite (validateCondition_reaches_value c def Hdef Hop).
  rewrite (validateValue_number _ _ _ Hft Hbetween).
  assert (Hnum : forall (x : float) (r : Completion (option ValidationError)),
             r = (if PrimFloat.is_nan x
                  then Normal (Some (valueError "Value must be a valid number"))
                  else Normal None) ->
             (r = Normal None <->
              exists y, Normal x = Normal y /\ PrimFloat.is_nan y = false)).
  { intros x r ->. destruct (PrimFloat.is_nan x) eqn:En.
    - split; [discriminate |]. intros [y [Hy Hn]]. injection Hy as <-. congruence.
    - split; [eauto | reflexivity]. }
  destruct (value c) as [ | | b | x | s | items | props ] eqn:Ev;
    unfold isBlank; cbn [truthy isEmptyString isNullish ToNumber bind].
  - destruct (negb (String.eqb (operator c) "is")); cbn; intuition discriminate.
  - destruct (negb (String.eqb (operator c) "is")); cbn; intuition discriminate.
  - destruct b; [| congruence ]. cbn. split; [eauto | reflexivity].
  - rewrite (Hzero x eq_refl).
    destruct (PrimFloat.is_nan x) eqn:En; cbn [negb andb orb].
    + destruct (negb (String.eqb (operator c) "is")).
      * split; [discriminate |]. intros [_ [y [Hy Hn]]]. injection Hy as <-. congruence.
      * split; [discriminate |]. intros [_ [y [Hy Hn]]]. injection Hy as <-. congruence.
    + split; [eauto | reflexivity].
  - destruct (String.eqb s ""); cbn [negb andb orb].
    + destruct (negb (String.eqb (operator c) "is")); intuition discriminate.
    + rewrite (Hnum (StringToNumber s) _ eq_refl). intuition.
  - cbn [negb andb orb]. destruct (ToString (JArr items)) as [s | e]; cbn [bind].
    + rewrite (Hnum (StringToNumber s) _ eq_refl). intuition.
    + split; [discriminate |]. intros [_ [y [Hy _]]]. discriminate.
  - cbn [negb andb orb]. destruct (ToString (JObj props)) as [s | e]; cbn [bind].
    + rewrite (Hnum (StringToNumber s) _ eq_refl). intuition.
    + split; [discriminate |]. intros [_ [y [Hy _]]]. discriminate.
Qed.

End ValidatorProperties.

(* ================================================================== *)
(** * Plain data *)
(* ================================================================== *)

Lemma mapC_total {A B : Type} (f : A -> Completion B) (l : list A) :
  Forall (fun x => exists y, f x = Normal y) l -> exists ys, mapC f l = Normal ys.
Proof.
  induction 1 as [| x rest [y Hy] _ [ys IH]]; cbn; [eauto |].
  rewrite Hy, IH. cbn. eauto.
Qed.

Lemma assoc_In (k : string) (props : list (string * JsValue)) (v : JsValue) :
  assoc k props = Some v -> exists entry, In entry props /\ snd entry = v.
Proof.
  induction props as [| [k' v'] rest IH]; cbn; [discriminate |].
  destruct (String.eqb k' k).
  - intros H. injection H as <-. exists (k', v'). auto.
  - intros H. destruct (IH H) as [entry [Hin Hv]]. exists entry. auto.
Qed.

Lemma nth_plain (i : nat) (items : list JsValue) :
  forallb plain items = true -> plain (nth i items JUndefined) = true.
Proof.
  revert i. induction items as [| x rest IH]; intros [| i] H; cbn in *;
    try reflexivity; apply andb_true_iff in H; destruct H as [Hx Hrest]; auto.
Qed.

(** What is read from plain data is plain. *)
Lemma getProp_plain (current : JsValue) (prop : string) :
  plain current = true -> plain (getProp current prop) = true.
Proof.
  destruct current as [ | | b | x | s | items | props ]; cbn; try reflexivity.
  - destruct (String.eqb prop "length"); [reflexivity |].
    destruct (arrayIndex prop); [| reflexivity ].
    destruct (charAt s n); reflexivity.
  - intros H. destruct (String.eqb prop "length"); [reflexivity |].
    destruct (arrayIndex prop); [| reflexivity ]. apply nth_plain. exact H.
  - intros H. apply andb_true_iff in H. destruct H as [_ H].
    destruct (assoc prop props) as [v |] eqn:E; [| reflexivity ].
    destruct (assoc_In _ _ _ E) as [entry [Hin Hv]].
    rewrite forallb_forall in H. rewrite <- Hv. exact (H entry Hin).
Qed.

Lemma getNestedValue_plain (obj : JsValue) (path : string) :
  plain obj = true -> plain (getNestedValue obj path) = true.
Proof.
  unfold getNestedValue. generalize (split "." path). intros segments. revert obj.
  induction segments as [| seg rest IH]; intros obj H; cbn; [exact H |].
  apply IH, getProp_plain, H.
Qed.

Section PlainData.
Context {rt : Runtime}.

(** [String], [Number] and [new Date] return on plain data. *)
Lemma ToString_plain (v : JsValue) : plain v = true -> exists s, ToString v = Normal s.
Proof.
  induction v as [ | | b | x | s | items IH | props IH ] using JsValue_nested_ind;
    intros Hp; try (eexists; reflexivity).
  - destruct b; eexists; reflexivity.
  - cbn in Hp. rewrite forallb_forall in Hp. rewrite Forall_forall in IH.
    assert (Hparts : exists parts,
               mapC (fun x => match x with
                              | JUndefined | JNull => Normal EmptyString
                              | _ => ToString x
                              end) items = Normal parts).
    { apply mapC_total. apply Forall_forall. intros x Hx.
      destruct x; try (eexists; reflexivity); apply (IH _ Hx), Hp, Hx. }
    destruct Hparts as [parts Hparts].
    exists (join "," parts). cbn [ToString]. rewrite Hparts. reflexivity.
  - cbn in Hp. apply andb_true_iff in Hp. destruct Hp as [Hown _].
    apply negb_true_iff in Hown. cbn [ToString]. rewrite Hown. eauto.
Qed.

Lemma ToNumber_plain (v : JsValue) : plain v = true -> exists x, ToNumber v = Normal x.
Proof.
  intros Hp. destruct (ToString_plain v Hp) as [s Hs].
  destruct v as [ | | [|] | x | t | items | props ]; unfold ToNumber;
    try (eexists; reflexivity); rewrite Hs; cbn; eauto.
Qed.

Lemma Date_new_plain (v : JsValue) : plain v = true -> exists t, Date_new v = Normal t.
Proof.
  intros Hp. destruct (ToString_plain v Hp) as [s Hs].
  destruct v as [ | | [|] | x | t | items | props ]; unfold Date_new;
    try (eexists; reflexivity); rewrite Hs; cbn; eauto.
Qed.

(** An object with an own [toString] property is not converted. *)
Lemma ToString_own_toString (props : list (string * JsValue)) :
  hasOwnProperty "toString" props = true ->
  ToString (JObj props) = Throw TypeError /\
  ToNumber (JObj props) = Throw TypeError /\
  Date_new (JObj props) = Throw TypeError.
Proof.
  intros H. unfold Date_new, ToNumber. cbn [ToString]. rewrite H. repeat split.
Qed.

(** The validator returns on plain values. *)
Lemma validateValue_plain (ft op : string) (v : JsValue) :
  plain v = true -> exists verdict, validateValue ft op v = Normal verdict.
Proof.
  intros Hp.
  assert (Hshape : exists verdict, validateShape ft op v = Normal verdict).
  { unfold validateShape.
    destruct (ToNumber_plain v Hp) as [x Hx].
    destruct (ToNumber_plain _ (getProp_plain v "min" Hp)) as [lo Hlo].
    destruct (ToNumber_plain _ (getProp_plain v "max" Hp)) as [hi Hhi].
    destruct (Date_new_plain v Hp) as [t Ht].
    destruct (Date_new_plain _ (getProp_plain v "from" Hp)) as [from Hfrom].
    destruct (Date_new_plain _ (getProp_plain v "to" Hp)) as [to Hto].
    rewrite Hx, Hlo, Hhi, Ht, Hfrom, Hto. cbn [bind].
    repeat match goal with
    | |- context [if ?b then _ else _] => destruct b
    end; eauto. }
  unfold validateValue.
  repeat match goal with
  | |- context [if ?b then _ else _] => destruct b
  end; eauto.
Qed.

Lemma validateCondition_plain (c : FilterCondition) :
  plain (value c) = true -> exists verdict, validateCondition c = Normal verdict.
Proof.
  intros Hp. unfold validateCondition.
  destruct (String.eqb (field c) ""); [eauto |].
  destruct (String.eqb (operator c) ""); [eauto |].
  destruct (find _ fieldDefinitions); [| eauto ].
  destruct (negb _); [eauto |].
  apply validateValue_plain. exact Hp.
Qed.

End PlainData.

(* ================================================================== *)
(** * Properties of the evaluator *)
(* ================================================================== *)

Section EvaluatorProperties.
Context {rt : Runtime}.

(** ** Dispatch on the field type *)

Lemma evaluateCondition_text (record : JsValue) (c : FilterCondition) :
  fieldType c = "text" ->
  evaluateCondition record c =
    evaluateTextFilter (getNestedValue record (fieldKeyOf c)) (operator c) (value c).
Proof. intros H. unfold evaluateCondition. rewrite H. reflexivity. Qed.

Lemma evaluateCondition_number (record : JsValue) (c : FilterCondition) :
  fieldType c = "number" \/ fieldType c = "amount" ->
  evaluateCondition record c =
    evaluateNumberFilter (getNestedValue record (fieldKeyOf c)) (operator c) (value c).
Proof. intros [H | H]; unfold evaluateCondition; rewrite H; reflexivity. Qed.

Lemma evaluateCondition_date (record : JsValue) (c : FilterCondition) :
  fieldType c = "date" ->
  evaluateCondition record c =
    evaluateDateFilter (getNestedValue record (fieldKeyOf c)) (operator c) (value c).
Proof. intros H. unfold evaluateCondition. rewrite H. reflexivity. Qed.

Lemma evaluateCondition_singleSelect (record : JsValue) (c : FilterCondition) :
  fieldType c = "singleSelect" ->
  evaluateCondition record c =
    evaluateSelectFilter (getNestedValue record (fieldKeyOf c)) (operator c) (value c).
Proof. intros H. unfold evaluateCondition. rewrite H. reflexivity. Qed.

Lemma evaluateCondition_multiSelect (record : JsValue) (c : FilterCondition) :
  fieldType c = "multiSelect" ->
  evaluateCondition record c =
    evaluateMultiSelectFilter (getNestedValue record (fieldKeyOf c)) (operator c) (value c).
Proof. intros H. unfold evaluateCondition. rewrite H. reflexivity. Qed.

Lemma evaluateCondition_boolean (record : JsValue) (c : FilterCondition) :
  fieldType c = "boolean" ->
  evaluateCondition record c =
    evaluateBooleanFilter (getNestedValue record (fieldKeyOf c)) (operator c) (value c).
Proof. intros H. unfold evaluateCondition. rewrite H. reflexivity. Qed.

Lemma evaluateCondition_default (record : JsValue) (c : FilterCondition) :
  ~ In (fieldType c) knownFieldTypes ->
  evaluateCondition record c = Normal true.
Proof.
  intros H. unfold evaluateCondition.
  repeat match goal with
  | |- context [String.eqb (fieldType c) ?s] =>
      destruct (String.eqb_spec (fieldType c) s) as [E | _];
      [ exfalso; apply H; rewrite E; cbn; tauto | ]
  end.
  reflexivity.
Qed.

Lemma withOperator_fieldKeyOf (c : FilterCondition) (op : string) :
  fieldKeyOf (withOperator c op) = fieldKeyOf c.
Proof. reflexivity. Qed.

(** ** Where the evaluators can throw *)

Lemma truthy_not_nullish (v : JsValue) : truthy v = true -> isNullish v = false.
Proof. destruct v; cbn; congruence. Qed.

(** On plain data the text evaluator never throws: the conversions
    return, and the compilation of the pattern sits inside [try]. *)
Lemma evaluateTextFilter_total (v : JsValue) (op : string) (fv : JsValue) :
  plain v = true -> plain fv = true ->
  exists b, evaluateTextFilter v op fv = Normal b.
Proof.
  intros Hv Hfv. unfold evaluateTextFilter.
  destruct (isNullish v); [eauto |].
  destruct (ToString_plain v Hv) as [s Hs]. destruct (ToString_plain fv Hfv) as [f Hf].
  rewrite Hs, Hf. cbn [bind].
  repeat match goal with
  | |- context [if String.eqb op ?s then _ else _] => destruct (String.eqb op s); [eauto |]
  end; eauto.
  destruct (RegExp_new _); cbn; eauto.
Qed.

(** On plain data the number evaluator throws only in [between], on a
    [null] or [undefined] payload. *)
Lemma evaluateNumberFilter_total (v : JsValue) (op : string) (fv : JsValue) :
  plain v = true -> plain fv = true ->
  (op = "between" -> isNullish fv = false) ->
  exists b, evaluateNumberFilter v op fv = Normal b.
Proof.
  intros Hv Hp Hfv. unfold evaluateNumberFilter.
  destruct (isNullish v); [eauto |].
  destruct (ToNumber_plain v Hv) as [x Hx]. rewrite Hx. cbn [bind].
  destruct (PrimFloat.is_nan x); [eauto |].
  destruct (ToNumber_plain fv Hp) as [y Hy]. rewrite Hy. cbn [bind].
  repeat match goal with
  | |- context [if String.eqb op ?s then _ else _] =>
      destruct (String.eqb_spec op s) as [E | _]; [try solve [eauto] |]
  end; [| eauto ].
  unfold getMember. rewrite (Hfv E). cbn [bind].
  destruct (ToNumber_plain _ (getProp_plain fv "min" Hp)) as [lo Hlo].
  destruct (ToNumber_plain _ (getProp_plain fv "max" Hp)) as [hi Hhi].
  rewrite Hlo, Hhi. cbn [bind]. destruct (PrimFloat.leb lo x); eauto.
Qed.

(** So does the date evaluator. *)
Lemma evaluateDateFilter_total (v : JsValue) (op : string) (fv : JsValue) :
  plain v = true -> plain fv = true ->
  (op = "between" -> isNullish fv = false) ->
  exists b, evaluateDateFilter v op fv = Normal b.
Proof.
  intros Hv Hp Hfv. unfold evaluateDateFilter.
  destruct (negb (truthy v)); [eauto |].
  destruct (Date_new_plain v Hv) as [t Ht]. rewrite Ht. cbn [bind].
  destruct (PrimFloat.is_nan t); [eauto |].
  destruct (Date_new_plain fv Hp) as [y Hy]. rewrite Hy. cbn [bind].
  repeat match goal with
  | |- context [if String.eqb op ?s then _ else _] =>
      destruct (String.eqb_spec op s) as [E | _]; [try solve [eauto] |]
  end; [| eauto ].
  unfold getMember. rewrite (Hfv E). cbn [bind].
  destruct (Date_new_plain _ (getProp_plain fv "from" Hp)) as [from Hfrom].
  destruct (Date_new_plain _ (getProp_plain fv "to" Hp)) as [to Hto].
  rewrite Hfrom, Hto. cbn [bind]. eauto.
Qed.

Lemma evaluateSelectFilter_total (v : JsValue) (op : string) (fv : JsValue) :
  plain v = true -> plain fv = true ->
  exists b, evaluateSelectFilter v op fv = Normal b.
Proof.
  intros Hv Hfv. unfold evaluateSelectFilter. destruct (isNullish v); [eauto |].
  destruct (ToString_plain v Hv) as [s Hs]. destruct (ToString_plain fv Hfv) as [f Hf].
  rewrite Hs, Hf. cbn [bind]. eauto.
Qed.

(** The multi-select evaluator converts nothing and never throws. *)
Lemma evaluateMultiSelectFilter_total (v : JsValue) (op : string) (fv : JsValue) :
  exists b, evaluateMultiSelectFilter v op fv = Normal b.
Proof.
  unfold evaluateMultiSelectFilter.
  destruct (negb (isArray v) && negb (truthy v)); [eauto |].
  repeat match goal with
  | |- context [if String.eqb op ?s then _ else _] => destruct (String.eqb op s); [eauto |]
  end; eauto.
Qed.

Lemma evaluateBooleanFilter_total (v : JsValue) (op : string) (fv : JsValue) :
  plain fv = true ->
  exists b, evaluateBooleanFilter v op fv = Normal b.
Proof.
  intros Hfv. unfold evaluateBooleanFilter.
  destruct (ToString_plain fv Hfv) as [f Hf]. rewrite Hf. cbn [bind]. eauto.
Qed.

(** ** What validation guarantees *)

Lemma validateCondition_None (c : FilterCondition) :
  validateCondition c = Normal None ->
  validateValue (fieldType c) (operator c) (value c) = Normal None.
Proof.
  unfold validateCondition.
  destruct (String.eqb (field c) ""); [discriminate |].
  destruct (String.eqb (operator c) ""); [discriminate |].
  destruct (find _ fieldDefinitions); [| discriminate ].
  destruct (negb _); [discriminate | auto ].
Qed.

(** A condition that passes validation is a condition on a field of the
    registry. *)
Lemma validateCondition_None_field (c : FilterCondition) :
  validateCondition c = Normal None ->
  exists def, getFieldDefinition (field c) = Some def.
Proof.
  unfold validateCondition, getFieldDefinition.
  destruct (String.eqb (field c) ""); [discriminate |].
  destruct (String.eqb (operator c) ""); [discriminate |].
  destruct (find _ fieldDefinitions); [eauto | discriminate ].
Qed.

(** A condition on a registry field that mirrors the registry reads the
    record at the key of its field's definition. *)
Lemma mirrored_condition_path (c : FilterCondition) (def : FieldDefinition) :
  getFieldDefinition (field c) = Some def ->
  mirrorsRegistry c ->
  fieldKeyOf c = key def /\ In (fieldKeyOf c) (map key fieldDefinitions).
Proof.
  intros Hdef Hmirror.
  assert (Hkey : fieldKeyOf c = key def).
  { destruct (getFieldDefinition_key _ _ Hdef) as [Hk Hin].
    unfold fieldKeyOf. rewrite (Hmirror def Hdef), <- Hk. clear Hdef Hmirror Hk.
    cbn in Hin.
    repeat (destruct Hin as [Hin | Hin]; [subst def; reflexivity |]).
    contradiction. }
  split; [exact Hkey |]. rewrite Hkey. apply in_map.
  exact (proj2 (getFieldDefinition_key _ _ Hdef)).
Qed.

(** A validated [between] payload of a number, amount or date condition
    is an object. *)
Lemma validated_between_payload (ft : string) (v : JsValue) :
  ft = "number" \/ ft = "amount" \/ ft = "date" ->
  validateValue ft "between" v = Normal None ->
  isNullish v = false.
Proof.
  intros Hft Hvalid. apply truthy_not_nullish.
  destruct (truthy v) eqn:Et; [reflexivity |].
  unfold validateValue in Hvalid. rewrite Et in Hvalid.
  destruct Hft as [-> | [-> | ->]]; cbn in Hvalid; discriminate.
Qed.

(** A condition that passes validation evaluates to a boolean on every
    plain record, when its own value is plain. *)
Lemma valid_condition_evaluates (record : JsValue) (c : FilterCondition) :
  validateCondition c = Normal None ->
  plain (value c) = true ->
  plain record = true ->
  exists b, evaluateCondition record c = Normal b.
Proof.
  intros Hvalid Hfv Hrecord. apply validateCondition_None in Hvalid.
  pose proof (getNestedValue_plain record (fieldKeyOf c) Hrecord) as Hv.
  destruct (String.eqb_spec (fieldType c) "text") as [Et | Nt].
  { rewrite (evaluateCondition_text _ _ Et). apply evaluateTextFilter_total; assumption. }
  destruct (String.eqb_spec (fieldType c) "number") as [En | Nn].
  { rewrite (evaluateCondition_number _ _ (or_introl En)).
    apply evaluateNumberFilter_total; try assumption.
    intros Eop. rewrite Eop, En in Hvalid.
    apply (validated_between_payload "number"); auto. }
  destruct (String.eqb_spec (fieldType c) "date") as [Ed | Nd].
  { rewrite (evaluateCondition_date _ _ Ed).
    apply evaluateDateFilter_total; try assumption.
    intros Eop. rewrite Eop, Ed in Hvalid.
    apply (validated_between_payload "date"); auto. }
  destruct (String.eqb_spec (fieldType c) "amount") as [Ea | Na].
  { rewrite (evaluateCondition_number _ _ (or_intror Ea)).
    apply evaluateNumberFilter_total; try assumption.
    intros Eop. rewrite Eop, Ea in Hvalid.
    apply (validated_between_payload "amount"); auto. }
  destruct (String.eqb_spec (fieldType c) "singleSelect") as [Es | Ns].
  { rewrite (evaluateCondition_singleSelect _ _ Es).
    apply evaluateSelectFilter_total; assumption. }
  destruct (String.eqb_spec (fieldType c) "multiSelect") as [Em | Nm].
  { rewrite (evaluateCondition_multiSelect _ _ Em). apply evaluateMultiSelectFilter_total. }
  destruct (String.eqb_spec (fieldType c) "boolean") as [Eb | Nb].
  { rewrite (evaluateCondition_boolean _ _ Eb).
    apply evaluateBooleanFilter_total; assumption. }
  exists true. apply evaluateCondition_default. cbn. intuition congruence.
Qed.

(** ** The claims about single conditions *)


(** C4.  A condition whose [fieldType] is none of the seven known types
    falls to the [default] branch and matches every record. *)
Theorem unknown_fieldType_matches_every_record (record : JsValue) (c : FilterCondition) :
  ~ In (fieldType c) knownFieldTypes ->
  evaluateCondition record c = Normal true.
Proof. exact (evaluateCondition_default record c). Qed.

(** C5, as amended.  On a text condition, [notContains] is the negation
    of [contains] whenever the record has a value for the field: it
    returns the negated result when [contains] returns, and throws when
    [contains] throws.  When the value is [null] or [undefined] both
    operators evaluate to [false]. *)
Theorem notContains_negates_contains (record : JsValue) (c : FilterCondition) :
  fieldType c = "text" ->
  let v := getNestedValue record (fieldKeyOf c) in
  evaluateCondition record (withOperator c "notContains") =
    (b <- evaluateCondition record (withOperator c "contains") ;;
     Normal (if isNullish v then false else negb b)) /\
  (isNullish v = true ->
   evaluateCondition record (withOperator c "contains") = Normal false /\
   evaluateCondition record (withOperator c "notContains") = Normal false).
Proof.
  intros Hft v.
  rewrite !evaluateCondition_text by exact Hft.
  rewrite !withOperator_fieldKeyOf. cbn [withOperator operator value].
  unfold evaluateTextFilter. fold v.
  destruct (isNullish v); [repeat split |].
  split; [| discriminate ].
  destruct (ToString v) as [s | e]; [| reflexivity ]. cbn [bind].
  destruct (ToString (value c)) as [f | e]; reflexivity.
Qed.

(** C6.  An absent record value satisfies the negative membership
    operators and no other: on a single-select condition a [null] or
    [undefined] value matches [isNot] and does not match [is]; on a
    multi-select condition a [null], [undefined], empty-string or
    empty-array value matches [notIn] and does not match [in], and a
    [null] or [undefined] value does not match [containsAll]. *)
Theorem absent_value_membership (record : JsValue) (c : FilterCondition) :
  let v := getNestedValue record (fieldKeyOf c) in
  (fieldType c = "singleSelect" -> isNullish v = true ->
   evaluateCondition record (withOperator c "isNot") = Normal true /\
   evaluateCondition record (withOperator c "is") = Normal false) /\
  (fieldType c = "multiSelect" ->
   isNullish v = true \/ v = JStr "" \/ v = JArr [] ->
   evaluateCondition record (withOperator c "notIn") = Normal true /\
   evaluateCondition record (withOperator c "in") = Normal false) /\
  (fieldType c = "multiSelect" -> isNullish v = true ->
   evaluateCondition record (withOperator c "containsAll") = Normal false).
Proof.
  intros v.
  assert (Hmulti : fieldType c = "multiSelect" ->
                   negb (isArray v) && negb (truthy v) = true ->
                   forall op,
                     evaluateCondition record (withOperator c op)
                       = Normal (String.eqb op "notIn")).
  { intros Hft Hv op. rewrite evaluateCondition_multiSelect by exact Hft.
    rewrite withOperator_fieldKeyOf. unfold evaluateMultiSelectFilter. fold v.
    rewrite Hv. reflexivity. }
  split; [| split ].
  - intros Hft Hv.
    rewrite !evaluateCondition_singleSelect by exact Hft.
    rewrite !withOperator_fieldKeyOf. unfold evaluateSelectFilter. fold v.
    rewrite Hv. split; reflexivity.
  - intros Hft [Hv | [Hv | Hv]].
    + rewrite !Hmulti by (auto; destruct v; try discriminate; reflexivity).
      split; reflexivity.
    + rewrite !Hmulti by (auto; rewrite Hv; reflexivity). split; reflexivity.
    + rewrite !evaluateCondition_multiSelect by exact Hft.
      rewrite !withOperator_fieldKeyOf. unfold evaluateMultiSelectFilter. fold v.
      rewrite Hv. split; reflexivity.
  - intros Hft Hv.
    rewrite Hmulti by (auto; destruct v; try discriminate; reflexivity).
    reflexivity.
Qed.

(** C8, as amended.  On a multi-select condition a record value that is
    not an array and is truthy is evaluated as the one-element array holding
    it, for every operator; a falsy one ([0], [NaN], [false], [''], [null],
    [undefined]) is evaluated as an absent value: only [notIn] matches. *)
Theorem truthy_scalar_as_singleton (r1 r2 : JsValue) (c : FilterCondition) (v : JsValue) :
  fieldType c = "multiSelect" ->
  getNestedValue r1 (fieldKeyOf c) = v ->
  getNestedValue r2 (fieldKeyOf c) = JArr [v] ->
  isArray v = false ->
  (truthy v = true -> evaluateCondition r1 c = evaluateCondition r2 c) /\
  (truthy v = false ->
   evaluateCondition r1 c = Normal (String.eqb (operator c) "notIn")).
Proof.
  intros Hft H1 H2 Harr.
  rewrite !evaluateCondition_multiSelect by exact Hft.
  rewrite H1, H2. unfold evaluateMultiSelectFilter.
  rewrite Harr. cbn [isArray arrayItems negb andb truthy].
  split; intros Ht; rewrite Ht; reflexivity.
Qed.

(** The pattern handed to the engine is the lower-cased string form of
    the filter value, and the outcome of [regex] is decided by it: a
    match of the compiled pattern against the record value, or [false]
    when that pattern does not compile. *)
Lemma regex_on_lowered_pattern (v fv : JsValue) (text filterText : string) :
  isNullish v = false ->
  ToString v = Normal text ->
  ToString fv = Normal filterText ->
  evaluateTextFilter v "regex" fv =
    Normal match RegExp_new (toLowerCase filterText) with
           | Normal re => RegExp_test re text
           | Throw _ => false
           end.
Proof.
  intros Hv Ht Hf. unfold evaluateTextFilter. rewrite Hv, Ht, Hf. cbn.
  destruct (RegExp_new _); reflexivity.
Qed.

(** When the pattern the evaluator compiles is malformed, [regex] is
    [false] on every record value that is absent or has a string form. *)
Lemma regex_malformed_is_false (v fv : JsValue) (filterText : string) (e : JsError) :
  ToString fv = Normal filterText ->
  RegExp_new (toLowerCase filterText) = Throw e ->
  isNullish v = true \/ (exists text, ToString v = Normal text) ->
  evaluateTextFilter v "regex" fv = Normal false.
Proof.
  intros Hf Hbad Hv. unfold evaluateTextFilter.
  destruct (isNullish v); [reflexivity |].
  destruct Hv as [Hv | [text Ht]]; [discriminate |].
  rewrite Ht, Hf. cbn. rewrite Hbad. reflexivity.
Qed.

End EvaluatorProperties.

(* ================================================================== *)
(** * Properties of the runner *)
(* ================================================================== *)

Section RunnerProperties.
Context {rt : Runtime}.

Lemma Subseq_incl {A : Type} (la lo : list A) : Subseq la lo -> incl la lo.
Proof.
  induction 1 as [| x la lo _ IH | x la lo _ IH ]; intros y Hy.
  - exact Hy.
  - destruct Hy as [-> | Hy]; [left; reflexivity | right; apply IH, Hy].
  - right. apply IH, Hy.
Qed.

(** On a non-empty list, [every] answering [true] makes [some] answer
    [true]: the first callback already returned [true]. *)
Lemma every_true_some_true {A : Type} (p : A -> Completion bool) (l : list A) :
  l <> [] -> every p l = Normal true -> some p l = Normal true.
Proof.
  destruct l as [| x rest]; [congruence |].
  intros _. cbn. destruct (p x) as [[|] |]; cbn; congruence.
Qed.

Lemma every_total {A : Type} (p : A -> Completion bool) (l : list A) :
  Forall (fun x => exists b, p x = Normal b) l -> exists b, every p l = Normal b.
Proof.
  induction 1 as [| x rest [b Hb] _ IH]; cbn; [eauto |].
  rewrite Hb. cbn. destruct b; eauto.
Qed.

Lemma some_total {A : Type} (p : A -> Completion bool) (l : list A) :
  Forall (fun x => exists b, p x = Normal b) l -> exists b, some p l = Normal b.
Proof.
  induction 1 as [| x rest [b Hb] _ IH]; cbn; [eauto |].
  rewrite Hb. cbn. destruct b; eauto.
Qed.

Lemma filterC_returns {A : Type} (p : A -> Completion bool) (l : list A) :
  Forall (fun x => exists b, p x = Normal b) l -> exists kept, filterC p l = Normal kept.
Proof.
  induction 1 as [| x rest [b Hb] _ [kept IH]]; cbn; [eauto |].
  rewrite Hb, IH. cbn. eauto.
Qed.

(** Filtering with a predicate that implies another keeps a subsequence
    of what the other keeps. *)
Lemma filterC_subseq {A : Type} (p q : A -> Completion bool) (l : list A) :
  (forall x, p x = Normal true -> q x = Normal true) ->
  forall la lo, filterC p l = Normal la -> filterC q l = Normal lo -> Subseq la lo.
Proof.
  intros Hpq. induction l as [| x rest IH]; cbn; intros la lo Ha Ho.
  - inversion Ha. inversion Ho. constructor.
  - destruct (p x) as [bp |] eqn:Ep; [| discriminate ].
    destruct (q x) as [bq |] eqn:Eq; [| discriminate ].
    cbn in Ha, Ho.
    destruct (filterC p rest) as [ka |]; [| discriminate ].
    destruct (filterC q rest) as [ko |]; [| discriminate ].
    cbn in Ha, Ho. inversion Ha. inversion Ho.
    specialize (IH ka ko eq_refl eq_refl).
    destruct bp.
    + rewrite (Hpq x Ep) in Eq. inversion Eq. constructor. exact IH.
    + destruct bq; [constructor |]; exact IH.
Qed.

(** C10.  For a non-empty list of conditions: a record that passes the
    AND combination passes the OR combination; and whenever both calls of
    [applyFilters] return, the AND result is a subsequence (so a subset) of
    the OR result. *)
Theorem and_result_within_or_result (data : list JsValue) (conditions : list FilterCondition) :
  conditions <> [] ->
  (forall record,
     passes conditions "AND" record = Normal true ->
     passes conditions "OR" record = Normal true) /\
  (forall la lo,
     applyFilters data conditions "AND" = Normal la ->
     applyFilters data conditions "OR" = Normal lo ->
     Subseq la lo /\ incl la lo).
Proof.
  intros Hne.
  assert (Hpass : forall record,
             passes conditions "AND" record = Normal true ->
             passes conditions "OR" record = Normal true).
  { intros record. unfold passes. cbn [String.eqb Ascii.eqb Bool.eqb].
    apply every_true_some_true. exact Hne. }
  assert (Hsub : forall la lo,
             applyFilters data conditions "AND" = Normal la ->
             applyFilters data conditions "OR" = Normal lo ->
             Subseq la lo).
  { intros la lo. unfold applyFilters.
    destruct conditions as [| c0 rest]; [congruence |]. cbn [isEmptyList].
    apply filterC_subseq. exact Hpass. }
  split; [exact Hpass |].
  intros la lo Ha Ho. split; [| apply Subseq_incl ]; exact (Hsub la lo Ha Ho).
Qed.

End RunnerProperties.

(* ================================================================== *)
(** * The engine on the reference runtime *)
(* ================================================================== *)

#[local] Existing Instance Reference.runtime.

(** ** The scenarios of the specification *)

Definition withSalary (x : float) : JsValue := JObj [("salary", JNum x)].

(** [between] is inclusive on both bounds. *)
Example between_is_inclusive :
  let c := mkCondition "salary" "amount" "between"
             (JObj [("min", JNum 50000); ("max", JNum 100000)]) in
  validateCondition c = Normal None /\
  map (fun x => evaluateCondition (withSalary x) c) [49999; 50000; 100000; 100001]%float
    = [Normal false; Normal true; Normal true; Normal false].
Proof. split; reflexivity. Qed.

(** The bounds typed into the form arrive as strings or as numbers. *)
Example between_on_string_bounds :
  let c := mkCondition "salary" "amount" "between"
             (JObj [("min", JStr "5e4"); ("max", JStr " 100000 ")]) in
  validateCondition c = Normal None /\
  evaluateCondition john c = Normal true.
Proof. split; reflexivity. Qed.

(** Text operators ignore case. *)
Example contains_ignores_case :
  evaluateCondition (JObj [("name", JStr "John Smith")])
    (mkCondition "name" "text" "contains" (JStr "john")) = Normal true.
Proof. reflexivity. Qed.

Example containsAll_needs_every_element :
  let c := mkCondition "skills" "multiSelect" "containsAll"
             (JArr [JStr "React"; JStr "TypeScript"]) in
  evaluateCondition
    (JObj [("skills", JArr [JStr "React"; JStr "TypeScript"; JStr "AWS"])]) c = Normal true /\
  evaluateCondition (JObj [("skills", JArr [JStr "React"])]) c = Normal false.
Proof. split; reflexivity. Qed.

(** A dotted path reaches into nested objects; a record without the
    intermediate object does not match, and nothing is thrown. *)
Example nested_path_resolves :
  let c := {| id := "c2"; field := "address.city"; fieldType := "text";
              operator := "equals"; value := JStr "NYC";
              nestedKey := Some "address.city"; logicalOperator := None |} in
  validateCondition c = Normal None /\
  evaluateCondition john c = Normal true /\
  evaluateCondition anonymous c = Normal false.
Proof. repeat split. Qed.

(** Dates compare by calendar day for [equals] and by instant otherwise. *)
Example date_operators :
  let record := JObj [("joinDate", JStr "2021-03-15T09:30:00Z")] in
  map (fun c => evaluateCondition record c)
    [ mkCondition "joinDate" "date" "equals" (JStr "2021-03-15");
      mkCondition "joinDate" "date" "before" (JStr "2021-03-15");
      mkCondition "joinDate" "date" "after" (JStr "2021-03-15");
      mkCondition "joinDate" "date" "between"
        (JObj [("from", JStr "2021-01-01"); ("to", JStr "2021-12-31")]) ]
    = [Normal true; Normal false; Normal true; Normal true].
Proof. reflexivity. Qed.

(** The reference runtime on numbers and patterns. *)
Example reference_numbers :
  map Reference.StringToNumber ["42"; " 4.5 "; "1e3"; "0x1F"; ""; "abc"; "-Infinity"]
    = [42; 4.5; 1000; 31; 0; PrimFloat.nan; PrimFloat.neg_infinity]%float /\
  map Reference.NumberToString [95000; 4.5; 1e21; 0.125; 1 / 3; PrimFloat.nan]%float
    = ["95000"; "4.5"; "1e+21"; "0.125"; "0.3333333333333333"; "NaN"].
Proof. split; reflexivity. Qed.

Example reference_patterns :
  map Reference.RegExp_new ["("; "[a-Z]"; "*a"; "a)"]
    = [Throw SyntaxError; Throw SyntaxError; Throw SyntaxError; Throw SyntaxError] /\
  map (fun p => match Reference.RegExp_new p with
                | Normal re => Reference.RegExp_test re "John Smith"
                | Throw _ => false
                end)
      ["^john"; "smith$"; "^smith"; "j.*h"; "[0-9]"; "(jane|john) s"]
    = [true; true; false; true; false; true].
Proof. split; reflexivity. Qed.

(** Conversions of arrays and objects: an array converts through its
    elements, an object with an own [toString] property does not convert,
    and an own [valueOf] property changes nothing. *)
Example conversions_of_objects :
  map ToString
    [ JArr [JNum 1; JNull; JArr [JStr "a"; JUndefined]; JBool true];
      JObj [("valueOf", JNum 1)];
      JObj [("toString", JNum 1)];
      JArr [JStr "a"; JObj [("toString", JNull)]] ]
    = [Normal "1,,a,,true"; Normal "[object Object]"; Throw TypeError; Throw TypeError] /\
  map ToNumber [JArr [JStr "5"]; JArr []; JObj [("toString", JStr "5")]]
    = [Normal 5%float; Normal 0%float; Throw TypeError] /\
  map plain [JObj [("valueOf", JNum 1)]; JArr [JStr "a"; JObj [("toString", JNull)]]]
    = [true; false].
Proof. repeat split. Qed.

(** ** C1 *)

(** An unknown field with an empty operator: the operator check of step 2
    runs before the registry lookup of step 3, and the condition is
    reported with an operator error, not a field error. *)
Lemma unknown_field_missing_operator :
  let c := mkCondition "bogus" "text" "" (JStr "x") in
  getFieldDefinition (field c) = None /\
  validateCondition c = Normal (Some (operatorError "Please select an operator")) /\
  isFieldError (operatorError "Please select an operator") = false.
Proof. repeat split. Qed.

Lemma unknown_field_error_witness :
  let c := mkCondition "bogus" "number" "equals" JNull in
  getFieldDefinition (field c) = None /\
  exists e,
    validateCondition c = Normal (Some e) /\
    isValueError e = false /\
    isFieldError e = negb (isOperatorError e) /\
    (isFieldError e = true <-> field c = "" \/ operator c <> "") /\
    (isOperatorError e = true <-> field c <> "" /\ operator c = "").
Proof.
  intros c. split; [reflexivity |].
  apply (unknown_field_error c). reflexivity.
Defined.

(** ** C3 *)

(** [salary] is an amount field, but a condition on it that declares
    itself a text condition is validated as text: ["abc"] is accepted,
    where the checks of the definition's type reject it. *)
Lemma declared_type_decides_value_checks :
  let c := mkCondition "salary" "text" "equals" (JStr "abc") in
  exists def,
    getFieldDefinition (field c) = Some def /\
    type def = "amount" /\
    validateCondition c = Normal None /\
    validateValue (type def) (operator c) (value c)
      = Normal (Some (valueError "Value must be a valid number")).
Proof. eexists. repeat split. Qed.

Lemma value_checked_against_declared_type_witness :
  let c := mkCondition "salary" "text" "equals" (JStr "abc") in
  exists def,
    getFieldDefinition (field c) = Some def /\
    existsb (String.eqb (operator c)) (operators def) = true /\
    validateCondition c = validateValue "text" "equals" (JStr "abc").
Proof.
  intros c. eexists. split; [reflexivity |]. split; [reflexivity |].
  eapply (value_checked_against_declared_type c); reflexivity.
Defined.

(** ** C7 *)

(** The string ["Infinity"] is accepted although it does not stand for a
    finite number, and the number [0], which does, is rejected by the
    presence check. *)
Lemma infinity_accepted_zero_rejected :
  let inf := mkCondition "projects" "number" "equals" (JStr "Infinity") in
  let zero := mkCondition "projects" "number" "equals" (JNum 0) in
  (validateCondition inf = Normal None /\
   ToNumber (value inf) = Normal PrimFloat.infinity /\
   PrimFloat.is_finite PrimFloat.infinity = false) /\
  (validateCondition zero = Normal (Some (valueError "Value is required")) /\
   ToNumber (value zero) = Normal PrimFloat.zero /\
   PrimFloat.is_finite PrimFloat.zero = true).
Proof. repeat split. Qed.

Lemma number_value_validity_witness :
  let c := mkCondition "salary" "amount" "greaterThan" (JNum 90000) in
  validateCondition c = Normal None <->
  isBlank (value c) = false /\
  exists x, ToNumber (value c) = Normal x /\ PrimFloat.is_nan x = false.
Proof.
  intros c. eapply (number_value_validity c).
  - reflexivity.
  - reflexivity.
  - right. reflexivity.
  - discriminate.
  - intros x Hx. injection Hx as <-. reflexivity.
  - discriminate.
Defined.

(** ** C2 *)



(** Validation is what keeps the evaluator from reading a payload that
    is not there: a [between] condition without a payload is rejected by
    the validator, and evaluating it all the same raises a TypeError. *)
Lemma unvalidated_between_throws :
  let c := mkCondition "salary" "amount" "between" JNull in
  validateCondition c = Normal (Some (valueError "Value is required")) /\
  evaluateCondition john c = Throw TypeError.
Proof. repeat split. Qed.

(** The record side: a text condition that passes validation throws on
    a record whose value for the field has no string form. *)
Lemma unprintable_record_value_throws :
  let c := mkCondition "name" "text" "contains" (JStr "john") in
  let record := JObj [("name", JObj [("toString", JNum 1)])] in
  validateCondition c = Normal None /\
  plain record = false /\
  evaluateCondition record c = Throw TypeError.
Proof. repeat split. Qed.

(** The validator itself throws on a number condition whose value has no
    string form. *)
Lemma validation_of_unprintable_number_throws :
  validateCondition (mkCondition "salary" "amount" "equals" (JObj [("toString", JNum 1)]))
    = Throw TypeError.
Proof. reflexivity. Qed.

(** ** C4 *)

Lemma unknown_fieldType_matches_every_record_witness :
  let c := mkCondition "salary" "currency" "equals" (JStr "no such salary") in
  ~ In (fieldType c) knownFieldTypes /\
  evaluateCondition john c = Normal true.
Proof.
  intros c.
  assert (H : ~ In (fieldType c) knownFieldTypes).
  { cbn. intuition discriminate. }
  split; [exact H |].
  apply (unknown_fieldType_matches_every_record john c H).
Defined.

(** ** C5 *)

(** On a record without a [name], [contains] and [notContains] are both
    [false]. *)
Lemma absent_text_fails_contains_and_notContains :
  let c := mkCondition "name" "text" "contains" (JStr "john") in
  getNestedValue anonymous (fieldKeyOf c) = JUndefined /\
  evaluateCondition anonymous (withOperator c "contains") = Normal false /\
  evaluateCondition anonymous (withOperator c "notContains") = Normal false.
Proof. repeat split. Qed.

Lemma notContains_negates_contains_witness :
  let c := mkCondition "name" "text" "contains" (JStr "OH") in
  evaluateCondition john (withOperator c "contains") = Normal true /\
  evaluateCondition john (withOperator c "notContains") =
    (b <- evaluateCondition john (withOperator c "contains") ;;
     Normal (if isNullish (getNestedValue john (fieldKeyOf c)) then false else negb b)).
Proof.
  intros c. split; [reflexivity |].
  exact (proj1 (notContains_negates_contains john c eq_refl)).
Defined.

(** ** C6 *)

Lemma absent_value_membership_witness :
  let single := mkCondition "department" "singleSelect" "is" (JStr "Sales") in
  let multi := mkCondition "skills" "multiSelect" "in" (JArr [JStr "React"]) in
  (evaluateCondition anonymous (withOperator single "isNot") = Normal true /\
   evaluateCondition anonymous (withOperator single "is") = Normal false) /\
  (evaluateCondition anonymous (withOperator multi "notIn") = Normal true /\
   evaluateCondition anonymous (withOperator multi "in") = Normal false) /\
  evaluateCondition anonymous (withOperator multi "containsAll") = Normal false.
Proof.
  intros single multi.
  destruct (absent_value_membership anonymous single) as [Hs _].
  destruct (absent_value_membership anonymous multi) as [_ [Hm Hall]].
  split; [apply Hs; reflexivity |].
  split; [apply Hm; [reflexivity | left; reflexivity] |].
  apply Hall; reflexivity.
Defined.

(** ** C8 *)

(** The scalar [0] against the filter [[0]]: as a record value it is
    taken for an absent value and [in] fails; the one-element array [[0]]
    matches. *)
Lemma falsy_scalar_is_not_its_singleton :
  let c := mkCondition "skills" "multiSelect" "in" (JArr [JNum 0]) in
  let scalar := JObj [("skills", JNum 0)] in
  let singleton := JObj [("skills", JArr [JNum 0])] in
  evaluateCondition scalar c = Normal false /\
  evaluateCondition singleton c = Normal true.
Proof. repeat split. Qed.

Lemma truthy_scalar_as_singleton_witness :
  let c := mkCondition "skills" "multiSelect" "containsAll" (JArr [JStr "React"]) in
  let scalar := JObj [("skills", JStr "React")] in
  let singleton := JObj [("skills", JArr [JStr "React"])] in
  evaluateCondition scalar c = evaluateCondition singleton c.
Proof.
  intros c scalar singleton.
  eapply (truthy_scalar_as_singleton scalar singleton c (JStr "React"));
    reflexivity.
Defined.

(** ** C9 *)

(** The pattern [(] does not compile, and a [regex] condition with it
    matches no plain record. *)
Lemma unbalanced_pattern_matches_nothing (record : JsValue) :
  plain record = true ->
  evaluateCondition record (mkCondition "name" "text" "regex" (JStr "(")) = Normal false.
Proof.
  intros Hrecord. rewrite evaluateCondition_text by reflexivity.
  apply (regex_malformed_is_false _ _ "(" SyntaxError); [reflexivity | reflexivity |].
  right. apply ToString_plain, getNestedValue_plain, Hrecord.
Qed.

(** C9, at the failing input.  The pattern [[a-Z]] does not compile (its
    range is out of order), yet the [regex] condition with this value
    passes validation and matches the record whose name is [John]: what is
    compiled is the lower-cased pattern, [[a-z]]. *)
Theorem malformed_pattern_matches_after_lowering :
  let c := mkCondition "name" "text" "regex" (JStr "[a-Z]") in
  RegExp_new "[a-Z]" = Throw SyntaxError /\
  toLowerCase "[a-Z]" = "[a-z]" /\
  validateCondition c = Normal None /\
  evaluateCondition john c = Normal true.
Proof. repeat split. Qed.

(** ** C10 *)

Lemma and_result_within_or_result_witness :
  let conditions :=
    [ mkCondition "department" "singleSelect" "is" (JStr "Engineering");
      mkCondition "salary" "amount" "greaterThan" (JNum 90000) ] in
  let data := [john; anonymous; jane] in
  conditions <> [] /\
  applyFilters data conditions "AND" = Normal [john] /\
  applyFilters data conditions "OR" = Normal [john; jane] /\
  Subseq [john] [john; jane] /\ incl [john] [john; jane].
Proof.
  intros conditions data.
  assert (Hne : conditions <> []) by discriminate.
  split; [exact Hne |]. split; [reflexivity |]. split; [reflexivity |].
  destruct (and_result_within_or_result data conditions Hne) as [_ Hsub].
  exact (Hsub [john] [john; jane] eq_refl eq_refl).
Defined.

(* ================================================================== *)
(** * Further properties of the runner *)
(* ================================================================== *)

Section RunnerAlgebra.
Context {rt : Runtime}.

Lemma filterC_always {A : Type} (l : list A) :
  filterC (fun _ => Normal true) l = Normal l.
Proof. induction l as [| x rest IH]; cbn; [| rewrite IH ]; reflexivity. Qed.

(** [applyFilters] is the filter by [passes] also for the empty list of
    conditions, where [every] is vacuously true. *)
Lemma applyFilters_and (data : list JsValue) (conditions : list FilterCondition) :
  applyFilters data conditions "AND" = filterC (passes conditions "AND") data.
Proof.
  unfold applyFilters. destruct conditions as [| c rest]; [| reflexivity ].
  cbn. symmetry. apply filterC_always.
Qed.

Lemma filterC_kept_pass {A : Type} (p : A -> Completion bool) (l kept : list A) :
  filterC p l = Normal kept -> Forall (fun x => p x = Normal true) kept.
Proof.
  revert kept. induction l as [| x rest IH]; cbn; intros kept H.
  - inversion H. constructor.
  - destruct (p x) as [b |] eqn:Ep; [| discriminate ]. cbn in H.
    destruct (filterC p rest) as [k |]; [| discriminate ]. cbn in H.
    inversion H. destruct b; [constructor |]; auto.
Qed.

Lemma filterC_of_passing {A : Type} (p : A -> Completion bool) (l : list A) :
  Forall (fun x => p x = Normal true) l -> filterC p l = Normal l.
Proof.
  induction 1 as [| x rest Hx _ IH]; cbn; [reflexivity |].
  rewrite Hx, IH. reflexivity.
Qed.

Lemma filterC_subseq_input {A : Type} (p : A -> Completion bool) (l kept : list A) :
  filterC p l = Normal kept -> Subseq kept l.
Proof.
  revert kept. induction l as [| x rest IH]; cbn; intros kept H.
  - inversion H. constructor.
  - destruct (p x) as [b |]; [| discriminate ]. cbn in H.
    destruct (filterC p rest) as [k |]; [| discriminate ]. cbn in H.
    inversion H. destruct b; constructor; auto.
Qed.

(** X1.  Whatever the conditions and the combination mode, a result of
    [applyFilters] is a subsequence of the input: every record it returns
    is a record of the input, and the records keep their order. *)
Theorem applyFilters_keeps_order (data : list JsValue) (conditions : list FilterCondition)
    (logicalOperator : string) (result : list JsValue) :
  applyFilters data conditions logicalOperator = Normal result ->
  Subseq result data /\ incl result data /\ (List.length result <= List.length data)%nat.
Proof.
  intros H.
  assert (Hsub : Subseq result data).
  { unfold applyFilters in H. destruct (isEmptyList conditions).
    - inversion H. clear. induction result; constructor; auto.
    - exact (filterC_subseq_input _ _ _ H). }
  split; [exact Hsub |]. split; [exact (Subseq_incl _ _ Hsub) |].
  clear H. induction Hsub; cbn; lia.
Qed.

(** X2.  Filtering is idempotent: applying the same conditions to a
    result of [applyFilters] returns that result unchanged. *)
Theorem applyFilters_idempotent (data : list JsValue) (conditions : list FilterCondition)
    (logicalOperator : string) (result : list JsValue) :
  applyFilters data conditions logicalOperator = Normal result ->
  applyFilters result conditions logicalOperator = Normal result.
Proof.
  unfold applyFilters. destruct (isEmptyList conditions); [reflexivity |].
  intros H. apply filterC_of_passing. exact (filterC_kept_pass _ _ _ H).
Qed.

Lemma every_app {A : Type} (p : A -> Completion bool) (l1 l2 : list A) :
  every p (l1 ++ l2) = (b <- every p l1 ;; if b then every p l2 else Normal false).
Proof.
  induction l1 as [| x rest IH]; cbn.
  - destruct (every p l2) as [[|] |]; reflexivity.
  - destruct (p x) as [[|] |]; cbn; auto.
Qed.

Lemma filterC_conjunction {A : Type} (p q : A -> Completion bool) (l kept : list A) :
  filterC (fun x => b <- p x ;; if b then q x else Normal false) l = Normal kept <->
  exists mid, filterC p l = Normal mid /\ filterC q mid = Normal kept.
Proof.
  revert kept. induction l as [| x rest IH]; cbn; intros kept.
  - split.
    + intros H. exists []. split; [reflexivity | exact H].
    + intros [mid [Hm Hk]]. inversion Hm. subst mid. exact Hk.
  - destruct (p x) as [bp |] eqn:Ep; cbn.
    2:{ split; [discriminate | intros [mid [Hm _]]; discriminate ]. }
    destruct bp; cbn.
    + destruct (q x) as [bq |] eqn:Eq; cbn.
      2:{ split; [discriminate |]. intros [mid [Hm Hk]].
          destruct (filterC p rest) as [m |]; [| discriminate ]. cbn in Hm.
          inversion Hm. subst mid. cbn in Hk. rewrite Eq in Hk. discriminate. }
      destruct (filterC (fun x0 => b <- p x0;; (if b then q x0 else Normal false)) rest)
        as [k |] eqn:Ek; cbn.
      * destruct (proj1 (IH k) eq_refl) as [m [Hm Hk]].
        rewrite Hm. cbn. split.
        -- intros H. exists (x :: m). split; [reflexivity |].
           cbn. rewrite Eq, Hk. exact H.
        -- intros [mid [Hmid Hkept]]. inversion Hmid. subst mid.
           cbn in Hkept. rewrite Eq, Hk in Hkept. exact Hkept.
      * split; [discriminate |]. intros [mid [Hmid Hkept]].
        destruct (filterC p rest) as [m |] eqn:Em; [| discriminate ]. cbn in Hmid.
        inversion Hmid. subst mid. cbn in Hkept. rewrite Eq in Hkept. cbn in Hkept.
        destruct (filterC q m) as [k |] eqn:Eqm; [| discriminate ].
        assert (Hex : exists mid, Normal m = Normal mid /\ filterC q mid = Normal k)
          by (exists m; auto).
        apply (proj2 (IH k)) in Hex. discriminate.
    + destruct (filterC (fun x0 => b <- p x0;; (if b then q x0 else Normal false)) rest)
        as [k |] eqn:Ek; cbn.
      * destruct (proj1 (IH k) eq_refl) as [m [Hm Hk]].
        rewrite Hm. cbn. split.
        -- intros H. exists m. split; [reflexivity |]. rewrite Hk. exact H.
        -- intros [mid [Hmid Hkept]]. inversion Hmid. subst mid.
           rewrite Hk in Hkept. exact Hkept.
      * split; [discriminate |]. intros [mid [Hmid Hkept]].
        destruct (filterC p rest) as [m |] eqn:Em; [| discriminate ]. cbn in Hmid.
        inversion Hmid. subst mid.
        assert (Hex : exists mid, Normal m = Normal mid /\ filterC q mid = Normal kept)
          by (exists m; auto).
        apply (proj2 (IH kept)) in Hex. discriminate.
Qed.

Lemma filterC_ext {A : Type} (p q : A -> Completion bool) (l : list A) :
  (forall x, p x = q x) -> filterC p l = filterC q l.
Proof.
  intros H. induction l as [| x rest IH]; cbn; [reflexivity |].
  rewrite H, IH. reflexivity.
Qed.

(** X3.  AND composes: filtering by the conditions [cs1 ++ cs2] returns
    [result] exactly when filtering by [cs1] returns some list and
    filtering that list by [cs2] returns [result].  This holds for all
    conditions, also ones whose evaluation throws, and for empty lists. *)
Theorem and_filters_compose (data : list JsValue) (cs1 cs2 : list FilterCondition)
    (result : list JsValue) :
  applyFilters data (cs1 ++ cs2) "AND" = Normal result <->
  exists mid,
    applyFilters data cs1 "AND" = Normal mid /\
    applyFilters mid cs2 "AND" = Normal result.
Proof.
  rewrite !applyFilters_and.
  rewrite (filterC_ext (passes (cs1 ++ cs2) "AND")
             (fun r => b <- passes cs1 "AND" r ;;
                       if b then passes cs2 "AND" r else Normal false)).
  - rewrite filterC_conjunction. split; intros [mid H]; exists mid;
      [ rewrite applyFilters_and | rewrite applyFilters_and in H ]; exact H.
  - intros r. unfold passes. cbn [String.eqb Ascii.eqb Bool.eqb]. apply every_app.
Qed.

(** X4.  With a single condition the combination mode is irrelevant:
    AND, OR and any other mode string give the same outcome. *)
Theorem single_condition_ignores_mode (data : list JsValue) (c : FilterCondition)
    (mode1 mode2 : string) :
  applyFilters data [c] mode1 = applyFilters data [c] mode2.
Proof.
  unfold applyFilters. cbn [isEmptyList]. apply filterC_ext. intros r.
  unfold passes. destruct (String.eqb mode1 "AND"), (String.eqb mode2 "AND"); cbn;
    destruct (evaluateCondition r c) as [[|] |]; reflexivity.
Qed.

Lemma every_valid (record : JsValue) (conditions : list FilterCondition) :
  plain record = true ->
  Forall (fun c => validateCondition c = Normal None) conditions ->
  Forall (fun c => plain (value c) = true) conditions ->
  every (fun c => evaluateCondition record c) conditions
    = Normal (forallb (holds record) conditions).
Proof.
  intros Hrecord Hvalid. induction Hvalid as [| c rest Hc _ IH]; cbn; [reflexivity |].
  intros Hplain. inversion Hplain as [| c' rest' Hp Hrest ]. subst.
  unfold holds at 1.
  destruct (valid_condition_evaluates record c Hc Hp Hrecord) as [b Hb]. rewrite Hb. cbn.
  destruct b; [exact (IH Hrest) | reflexivity].
Qed.

Lemma some_valid (record : JsValue) (conditions : list FilterCondition) :
  plain record = true ->
  Forall (fun c => validateCondition c = Normal None) conditions ->
  Forall (fun c => plain (value c) = true) conditions ->
  some (fun c => evaluateCondition record c) conditions
    = Normal (existsb (holds record) conditions).
Proof.
  intros Hrecord Hvalid. induction Hvalid as [| c rest Hc _ IH]; cbn; [reflexivity |].
  intros Hplain. inversion Hplain as [| c' rest' Hp Hrest ]. subst.
  unfold holds at 1.
  destruct (valid_condition_evaluates record c Hc Hp Hrecord) as [b Hb]. rewrite Hb. cbn.
  destruct b; [reflexivity | exact (IH Hrest)].
Qed.

Lemma filterC_pure {A : Type} (p : A -> Completion bool) (pb : A -> bool) (l : list A) :
  Forall (fun x => p x = Normal (pb x)) l -> filterC p l = Normal (filter pb l).
Proof.
  induction 1 as [| x rest Hx _ IH]; cbn; [reflexivity |].
  rewrite Hx, IH. cbn. reflexivity.
Qed.

(** On plain records, conditions that pass validation and have plain
    values are combined without a throw. *)
Lemma passes_valid (conditions : list FilterCondition) (mode : string) (record : JsValue) :
  plain record = true ->
  Forall (fun c => validateCondition c = Normal None) conditions ->
  Forall (fun c => plain (value c) = true) conditions ->
  passes conditions mode record
    = Normal (if String.eqb mode "AND" then forallb (holds record) conditions
              else existsb (holds record) conditions).
Proof.
  intros Hrecord Hvalid Hplain. unfold passes.
  destruct (String.eqb mode "AND"); [apply every_valid | apply some_valid]; assumption.
Qed.

Lemma mirrored_conditions_paths (conditions : list FilterCondition) :
  Forall (fun c => validateCondition c = Normal None) conditions ->
  Forall mirrorsRegistry conditions ->
  Forall (fun c => In (fieldKeyOf c) (map key fieldDefinitions)) conditions.
Proof.
  intros Hvalid Hmirror. apply Forall_forall. intros c Hc.
  rewrite Forall_forall in Hvalid, Hmirror.
  destruct (validateCondition_None_field c (Hvalid c Hc)) as [def Hdef].
  exact (proj2 (mirrored_condition_path c def Hdef (Hmirror c Hc))).
Qed.

(** X5.  With conditions that pass validation, mirror the registry and
    have plain values, on plain records, the runner reads the records at
    paths of the registry, never throws and computes the plain filter: for
    a non-empty list, AND keeps exactly the records of which every
    condition holds and any other mode those of which some condition
    holds, in the order of the input; for the empty list every record is
    kept. *)
Theorem applyFilters_is_filter (data : list JsValue) (conditions : list FilterCondition)
    (logicalOperator : string) :
  Forall (fun c => validateCondition c = Normal None) conditions ->
  Forall mirrorsRegistry conditions ->
  Forall (fun c => plain (value c) = true) conditions ->
  Forall (fun record => plain record = true) data ->
  Forall (fun c => In (fieldKeyOf c) (map key fieldDefinitions)) conditions /\
  applyFilters data conditions logicalOperator =
    Normal (if isEmptyList conditions then data
            else if String.eqb logicalOperator "AND"
                 then filter (fun r => forallb (holds r) conditions) data
                 else filter (fun r => existsb (holds r) conditions) data).
Proof.
  intros Hvalid Hmirror Hplain Hdata.
  split; [exact (mirrored_conditions_paths conditions Hvalid Hmirror) |].
  unfold applyFilters.
  destruct (isEmptyList conditions); [reflexivity |].
  destruct (String.eqb logicalOperator "AND") eqn:Emode; apply filterC_pure;
    (eapply Forall_impl; [| exact Hdata ]); cbn; intros r Hr;
    rewrite (passes_valid conditions logicalOperator r Hr Hvalid Hplain), Emode;
    reflexivity.
Qed.

End RunnerAlgebra.

(* ================================================================== *)
(** * Further properties of the evaluators *)
(* ================================================================== *)

(** ** Comparison of IEEE numbers *)

Lemma float_leb_ltb_eqb (x y : float) :
  PrimFloat.leb x y = PrimFloat.ltb x y || PrimFloat.eqb x y.
Proof.
  rewrite leb_spec, ltb_spec, eqb_spec. unfold SFleb, SFltb, SFeqb.
  destruct (SFcompare _ _) as [[| |] |]; reflexivity.
Qed.

Lemma SFcompare_antisym (f1 f2 : spec_float) (c : comparison) :
  SFcompare f1 f2 = Some c -> SFcompare f2 f1 = Some (CompOpp c).
Proof.
  destruct f1 as [s1 | s1 | | s1 m1 e1], f2 as [s2 | s2 | | s2 m2 e2]; cbn;
    try discriminate;
    try (destruct s1; intros H; inversion H; reflexivity);
    try (destruct s2; intros H; inversion H; reflexivity);
    try (intros H; inversion H; reflexivity).
  - destruct s1, s2; intros H; inversion H; reflexivity.
  - destruct s1, s2; intros H; inversion H; try reflexivity;
      rewrite (Z.compare_antisym e1 e2); destruct (Z.compare e1 e2); cbn;
      try reflexivity;
      rewrite (Pos.compare_cont_antisym m1 m2 Eq); reflexivity.
Qed.

Lemma float_not_nan (x : float) :
  PrimFloat.is_nan x = false -> Prim2SF x <> S754_nan.
Proof.
  unfold PrimFloat.is_nan. rewrite eqb_spec. intros H E. rewrite E in H. discriminate.
Qed.

Lemma SFcompare_defined (f1 f2 : spec_float) :
  f1 <> S754_nan -> f2 <> S754_nan -> exists c, SFcompare f1 f2 = Some c.
Proof.
  destruct f1, f2; cbn; intros H1 H2; try congruence; eauto.
Qed.

(** Two numbers that are not [NaN] are in exactly one of the relations
    [<], [===] and [>]. *)
Lemma float_trichotomy (x y : float) :
  PrimFloat.is_nan x = false -> PrimFloat.is_nan y = false ->
  (PrimFloat.ltb x y, PrimFloat.eqb x y, PrimFloat.ltb y x) = (true, false, false) \/
  (PrimFloat.ltb x y, PrimFloat.eqb x y, PrimFloat.ltb y x) = (false, true, false) \/
  (PrimFloat.ltb x y, PrimFloat.eqb x y, PrimFloat.ltb y x) = (false, false, true).
Proof.
  intros Hx Hy. apply float_not_nan in Hx, Hy.
  destruct (SFcompare_defined _ _ Hx Hy) as [c Hc].
  pose proof (SFcompare_antisym _ _ _ Hc) as Hc'.
  rewrite !ltb_spec, eqb_spec. unfold SFltb, SFeqb. rewrite Hc, Hc'.
  destruct c; cbn; auto.
Qed.

Lemma float_leb_negb_ltb (x y : float) :
  PrimFloat.is_nan x = false -> PrimFloat.is_nan y = false ->
  PrimFloat.leb x y = negb (PrimFloat.ltb y x).
Proof.
  intros Hx Hy. rewrite float_leb_ltb_eqb.
  destruct (float_trichotomy x y Hx Hy) as [H | [H | H]]; injection H as H1 H2 H3;
    rewrite H1, H2, H3; reflexivity.
Qed.

Lemma float_eqb_sym (x y : float) : PrimFloat.eqb x y = PrimFloat.eqb y x.
Proof.
  rewrite !eqb_spec. unfold SFeqb.
  destruct (SFcompare (Prim2SF x) (Prim2SF y)) as [c |] eqn:E.
  - rewrite (SFcompare_antisym _ _ _ E). destruct c; reflexivity.
  - destruct (SFcompare (Prim2SF y) (Prim2SF x)) as [c' |] eqn:E'; [| reflexivity ].
    rewrite (SFcompare_antisym _ _ _ E') in E. discriminate.
Qed.

Section EvaluatorAlgebra.
Context {rt : Runtime}.

(** ** Numbers *)

(** X6.  On a number or amount condition, [lessThanOrEqual] is
    [lessThan] or [equals], and [greaterThanOrEqual] is [greaterThan] or
    [equals], on every record and for every filter value: the composite
    operator returns the disjunction of what the two others return, and
    throws when they throw. *)
Theorem orEqual_operators_decompose (record : JsValue) (c : FilterCondition) :
  fieldType c = "number" \/ fieldType c = "amount" ->
  evaluateCondition record (withOperator c "lessThanOrEqual") =
    (lt <- evaluateCondition record (withOperator c "lessThan") ;;
     eq <- evaluateCondition record (withOperator c "equals") ;;
     Normal (lt || eq)) /\
  evaluateCondition record (withOperator c "greaterThanOrEqual") =
    (gt <- evaluateCondition record (withOperator c "greaterThan") ;;
     eq <- evaluateCondition record (withOperator c "equals") ;;
     Normal (gt || eq)).
Proof.
  intros Hft. rewrite !evaluateCondition_number by exact Hft.
  rewrite !withOperator_fieldKeyOf. cbn [withOperator operator value].
  unfold evaluateNumberFilter.
  destruct (isNullish _); [split; reflexivity |].
  destruct (ToNumber (getNestedValue record (fieldKeyOf c))) as [x | e];
    [| split; reflexivity ].
  cbn [bind]. destruct (PrimFloat.is_nan x); [split; reflexivity |].
  cbn [String.eqb Ascii.eqb Bool.eqb].
  destruct (ToNumber (value c)) as [y | e]; [| split; reflexivity ].
  cbn [bind]. split.
  - rewrite float_leb_ltb_eqb. reflexivity.
  - rewrite float_leb_ltb_eqb, float_eqb_sym. reflexivity.
Qed.

(** X7.  When the record value and the filter value both convert to
    numbers other than [NaN], exactly one of [lessThan], [equals] and
    [greaterThan] matches. *)
Theorem number_comparisons_exclusive (record : JsValue) (c : FilterCondition)
    (x y : float) :
  fieldType c = "number" \/ fieldType c = "amount" ->
  let v := getNestedValue record (fieldKeyOf c) in
  isNullish v = false ->
  ToNumber v = Normal x -> PrimFloat.is_nan x = false ->
  ToNumber (value c) = Normal y -> PrimFloat.is_nan y = false ->
  exists lt eq gt,
    evaluateCondition record (withOperator c "lessThan") = Normal lt /\
    evaluateCondition record (withOperator c "equals") = Normal eq /\
    evaluateCondition record (withOperator c "greaterThan") = Normal gt /\
    ((lt, eq, gt) = (true, false, false) \/
     (lt, eq, gt) = (false, true, false) \/
     (lt, eq, gt) = (false, false, true)).
Proof.
  intros Hft v Hv Hx Hxn Hy Hyn. rewrite !evaluateCondition_number by exact Hft.
  rewrite !withOperator_fieldKeyOf. cbn [withOperator operator value].
  unfold evaluateNumberFilter. fold v. rewrite Hv, Hx. cbn [bind]. rewrite Hxn, Hy. cbn.
  do 3 eexists. repeat split. exact (float_trichotomy _ _ Hxn Hyn).
Qed.

(** [between] on a payload that is not [null] or [undefined], when the
    record value and both bounds convert to numbers other than [NaN]. *)
Lemma between_is_closed_interval (record : JsValue) (c : FilterCondition)
    (x lo hi : float) :
  fieldType c = "number" \/ fieldType c = "amount" ->
  operator c = "between" ->
  let v := getNestedValue record (fieldKeyOf c) in
  isNullish (value c) = false ->
  isNullish v = false ->
  ToNumber v = Normal x -> PrimFloat.is_nan x = false ->
  ToNumber (getProp (value c) "min") = Normal lo -> PrimFloat.is_nan lo = false ->
  ToNumber (getProp (value c) "max") = Normal hi -> PrimFloat.is_nan hi = false ->
  evaluateCondition record c
    = Normal (negb (PrimFloat.ltb x lo) && negb (PrimFloat.ltb hi x)).
Proof.
  intros Hft Hop v Hpayload Hv Hx Hxn Hlo Hlon Hhi Hhin.
  rewrite evaluateCondition_number by exact Hft.
  unfold evaluateNumberFilter. fold v. rewrite Hv, Hx, Hop. cbn [bind]. rewrite Hxn. cbn.
  unfold getMember. rewrite Hpayload. cbn [bind]. rewrite Hlo, Hhi. cbn [bind].
  rewrite (float_leb_negb_ltb lo _ Hlon Hxn), (float_leb_negb_ltb _ hi Hxn Hhin).
  destruct (negb (PrimFloat.ltb x lo)); reflexivity.
Qed.

(** ** Selections *)

(** X9.  On a single-select condition [isNot] is the negation of [is] on
    every record, also on a record without a value for the field: [isNot]
    returns the negated result when [is] returns, and throws when [is]
    throws. *)
Theorem isNot_negates_is (record : JsValue) (c : FilterCondition) :
  fieldType c = "singleSelect" ->
  evaluateCondition record (withOperator c "isNot") =
    (b <- evaluateCondition record (withOperator c "is") ;; Normal (negb b)).
Proof.
  intros Hft. rewrite !evaluateCondition_singleSelect by exact Hft.
  rewrite !withOperator_fieldKeyOf. cbn [withOperator operator value].
  unfold evaluateSelectFilter. destruct (isNullish _); [reflexivity |].
  destruct (ToString (getNestedValue record (fieldKeyOf c))) as [s | e]; [| reflexivity ].
  cbn [bind]. destruct (ToString (value c)) as [f | e]; reflexivity.
Qed.

(** X10.  On a multi-select condition [notIn] is the negation of [in] on
    every record, whether the record value is an array, a scalar or
    absent. *)
Theorem notIn_negates_in (record : JsValue) (c : FilterCondition) :
  fieldType c = "multiSelect" ->
  exists b,
    evaluateCondition record (withOperator c "in") = Normal b /\
    evaluateCondition record (withOperator c "notIn") = Normal (negb b).
Proof.
  intros Hft. rewrite !evaluateCondition_multiSelect by exact Hft.
  rewrite !withOperator_fieldKeyOf. cbn [withOperator operator value].
  unfold evaluateMultiSelectFilter.
  destruct (negb (isArray _) && negb (truthy _)); cbn; eauto.
Qed.

Lemma SameValueZero_sym (a b : JsValue) : SameValueZero a b = SameValueZero b a.
Proof.
  destruct a, b; cbn; try reflexivity.
  - destruct b, b0; reflexivity.
  - rewrite float_eqb_sym. f_equal. apply andb_comm.
  - apply String.eqb_sym.
Qed.

(** X11.  On a multi-select condition with a non-empty filter list,
    [containsAll] implies [in]: a record that holds every filter value
    holds one of them. *)
Theorem containsAll_implies_in (record : JsValue) (c : FilterCondition)
    (f : JsValue) (filters : list JsValue) :
  fieldType c = "multiSelect" ->
  value c = JArr (f :: filters) ->
  evaluateCondition record (withOperator c "containsAll") = Normal true ->
  evaluateCondition record (withOperator c "in") = Normal true.
Proof.
  intros Hft Hvalue. rewrite !evaluateCondition_multiSelect by exact Hft.
  rewrite !withOperator_fieldKeyOf. cbn [withOperator operator value].
  unfold evaluateMultiSelectFilter. rewrite Hvalue.
  destruct (negb (isArray _) && negb (truthy _)); [discriminate |].
  cbn [isArray arrayItems String.eqb Ascii.eqb Bool.eqb forallb].
  intros H. inversion H as [Hall]. rewrite Hall. f_equal.
  apply andb_true_iff in Hall. destruct Hall as [Hf _].
  unfold arrayIncludes in Hf. apply existsb_exists in Hf. destruct Hf as [x [Hin Hx]].
  apply existsb_exists. exists x. split; [exact Hin |].
  unfold arrayIncludes. cbn. rewrite SameValueZero_sym, Hx. reflexivity.
Qed.

(** ** Booleans *)

Lemma toLowerCase_true_false (b : bool) :
  String.eqb (toLowerCase (if b then "true" else "false")) "true" = b.
Proof. destruct b; reflexivity. Qed.

(** X12.  A boolean condition compares the truthiness of the record value
    with the filter value and ignores the operator: with the filter value
    [true] it matches the records whose value is truthy, with [false] the
    others, among them the records without the field. *)
Theorem boolean_filter_by_truthiness (record : JsValue) (c : FilterCondition) (b : bool) :
  fieldType c = "boolean" ->
  value c = JBool b ->
  let v := getNestedValue record (fieldKeyOf c) in
  evaluateCondition record c = Normal (Bool.eqb (truthy v) b) /\
  (isNullish v = true -> evaluateCondition record c = Normal (negb b)).
Proof.
  intros Hft Hvalue v.
  assert (H : evaluateCondition record c = Normal (Bool.eqb (truthy v) b)).
  { rewrite evaluateCondition_boolean by exact Hft.
    unfold evaluateBooleanFilter. fold v. rewrite Hvalue.
    destruct b; reflexivity. }
  split; [exact H |]. intros Hv. rewrite H.
  destruct v; try discriminate; destruct b; reflexivity.
Qed.

End EvaluatorAlgebra.

(* ================================================================== *)
(** * Further properties of text matching and of paths *)
(* ================================================================== *)

Lemma startsWith_refl (s : string) : startsWith s s = true.
Proof. induction s as [| c rest IH]; cbn; [| rewrite Ascii.eqb_refl ]; auto. Qed.

Lemma startsWith_includes (s p : string) : startsWith s p = true -> includes s p = true.
Proof.
  intros H. destruct s as [| c rest].
  - destruct p; [reflexivity | discriminate].
  - cbn [includes]. rewrite H. reflexivity.
Qed.

Lemma startsWith_append (s p : string) :
  startsWith s p = true -> exists t, s = (p ++ t)%string.
Proof.
  revert s. induction p as [| a p' IH]; intros s H.
  - exists s. reflexivity.
  - destruct s as [| b s']; [discriminate |]. cbn in H.
    apply andb_true_iff in H. destruct H as [Hab Hrest].
    apply Ascii.eqb_eq in Hab. subst b.
    destruct (IH s' Hrest) as [t Ht]. exists t. cbn. rewrite Ht. reflexivity.
Qed.

Lemma revOnto_append (a b acc : string) :
  revOnto (a ++ b) acc = revOnto b (revOnto a acc).
Proof. revert acc. induction a as [| c a' IH]; intros acc; cbn; auto. Qed.

Lemma revOnto_revOnto (s acc acc' : string) :
  revOnto (revOnto s acc) acc' = revOnto acc (s ++ acc').
Proof.
  revert acc. induction s as [| c rest IH]; intros acc; cbn; [reflexivity |].
  rewrite IH. reflexivity.
Qed.

Lemma includes_revOnto (t q p : string) :
  includes q p = true -> includes (revOnto t q) p = true.
Proof.
  revert q. induction t as [| c t' IH]; intros q H; cbn; [exact H |].
  apply IH. cbn. rewrite H. apply orb_true_r.
Qed.

Lemma append_empty_r (s : string) : (s ++ "")%string = s.
Proof. induction s as [| c rest IH]; cbn; [| rewrite IH ]; reflexivity. Qed.

Lemma endsWith_includes (s p : string) : endsWith s p = true -> includes s p = true.
Proof.
  unfold endsWith. intros H.
  destruct (startsWith_append _ _ H) as [t Ht].
  assert (Hs : s = revOnto t p).
  { pose proof (revOnto_revOnto s EmptyString EmptyString) as Hrr. cbn in Hrr.
    rewrite append_empty_r in Hrr. rewrite <- Hrr, Ht.
    rewrite revOnto_append, revOnto_revOnto. cbn.
    rewrite append_empty_r. reflexivity. }
  rewrite Hs. apply includes_revOnto. apply startsWith_includes, startsWith_refl.
Qed.

Lemma split_append (sep : ascii) (p q : string) :
  split sep (p ++ String sep q) = (split sep p ++ split sep q)%list.
Proof.
  induction p as [| c rest IH]; cbn.
  - rewrite Ascii.eqb_refl. reflexivity.
  - rewrite IH. destruct (Ascii.eqb c sep); [reflexivity |].
    destruct (split sep rest) as [| seg segs] eqn:E; [| reflexivity ].
    destruct rest; cbn in E; [discriminate |].
    destruct (Ascii.eqb a sep); [discriminate |].
    destruct (split sep rest); discriminate.
Qed.

Lemma split_nonempty (sep : ascii) (s : string) : split sep s <> [].
Proof.
  destruct s as [| c rest]; cbn; [discriminate |].
  destruct (Ascii.eqb c sep); [discriminate |].
  destruct (split sep rest); discriminate.
Qed.

Section TextAndPaths.
Context {rt : Runtime}.

(** X13.  On a text condition the operators are ordered by strength: a
    record matched by [equals] is matched by [contains], [startsWith] and
    [endsWith] and not by [notContains]; a record matched by [startsWith]
    or by [endsWith] is matched by [contains]. *)
Theorem text_operators_by_strength (record : JsValue) (c : FilterCondition) :
  fieldType c = "text" ->
  (evaluateCondition record (withOperator c "equals") = Normal true ->
   evaluateCondition record (withOperator c "contains") = Normal true /\
   evaluateCondition record (withOperator c "startsWith") = Normal true /\
   evaluateCondition record (withOperator c "endsWith") = Normal true /\
   evaluateCondition record (withOperator c "notContains") = Normal false) /\
  (evaluateCondition record (withOperator c "startsWith") = Normal true ->
   evaluateCondition record (withOperator c "contains") = Normal true) /\
  (evaluateCondition record (withOperator c "endsWith") = Normal true ->
   evaluateCondition record (withOperator c "contains") = Normal true).
Proof.
  intros Hft. rewrite !evaluateCondition_text by exact Hft.
  rewrite !withOperator_fieldKeyOf. cbn [withOperator operator value].
  unfold evaluateTextFilter.
  destruct (isNullish _); [repeat split; discriminate |].
  destruct (ToString (getNestedValue record (fieldKeyOf c))) as [text | e];
    [| repeat split; discriminate ].
  cbn [bind].
  destruct (ToString (value c)) as [filterText | e]; [| repeat split; discriminate ].
  cbn.
  set (s := toLowerCase text).
  set (f := toLowerCase filterText).
  split; [| split ].
  - intros H. injection H as H. apply String.eqb_eq in H. rewrite H.
    unfold endsWith.
    rewrite (startsWith_includes _ _ (startsWith_refl f)), !startsWith_refl.
    repeat split.
  - intros H. injection H as H. rewrite (startsWith_includes _ _ H). reflexivity.
  - intros H. injection H as H. rewrite (endsWith_includes _ _ H). reflexivity.
Qed.

Lemma getNestedValue_append (obj : JsValue) (p q : string) :
  getNestedValue obj (p ++ String "." q) = getNestedValue (getNestedValue obj p) q.
Proof.
  unfold getNestedValue. rewrite split_append, fold_left_app. reflexivity.
Qed.

(** X14.  Paths compose: resolving [p.q.r] is resolving [p], then [q]
    and then [r] in what was found, for all paths [p], [q] and [r]; a path
    can be cut at any of its dots. *)
Theorem getNestedValue_composes (obj : JsValue) (p q r : string) :
  getNestedValue obj (p ++ String "." q) = getNestedValue (getNestedValue obj p) q /\
  getNestedValue obj (p ++ String "." (q ++ String "." r))
    = getNestedValue (getNestedValue (getNestedValue obj p) q) r.
Proof. rewrite !getNestedValue_append. split; reflexivity. Qed.

Lemma getProp_undefined (prop : string) : getProp JUndefined prop = JUndefined.
Proof. reflexivity. Qed.

Lemma fold_getProp_undefined (segments : list string) :
  fold_left getProp segments JUndefined = JUndefined.
Proof. induction segments as [| seg rest IH]; cbn; auto. Qed.

(** X15.  A missing intermediate node ends the walk without a failure:
    from [null] or [undefined] every path resolves to [undefined], so a
    path through a property the record does not have resolves to
    [undefined] whatever follows it. *)
Theorem getNestedValue_short_circuits (obj : JsValue) (p q : string) :
  isNullish (getNestedValue obj p) = true ->
  getNestedValue obj (p ++ String "." q) = JUndefined.
Proof.
  intros H. rewrite getNestedValue_append.
  destruct (getNestedValue obj p); try discriminate;
    unfold getNestedValue;
    (destruct (split "." q) as [| seg rest] eqn:E;
       [exfalso; exact (split_nonempty _ _ E) |]);
    cbn; apply fold_getProp_undefined.
Qed.

End TextAndPaths.

(* ================================================================== *)
(** * Further properties of the validator *)
(* ================================================================== *)

Section ValidatorAlgebra.
Context {rt : Runtime}.

Lemma validateShape_value_error (ft op : string) (v : JsValue) (e : ValidationError) :
  validateShape ft op v = Normal (Some e) -> exists msg, e = valueError msg.
Proof.
  unfold validateShape.
  repeat match goal with
  | |- context [if ?b then _ else _] => destruct b
  | |- context [bind ?c _] => destruct c; cbn [bind]
  end; intros H; inversion H; eauto.
Qed.

Lemma validateValue_value_error (ft op : string) (v : JsValue) (e : ValidationError) :
  validateValue ft op v = Normal (Some e) -> exists msg, e = valueError msg.
Proof.
  unfold validateValue.
  repeat match goal with
  | |- context [if ?b then _ else _] => destruct b
  end; intros H; try (inversion H; eauto; fail);
    exact (validateShape_value_error _ _ _ _ H).
Qed.

(** X16.  An error returned by [validateCondition] carries exactly one
    message, under [field], [operator] or [value]; the [general] key is
    never used, and two keys are never set together. *)
Theorem validation_error_has_one_message (c : FilterCondition) (e : ValidationError) :
  validateCondition c = Normal (Some e) ->
  exists msg, e = fieldError msg \/ e = operatorError msg \/ e = valueError msg.
Proof.
  unfold validateCondition.
  destruct (String.eqb (field c) ""); [intros H; inversion H; eauto |].
  destruct (String.eqb (operator c) ""); [intros H; inversion H; eauto |].
  destruct (find _ fieldDefinitions); [| intros H; inversion H; eauto ].
  destruct (negb _); [intros H; inversion H; eauto |].
  intros H. destruct (validateValue_value_error _ _ _ _ H) as [msg Hmsg]. eauto.
Qed.

(** The verdict of [validateValue] on each of the select-like types and
    on text; on these types nothing is converted and the validator does
    not throw. *)
Lemma validateValue_boolean (op : string) (v : JsValue) :
  (validateValue "boolean" op v = Normal None <-> isNullish v = false) /\
  exists verdict, validateValue "boolean" op v = Normal verdict.
Proof.
  unfold validateValue, validateShape. cbn.
  destruct (negb (truthy v) && negb (String.eqb op "is"));
    destruct v; cbn; split; eauto; intuition discriminate.
Qed.

Lemma validateValue_singleSelect (op : string) (v : JsValue) :
  (validateValue "singleSelect" op v = Normal None <-> truthy v = true) /\
  exists verdict, validateValue "singleSelect" op v = Normal verdict.
Proof.
  unfold validateValue, validateShape. cbn.
  destruct (truthy v) eqn:Et; cbn.
  - destruct v; cbn in *; try discriminate; try (split; eauto; intuition discriminate).
    destruct (String.eqb s ""); cbn in *; split; eauto; intuition discriminate.
  - destruct (negb (String.eqb op "is")); cbn; split; eauto; intuition discriminate.
Qed.

Lemma validateValue_multiSelect (op : string) (v : JsValue) :
  (validateValue "multiSelect" op v = Normal None <-> exists x rest, v = JArr (x :: rest)) /\
  exists verdict, validateValue "multiSelect" op v = Normal verdict.
Proof.
  assert (E : validateValue "multiSelect" op v =
              if negb (isArray v) || isEmptyList (arrayItems v)
              then (if negb (truthy v) && negb (String.eqb op "is")
                    then Normal (Some (valueError "Please select at least one value"))
                    else Normal (Some (valueError "Please select at least one option")))
              else Normal None).
  { unfold validateValue, validateShape.
    destruct (negb (truthy v) && negb (String.eqb op "is")); cbn;
      destruct (negb (isArray v) || isEmptyList (arrayItems v)); reflexivity. }
  rewrite E. clear E.
  destruct v as [ | | b | x | s | [| y items] | props ];
    cbn [isArray arrayItems isEmptyList negb orb];
    try (destruct (negb _ && negb _));
    (split; [| eauto ]);
    (split; [ try discriminate; eauto | intros [x0 [r0 H]]; try discriminate; reflexivity ]).
Qed.

Lemma validateValue_text (op : string) (v : JsValue) :
  op <> "is" ->
  (validateValue "text" op v = Normal None <-> exists s, v = JStr s /\ s <> "") /\
  exists verdict, validateValue "text" op v = Normal verdict.
Proof.
  intros Hop. apply String.eqb_neq in Hop.
  assert (E : validateValue "text" op v =
              if negb (truthy v) then Normal (Some (valueError "Value is required"))
              else if negb (String.eqb (typeof v) "string")
                   then Normal (Some (valueError "Text value must be a string"))
                   else Normal None).
  { unfold validateValue, validateShape. rewrite Hop.
    destruct (truthy v); reflexivity. }
  rewrite E. clear E.
  destruct v as [ | | b | x | s | items | props ];
    cbn [truthy typeof negb String.eqb Ascii.eqb Bool.eqb].
  - split; [| eauto ]. split; [discriminate | intros [s0 [H _]]; discriminate ].
  - split; [| eauto ]. split; [discriminate | intros [s0 [H _]]; discriminate ].
  - destruct b; cbn [negb String.eqb Ascii.eqb Bool.eqb]; (split; [| eauto ]);
      (split; [discriminate | intros [s0 [H _]]; discriminate ]).
  - destruct (negb _); cbn [negb String.eqb Ascii.eqb Bool.eqb]; (split; [| eauto ]);
      (split; [discriminate | intros [s0 [H _]]; discriminate ]).
  - destruct (String.eqb_spec s "") as [Es | Es]; cbn; (split; [| eauto ]).
    + split; [discriminate |]. intros [s0 [H Hne]]. inversion H. congruence.
    + split; [eauto | reflexivity].
  - split; [| eauto ]. split; [discriminate | intros [s0 [H _]]; discriminate ].
  - split; [| eauto ]. split; [discriminate | intros [s0 [H _]]; discriminate ].
Qed.

(** X17.  On a boolean condition on a registry field with a legal
    operator, every value other than [null] and [undefined] is valid; in
    particular [false] is, although it is falsy. *)
Theorem boolean_value_validity (c : FilterCondition) (def : FieldDefinition) :
  getFieldDefinition (field c) = Some def ->
  existsb (String.eqb (operator c)) (operators def) = true ->
  fieldType c = "boolean" ->
  (validateCondition c = Normal None <-> isNullish (value c) = false) /\
  (forall b, value c = JBool b -> validateCondition c = Normal None).
Proof.
  intros Hdef Hop Hft.
  rewrite (validateCondition_reaches_value c def Hdef Hop), Hft.
  split; [apply validateValue_boolean |].
  intros b Hb. apply validateValue_boolean. rewrite Hb. reflexivity.
Qed.

(** X18.  On a registry field with a legal operator, a single-select
    condition is valid exactly when its value is truthy, and a
    multi-select condition exactly when its value is a non-empty array. *)
Theorem selection_value_validity (c : FilterCondition) (def : FieldDefinition) :
  getFieldDefinition (field c) = Some def ->
  existsb (String.eqb (operator c)) (operators def) = true ->
  (fieldType c = "singleSelect" ->
   (validateCondition c = Normal None <-> truthy (value c) = true)) /\
  (fieldType c = "multiSelect" ->
   (validateCondition c = Normal None <-> exists x rest, value c = JArr (x :: rest))).
Proof.
  intros Hdef Hop.
  rewrite (validateCondition_reaches_value c def Hdef Hop).
  split; intros Hft; rewrite Hft;
    [apply validateValue_singleSelect | apply validateValue_multiSelect].
Qed.

(** X19.  On a registry field with a legal operator other than [is], a
    text condition is valid exactly when its value is a non-empty
    string. *)
Theorem text_value_validity (c : FilterCondition) (def : FieldDefinition) :
  getFieldDefinition (field c) = Some def ->
  existsb (String.eqb (operator c)) (operators def) = true ->
  fieldType c = "text" ->
  operator c <> "is" ->
  (validateCondition c = Normal None <-> exists s, value c = JStr s /\ s <> "").
Proof.
  intros Hdef Hop Hft His.
  rewrite (validateCondition_reaches_value c def Hdef Hop), Hft.
  apply validateValue_text. exact His.
Qed.

(** X20.  An operator that is not in the list of the field's definition
    is reported as an operator error, whatever the condition's declared
    type and value are: operator legality is decided by the registry entry
    alone and before the value is looked at. *)
Theorem illegal_operator_is_operator_error (c : FilterCondition) (def : FieldDefinition) :
  getFieldDefinition (field c) = Some def ->
  operator c <> "" ->
  existsb (String.eqb (operator c)) (operators def) = false ->
  forall (ft : string) (v : JsValue),
    validateCondition
      {| id := id c; field := field c; fieldType := ft; operator := operator c;
         value := v; nestedKey := nestedKey c; logicalOperator := logicalOperator c |}
      = Normal (Some (operatorError "Invalid operator for this field type")).
Proof.
  intros Hdef Hne Hop ft v.
  apply (illegal_operator_wins_over_value _ def); cbn; assumption.
Qed.

(** [validateValue] on a number or amount field with [between], as a
    chain of tests. *)
Lemma validateValue_number_between_chain (ft : string) (v : JsValue) :
  ft = "number" \/ ft = "amount" ->
  validateValue ft "between" v =
    if negb (truthy v) then Normal (Some (valueError "Value is required"))
    else if negb (String.eqb (typeof v) "object")
    then Normal (Some (valueError "Range values are required"))
    else if isBlank (getProp v "min")
    then Normal (Some (valueError "Minimum value is required"))
    else if isBlank (getProp v "max")
    then Normal (Some (valueError "Maximum value is required"))
    else
      numMin <- ToNumber (getProp v "min") ;;
      if PrimFloat.is_nan numMin
      then Normal (Some (valueError "Minimum value must be a valid number"))
      else
        numMax <- ToNumber (getProp v "max") ;;
        if PrimFloat.is_nan numMax
        then Normal (Some (valueError "Maximum value must be a valid number"))
        else if PrimFloat.ltb numMax numMin
        then Normal (Some (valueError "Minimum value cannot be greater than maximum value"))
        else Normal None.
Proof.
  intros Hft. unfold validateValue, validateShape.
  destruct Hft as [-> | ->]; cbn [String.eqb Ascii.eqb Bool.eqb orb andb negb];
    destruct (truthy v); reflexivity.
Qed.

(** What a validated range of numbers looks like. *)
Lemma validateValue_number_between (ft : string) (v : JsValue) :
  ft = "number" \/ ft = "amount" ->
  (validateValue ft "between" v = Normal None <->
   truthy v = true /\ typeof v = "object" /\
   isBlank (getProp v "min") = false /\ isBlank (getProp v "max") = false /\
   exists lo hi,
     ToNumber (getProp v "min") = Normal lo /\
     ToNumber (getProp v "max") = Normal hi /\
     PrimFloat.is_nan lo = false /\
     PrimFloat.is_nan hi = false /\
     PrimFloat.ltb hi lo = false).
Proof.
  intros Hft. rewrite (validateValue_number_between_chain ft v Hft).
  assert (Hno : forall (e : ValidationError) (Q : Prop),
             ~ Q -> (Normal (Some e) = Normal None <-> Q)).
  { intros e Q HQ. split; [discriminate | intros H; destruct (HQ H) ]. }
  destruct (truthy v); cbn [negb];
    [| apply Hno; intros [H _]; discriminate ].
  destruct (String.eqb_spec (typeof v) "object") as [Et | Et]; cbn [negb];
    [| apply Hno; intros [_ [H _]]; congruence ].
  destruct (isBlank (getProp v "min"));
    [apply Hno; intros [_ [_ [H _]]]; discriminate |].
  destruct (isBlank (getProp v "max"));
    [apply Hno; intros [_ [_ [_ [H _]]]]; discriminate |].
  destruct (ToNumber (getProp v "min")) as [lo | e]; cbn [bind].
  2:{ split; [discriminate |].
      intros [_ [_ [_ [_ [lo' [hi' [H _]]]]]]]. discriminate. }
  destruct (PrimFloat.is_nan lo) eqn:Elo.
  { apply Hno. intros [_ [_ [_ [_ [lo' [hi' [H1 [_ [H2 _]]]]]]]]].
    injection H1 as <-. congruence. }
  destruct (ToNumber (getProp v "max")) as [hi | e]; cbn [bind].
  2:{ split; [discriminate |].
      intros [_ [_ [_ [_ [lo' [hi' [_ [H _]]]]]]]]. discriminate. }
  destruct (PrimFloat.is_nan hi) eqn:Ehi.
  { apply Hno. intros [_ [_ [_ [_ [lo' [hi' [_ [H1 [_ [H2 _]]]]]]]]]].
    injection H1 as <-. congruence. }
  destruct (PrimFloat.ltb hi lo) eqn:Eord.
  { apply Hno. intros [_ [_ [_ [_ [lo' [hi' [H1 [H2 [_ [_ H3]]]]]]]]]].
    injection H1 as <-. injection H2 as <-. congruence. }
  split; [| reflexivity ]. intros _.
  split; [reflexivity |]. split; [exact Et |].
  split; [reflexivity |]. split; [reflexivity |].
  exists lo, hi. repeat split; assumption.
Qed.

(** On a registry field, a number or amount condition with the operator
    [between] is valid exactly when its value is an object whose [min] and
    [max] are present, convert to numbers other than [NaN], and [min] is
    not greater than [max]. *)
Lemma number_range_validity (c : FilterCondition) (def : FieldDefinition) :
  getFieldDefinition (field c) = Some def ->
  existsb (String.eqb (operator c)) (operators def) = true ->
  fieldType c = "number" \/ fieldType c = "amount" ->
  operator c = "between" ->
  let min := getProp (value c) "min" in
  let max := getProp (value c) "max" in
  (validateCondition c = Normal None <->
   truthy (value c) = true /\ typeof (value c) = "object" /\
   isBlank min = false /\ isBlank max = false /\
   exists lo hi,
     ToNumber min = Normal lo /\
     ToNumber max = Normal hi /\
     PrimFloat.is_nan lo = false /\
     PrimFloat.is_nan hi = false /\
     PrimFloat.ltb hi lo = false).
Proof.
  intros Hdef Hop Hft Hbetween min max.
  rewrite (validateCondition_reaches_value c def Hdef Hop), Hbetween.
  apply validateValue_number_between. exact Hft.
Qed.

(** X8.  Validation and evaluation of a range fit together: the bounds
    of a validated number or amount condition with [between] convert to
    numbers that are in order, and the condition matches, among the
    records whose value converts to a number, exactly those whose value is
    neither below [min] nor above [max]. *)
Theorem validated_range_matches_interval (record : JsValue) (c : FilterCondition)
    (x : float) :
  validateCondition c = Normal None ->
  fieldType c = "number" \/ fieldType c = "amount" ->
  operator c = "between" ->
  let v := getNestedValue record (fieldKeyOf c) in
  isNullish v = false ->
  ToNumber v = Normal x ->
  PrimFloat.is_nan x = false ->
  exists lo hi,
    ToNumber (getProp (value c) "min") = Normal lo /\
    ToNumber (getProp (value c) "max") = Normal hi /\
    PrimFloat.leb lo hi = true /\
    evaluateCondition record c
      = Normal (negb (PrimFloat.ltb x lo) && negb (PrimFloat.ltb hi x)).
Proof.
  intros Hvalid Hft Hop v Hv Hx Hxn.
  apply validateCondition_None in Hvalid. rewrite Hop in Hvalid.
  apply (validateValue_number_between _ _ Hft) in Hvalid.
  destruct Hvalid as [Ht [_ [_ [_ [lo [hi [Hlo [Hhi [Hlon [Hhin Hord]]]]]]]]]].
  exists lo, hi. split; [exact Hlo |]. split; [exact Hhi |]. split.
  - rewrite (float_leb_negb_ltb _ _ Hlon Hhin), Hord. reflexivity.
  - apply (between_is_closed_interval record c x lo hi); auto.
    apply truthy_not_nullish. exact Ht.
Qed.

End ValidatorAlgebra.

(* ================================================================== *)
(** * Properties of the error map *)
(* ================================================================== *)

Section ErrorMap.
Context {rt : Runtime}.

Lemma mapGet_mapSet {V : Type} (k k' : string) (v : V) (m : JsMap V) :
  mapGet k (mapSet k' v m) = if String.eqb k' k then Some v else mapGet k m.
Proof.
  induction m as [| [k0 v0] rest IH]; cbn.
  - destruct (String.eqb k' k); reflexivity.
  - destruct (String.eqb_spec k0 k') as [E0 | E0]; cbn.
    + subst k0. destruct (String.eqb k' k); reflexivity.
    + rewrite IH. destruct (String.eqb_spec k0 k) as [E1 | E1]; [| reflexivity ].
      subst k0. destruct (String.eqb_spec k' k) as [E2 | _]; [congruence | reflexivity].
Qed.

(** One step of the loop of [validateAllConditions]. *)
Definition recordError (errors : JsMap ValidationError) (condition : FilterCondition)
  : Completion (JsMap ValidationError) :=
  error <- validateCondition condition ;;
  Normal match error with
         | Some error => mapSet (id condition) error errors
         | None => errors
         end.

Lemma validateAllConditions_forEach (conditions : list FilterCondition) :
  validateAllConditions conditions = forEach recordError conditions [].
Proof. reflexivity. Qed.

(** The loop returns exactly when every validation does. *)
Lemma forEach_recordError_returns (conditions : list FilterCondition)
    (m : JsMap ValidationError) :
  (exists m', forEach recordError conditions m = Normal m') <->
  Forall (fun c => exists verdict, validateCondition c = Normal verdict) conditions.
Proof.
  revert m. induction conditions as [| c0 rest IH]; intros m; cbn.
  - split; [constructor | eauto].
  - unfold recordError at 1.
    destruct (validateCondition c0) as [verdict | e] eqn:Ev; cbn [bind].
    + rewrite IH. split.
      * intros H. constructor; [eauto | exact H].
      * intros H. inversion H. assumption.
    + split.
      * intros [m' H]. discriminate.
      * intros H. inversion H as [| c l [verdict Hv] _ ]. congruence.
Qed.

Lemma forEach_recordError_has (k : string) (conditions : list FilterCondition)
    (m m' : JsMap ValidationError) :
  forEach recordError conditions m = Normal m' ->
  (mapHas k m' = true <->
   mapHas k m = true \/
   exists c e, In c conditions /\ id c = k /\ validateCondition c = Normal (Some e)).
Proof.
  revert m. induction conditions as [| c0 rest IH]; intros m; cbn.
  - intros H. injection H as <-.
    split; [auto | intros [H | [c [e [[] _]]]]; exact H].
  - unfold recordError at 1.
    destruct (validateCondition c0) as [[e0 |] | err] eqn:Ev; cbn [bind];
      [| | discriminate ]; intros H; rewrite (IH _ H); unfold mapHas.
    + rewrite mapGet_mapSet. destruct (String.eqb_spec (id c0) k) as [Ek | Ek].
      * split; intros _; [| left; reflexivity ].
        right. exists c0, e0. split; [left; reflexivity |]. split; [exact Ek | exact Ev].
      * split.
        -- intros [H' | [c [e [Hin Hc]]]]; [left; exact H' |].
           right. exists c, e. split; [right; exact Hin | exact Hc].
        -- intros [H' | [c [e [[Hin | Hin] [Hk Hc]]]]]; [left; exact H' | | ].
           ++ subst c. contradiction.
           ++ right. exists c, e. auto.
    + split.
      * intros [H' | [c [e [Hin Hc]]]]; [left; exact H' |].
        right. exists c, e. split; [right; exact Hin | exact Hc].
      * intros [H' | [c [e [[Hin | Hin] [Hk Hc]]]]]; [left; exact H' | | ].
        -- subst c. congruence.
        -- right. exists c, e. auto.
Qed.

(** X21.  The error map is computed exactly when every validation
    returns, and it then has an entry for an id exactly when some
    condition with that id fails validation. *)
Theorem error_map_has_invalid_ids (conditions : list FilterCondition) (k : string) :
  ((exists errors, validateAllConditions conditions = Normal errors) <->
   Forall (fun c => exists verdict, validateCondition c = Normal verdict) conditions) /\
  (forall errors,
     validateAllConditions conditions = Normal errors ->
     (mapHas k errors = true <->
      exists c e, In c conditions /\ id c = k /\ validateCondition c = Normal (Some e))).
Proof.
  split.
  - rewrite validateAllConditions_forEach. apply forEach_recordError_returns.
  - intros errors H. rewrite validateAllConditions_forEach in H.
    rewrite (forEach_recordError_has k _ _ _ H). cbn.
    split; [intros [H' | H']; [discriminate | exact H'] | auto].
Qed.

Lemma forEach_recordError_other (k : string) (conditions : list FilterCondition)
    (m m' : JsMap ValidationError) :
  (forall c, In c conditions -> id c <> k) ->
  forEach recordError conditions m = Normal m' ->
  mapGet k m' = mapGet k m.
Proof.
  revert m. induction conditions as [| c0 rest IH]; intros m Hother; cbn.
  - intros H. injection H as <-. reflexivity.
  - unfold recordError at 1.
    destruct (validateCondition c0) as [[e0 |] | err]; cbn [bind]; [| | discriminate ];
      intros H; rewrite (IH _ (fun c Hc => Hother c (or_intror Hc)) H); [| reflexivity ].
    rewrite mapGet_mapSet.
    destruct (String.eqb_spec (id c0) k) as [E | _]; [| reflexivity ].
    exfalso. exact (Hother c0 (or_introl eq_refl) E).
Qed.

Lemma forEach_recordError_unique (c : FilterCondition) (conditions : list FilterCondition)
    (m m' : JsMap ValidationError) :
  NoDup (map id conditions) ->
  In c conditions ->
  mapGet (id c) m = None ->
  forEach recordError conditions m = Normal m' ->
  validateCondition c = Normal (mapGet (id c) m').
Proof.
  revert m. induction conditions as [| c0 rest IH]; intros m Hnd Hin Hm; [destruct Hin |].
  cbn in Hnd. inversion Hnd as [| i l Hnotin Hnd' ]. subst. cbn.
  unfold recordError at 1.
  destruct (validateCondition c0) as [verdict | err] eqn:Ev; cbn [bind]; [| discriminate ].
  intros H. destruct Hin as [-> | Hin].
  - assert (Hother : forall c', In c' rest -> id c' <> id c).
    { intros c' Hc' E. apply Hnotin. rewrite <- E. apply in_map. exact Hc'. }
    rewrite (forEach_recordError_other (id c) rest _ m' Hother H), Ev.
    destruct verdict as [e |]; [| rewrite Hm; reflexivity ].
    rewrite mapGet_mapSet, String.eqb_refl. reflexivity.
  - apply (IH _ Hnd' Hin) in H; [exact H |].
    destruct verdict as [e |]; [| exact Hm ].
    rewrite mapGet_mapSet.
    destruct (String.eqb_spec (id c0) (id c)) as [E | _]; [| exact Hm ].
    exfalso. apply Hnotin. rewrite E. apply in_map. exact Hin.
Qed.

(** X22.  When the conditions have distinct ids, the error map returns
    for each condition its own verdict: its error if it is invalid, and no
    entry if it is valid. *)
Theorem error_map_lookup (conditions : list FilterCondition) (c : FilterCondition)
    (errors : JsMap ValidationError) :
  NoDup (map id conditions) ->
  In c conditions ->
  validateAllConditions conditions = Normal errors ->
  validateCondition c = Normal (mapGet (id c) errors).
Proof.
  intros Hnd Hin H. rewrite validateAllConditions_forEach in H.
  exact (forEach_recordError_unique c conditions [] errors Hnd Hin eq_refl H).
Qed.

Lemma mapSet_nonempty {V : Type} (k : string) (v : V) (m : JsMap V) : mapSet k v m <> [].
Proof. destruct m as [| [k0 v0] rest]; cbn; [| destruct (String.eqb k0 k) ]; discriminate. Qed.

Lemma forEach_recordError_nonempty (conditions : list FilterCondition)
    (m m' : JsMap ValidationError) :
  m <> [] -> forEach recordError conditions m = Normal m' -> m' <> [].
Proof.
  revert m. induction conditions as [| c0 rest IH]; intros m Hm; cbn.
  - intros H. injection H as <-. exact Hm.
  - unfold recordError at 1.
    destruct (validateCondition c0) as [[e0 |] | err]; cbn [bind]; [| | discriminate ];
      apply IH; [apply mapSet_nonempty | exact Hm].
Qed.

(** The three ways of asking whether every condition is valid. *)
Lemma hasErrors_false (conditions : list FilterCondition) :
  hasErrors conditions = Normal false <->
  Forall (fun c => validateCondition c = Normal None) conditions.
Proof.
  unfold hasErrors. induction conditions as [| c0 rest IH]; cbn.
  - split; [constructor | reflexivity].
  - destruct (validateCondition c0) as [[e0 |] | err] eqn:Ev; cbn.
    + split; [discriminate |]. intros H. inversion H. congruence.
    + rewrite IH. split.
      * intros H. constructor; [exact Ev | exact H].
      * intros H. inversion H. assumption.
    + split; [discriminate |]. intros H. inversion H. congruence.
Qed.

Lemma validateAllConditions_empty (conditions : list FilterCondition) :
  validateAllConditions conditions = Normal [] <->
  Forall (fun c => validateCondition c = Normal None) conditions.
Proof.
  rewrite validateAllConditions_forEach.
  induction conditions as [| c0 rest IH]; cbn.
  - split; [constructor | reflexivity].
  - unfold recordError at 1.
    destruct (validateCondition c0) as [[e0 |] | err] eqn:Ev; cbn [bind].
    + split.
      * intros H. exfalso.
        refine (forEach_recordError_nonempty rest _ [] _ H eq_refl).
        apply mapSet_nonempty.
      * intros H. inversion H. congruence.
    + rewrite IH. split.
      * intros H. constructor; [exact Ev | exact H].
      * intros H. inversion H. assumption.
    + split; [discriminate |]. intros H. inversion H. congruence.
Qed.

Lemma Subseq_length {A : Type} (la lo : list A) :
  Subseq la lo -> (List.length la <= List.length lo)%nat.
Proof. induction 1; cbn; lia. Qed.

Lemma filterC_keeps_all {A : Type} (p : A -> Completion bool) (l : list A) :
  filterC p l = Normal l <-> Forall (fun x => p x = Normal true) l.
Proof.
  split; [| apply filterC_of_passing ].
  induction l as [| x rest IH]; cbn; [constructor |].
  destruct (p x) as [b |] eqn:Ep; [| discriminate ]. cbn [bind].
  destruct (filterC p rest) as [kept |] eqn:Ek; [| discriminate ]. cbn [bind].
  destruct b; intros H; injection H as H.
  - subst kept. constructor; [exact Ep | apply IH; reflexivity].
  - exfalso. pose proof (Subseq_length _ _ (filterC_subseq_input _ _ _ Ek)) as Hlen.
    rewrite H in Hlen. cbn in Hlen. lia.
Qed.

Lemma validConditions_all (conditions : list FilterCondition) :
  App.validConditions conditions = Normal conditions <->
  Forall (fun c => validateCondition c = Normal None) conditions.
Proof.
  unfold App.validConditions. rewrite filterC_keeps_all.
  split; intros H; (eapply Forall_impl; [| exact H ]); cbn; intros c Hc.
  - destruct (validateCondition c) as [[e |] | err]; cbn in Hc; congruence.
  - rewrite Hc. reflexivity.
Qed.

(** X23.  [hasErrors] and [validateAllConditions] agree, and both agree
    with the filter the application applies before it runs the engine:
    [hasErrors] returns [false] exactly when the error map is computed
    and empty, and exactly when the filter returns and leaves no condition
    out. *)
Theorem hasErrors_agrees_with_error_map (conditions : list FilterCondition) :
  (hasErrors conditions = Normal false <-> validateAllConditions conditions = Normal []) /\
  (hasErrors conditions = Normal false <->
   App.validConditions conditions = Normal conditions).
Proof.
  rewrite hasErrors_false, validateAllConditions_empty, validConditions_all.
  split; reflexivity.
Qed.

End ErrorMap.

(* ================================================================== *)
(** * Properties of the application *)
(* ================================================================== *)

Section ApplicationProperties.
Context {rt : Runtime}.

Lemma Subseq_Forall {A : Type} (P : A -> Prop) (la lo : list A) :
  Subseq la lo -> Forall P lo -> Forall P la.
Proof.
  intros Hsub Hall. apply Forall_forall. intros x Hx.
  rewrite Forall_forall in Hall. apply Hall. exact (Subseq_incl _ _ Hsub x Hx).
Qed.

Lemma Subseq_refl {A : Type} (l : list A) : Subseq l l.
Proof. induction l; constructor; auto. Qed.

(** The conditions the application applies are conditions of the filter
    state, in their order, and each passes validation. *)
Lemma validConditions_valid (conditions valid : list FilterCondition) :
  App.validConditions conditions = Normal valid ->
  Subseq valid conditions /\
  Forall (fun c => validateCondition c = Normal None) valid.
Proof.
  unfold App.validConditions. intros H. split.
  - exact (filterC_subseq_input _ _ _ H).
  - apply filterC_kept_pass in H. eapply Forall_impl; [| exact H ]. cbn. intros c Hc.
    destruct (validateCondition c) as [[e |] | err]; cbn in Hc; congruence.
Qed.

(** On plain values the selection of the valid conditions returns. *)
Lemma validConditions_returns (conditions : list FilterCondition) :
  Forall (fun c => plain (value c) = true) conditions ->
  exists valid, App.validConditions conditions = Normal valid.
Proof.
  intros Hplain. unfold App.validConditions. apply filterC_returns.
  eapply Forall_impl; [| exact Hplain ]. cbn. intros c Hc.
  destruct (validateCondition_plain c Hc) as [verdict Hv]. rewrite Hv. cbn. eauto.
Qed.

(** X24.  On plain data the records the application displays are always
    defined: when the conditions of the filter state, valid or not, mirror
    the registry and have plain values, and the records are plain, the
    selection of the valid conditions returns, these conditions read the
    records at paths of the registry, computing [filteredData] does not
    throw, and its result is a subsequence of the records; when no
    condition is valid it is all the records. *)
Theorem filteredData_defined_on_plain_data (employeeData : list JsValue)
    (filterState : FilterState.t) :
  Forall mirrorsRegistry (FilterState.conditions filterState) ->
  Forall (fun c => plain (value c) = true) (FilterState.conditions filterState) ->
  Forall (fun record => plain record = true) employeeData ->
  exists valid result,
    App.validConditions (FilterState.conditions filterState) = Normal valid /\
    Forall (fun c => In (fieldKeyOf c) (map key fieldDefinitions)) valid /\
    App.filteredData employeeData filterState = Normal result /\
    Subseq result employeeData /\
    (valid = [] -> result = employeeData).
Proof.
  intros Hmirror Hplain Hdata.
  destruct (validConditions_returns _ Hplain) as [valid Hvalid].
  destruct (validConditions_valid _ _ Hvalid) as [Hsub Hok].
  pose proof (Subseq_Forall _ _ _ Hsub Hmirror) as Hmirror'.
  pose proof (Subseq_Forall _ _ _ Hsub Hplain) as Hplain'.
  unfold App.filteredData. rewrite Hvalid. cbn [bind]. unfold applyFilters.
  destruct valid as [| c0 rest].
  - exists [], employeeData. cbn. repeat split; [constructor | apply Subseq_refl].
  - cbn [isEmptyList].
    destruct (filterC_returns (passes (c0 :: rest) (FilterState.logicalOperator filterState))
                employeeData) as [result Hresult].
    { eapply Forall_impl; [| exact Hdata ]. cbn. intros record Hrecord.
      rewrite (passes_valid _ _ record Hrecord Hok Hplain'). eauto. }
    exists (c0 :: rest), result. split; [reflexivity |].
    split; [exact (mirrored_conditions_paths _ Hok Hmirror') |].
    split; [exact Hresult |]. split; [| discriminate ].
    exact (filterC_subseq_input _ _ _ Hresult).
Qed.

Lemma filterC_app {A : Type} (p : A -> Completion bool) (l1 l2 : list A) :
  filterC p (l1 ++ l2) =
    (kept1 <- filterC p l1 ;; kept2 <- filterC p l2 ;; Normal (kept1 ++ kept2)%list).
Proof.
  induction l1 as [| x rest IH]; cbn.
  - destruct (filterC p l2); reflexivity.
  - destruct (p x) as [b |]; [| reflexivity ]. cbn [bind]. rewrite IH.
    destruct (filterC p rest) as [k1 |]; [| reflexivity ]. cbn [bind].
    destruct (filterC p l2) as [k2 |]; [| reflexivity ]. cbn [bind].
    destruct b; reflexivity.
Qed.

(** X25.  Adding a filter does not change the displayed records, nor
    whether computing them throws: the condition [handleAddFilter] appends
    has no field yet, fails validation and is left out of the conditions
    that are applied. *)
Theorem adding_a_filter_keeps_the_records (employeeData : list JsValue)
    (filterState : FilterState.t) (newId : string) :
  App.filteredData employeeData (FilterBuilder.handleAddFilter newId filterState)
    = App.filteredData employeeData filterState.
Proof.
  unfold App.filteredData, FilterBuilder.handleAddFilter.
  cbn [FilterState.conditions FilterState.logicalOperator].
  unfold App.validConditions. rewrite filterC_app. cbn.
  destruct (filterC _ (FilterState.conditions filterState)) as [valid |]; [| reflexivity ].
  cbn. rewrite app_nil_r. reflexivity.
Qed.

(** X26.  Choosing a field in the form gives a condition that agrees
    with the registry: for a key of the registry, [handleFieldChange]
    returns a condition on that field whose [fieldType] is the
    definition's type and whose operator is one of the definition's, read
    from the record at the field's key.  That condition is valid exactly
    when the field is a boolean one; for every other type it stays out of
    filtering until a value is entered. *)
Theorem field_change_agrees_with_registry (c : FilterCondition) (fieldKey : string)
    (def : FieldDefinition) :
  getFieldDefinition fieldKey = Some def ->
  let c' := FilterConditionComponent.handleFieldChange c fieldKey in
  id c' = id c /\
  field c' = fieldKey /\
  fieldType c' = type def /\
  existsb (String.eqb (operator c')) (operators def) = true /\
  fieldKeyOf c' = fieldKey /\
  (validateCondition c' = Normal None <-> type def = "boolean").
Proof.
  intros Hdef.
  destruct (getFieldDefinition_key _ _ Hdef) as [Hkey Hin].
  unfold FilterConditionComponent.handleFieldChange.
  unfold getFieldDefinition in Hdef. rewrite Hdef. clear Hdef.
  subst fieldKey.
  cbn in Hin.
  repeat (destruct Hin as [Hin | Hin]; [subst def; cbn; repeat split; discriminate |]).
  contradiction.
Qed.

(** X27.  Choosing an operator resets the value: on a condition that
    agrees with the registry, [handleOperatorChange] with one of the
    field's operators returns a condition on the same field and type that
    is valid exactly when the field is a boolean one. *)
Theorem operator_change_resets_value (c : FilterCondition) (def : FieldDefinition)
    (op : string) :
  getFieldDefinition (field c) = Some def ->
  fieldType c = type def ->
  In op (operators def) ->
  let c' := FilterConditionComponent.handleOperatorChange c op in
  field c' = field c /\
  fieldType c' = fieldType c /\
  operator c' = op /\
  (validateCondition c' = Normal None <-> type def = "boolean").
Proof.
  intros Hdef Hft Hop c'. repeat split.
  - intros Hvalid.
    rewrite (validateCondition_reaches_value c' def) in Hvalid.
    + destruct (getFieldDefinition_key _ _ Hdef) as [_ Hin].
      unfold c' in Hvalid. cbn in Hvalid. rewrite Hft in Hvalid. clear Hdef Hft c'.
      cbn in Hin.
      repeat (destruct Hin as [Hin | Hin];
              [subst def; cbn in Hop;
               repeat (destruct Hop as [Hop | Hop];
                       [subst op; try reflexivity; cbn in Hvalid; discriminate |]);
               contradiction |]).
      contradiction.
    + exact Hdef.
    + apply existsb_exists. exists op. split; [exact Hop | apply String.eqb_refl].
  - intros Hbool.
    rewrite (validateCondition_reaches_value c' def).
    + destruct (getFieldDefinition_key _ _ Hdef) as [_ Hin].
      unfold c'. cbn. rewrite Hft. clear Hdef Hft c'.
      cbn in Hin.
      repeat (destruct Hin as [Hin | Hin];
              [subst def; try discriminate; cbn in Hop;
               repeat (destruct Hop as [Hop | Hop]; [subst op; reflexivity |]);
               contradiction |]).
      contradiction.
    + exact Hdef.
    + apply existsb_exists. exists op. split; [exact Hop | apply String.eqb_refl].
Qed.

(** X28.  Removing undoes adding: when no condition of the state has the
    new id, removing the condition that [handleAddFilter] appended gives
    the state back. *)
Theorem remove_undoes_add (filterState : FilterState.t) (newId : string) :
  (forall c, In c (FilterState.conditions filterState) -> id c <> newId) ->
  FilterBuilder.handleRemoveCondition newId (FilterBuilder.handleAddFilter newId filterState)
    = filterState.
Proof.
  intros Hfresh. destruct filterState as [conditions mode].
  unfold FilterBuilder.handleRemoveCondition, FilterBuilder.handleAddFilter. cbn in *.
  f_equal. rewrite filter_app. cbn. rewrite String.eqb_refl. cbn. rewrite app_nil_r.
  induction conditions as [| c0 rest IH]; cbn; [reflexivity |].
  destruct (String.eqb_spec (id c0) newId) as [E | _].
  - exfalso. exact (Hfresh c0 (or_introl eq_refl) E).
  - cbn. rewrite IH; [reflexivity |]. intros c Hc. apply Hfresh. right. exact Hc.
Qed.

(** X29.  When the conditions have distinct ids, the warning of the
    builder is shown exactly when the error map is computed and some
    condition with a field selected fails validation; conditions without
    a field never raise it. *)
Theorem builder_warning_meaning (filterState : FilterState.t) :
  NoDup (map id (FilterState.conditions filterState)) ->
  (FilterBuilder.hasErrors filterState = Normal true <->
   (exists errors,
      validateAllConditions (FilterState.conditions filterState) = Normal errors) /\
   exists c e, In c (FilterState.conditions filterState) /\
               field c <> "" /\ validateCondition c = Normal (Some e)).
Proof.
  intros Hnd. unfold FilterBuilder.hasErrors.
  destruct (validateAllConditions (FilterState.conditions filterState))
    as [errors | err] eqn:Eall; cbn [bind].
  2:{ split; [discriminate |]. intros [[errors H] _]. discriminate. }
  split.
  - intros H. injection H as H. split; [eauto |].
    apply existsb_exists in H. destruct H as [c [Hin Hc]].
    apply andb_true_iff in Hc. destruct Hc as [Hf Hhas].
    pose proof (forEach_recordError_unique c _ [] errors Hnd Hin eq_refl Eall) as Hv.
    unfold mapHas in Hhas. destruct (mapGet (id c) errors) as [e |]; [| discriminate ].
    exists c, e. split; [exact Hin |]. split; [| exact Hv ].
    apply negb_true_iff, String.eqb_neq in Hf. exact Hf.
  - intros [_ [c [e [Hin [Hf Hinvalid]]]]]. f_equal.
    apply existsb_exists. exists c. split; [exact Hin |].
    apply andb_true_iff. split.
    + apply negb_true_iff, String.eqb_neq. exact Hf.
    + pose proof (forEach_recordError_unique c _ [] errors Hnd Hin eq_refl Eall) as Hv.
      rewrite Hinvalid in Hv. injection Hv as Hv. unfold mapHas. rewrite <- Hv. reflexivity.
Qed.

End ApplicationProperties.

(* ================================================================== *)
(** * The further properties on the reference runtime *)
(* ================================================================== *)

(** [{ ...condition, id }]. *)
Definition withId (condition : FilterCondition) (newId : string) : FilterCondition :=
  {| id := newId; field := field condition; fieldType := fieldType condition;
     operator := operator condition; value := value condition;
     nestedKey := nestedKey condition; logicalOperator := logicalOperator condition |}.

Definition engineers : FilterCondition :=
  mkCondition "department" "singleSelect" "is" (JStr "Engineering").
Definition wellPaid : FilterCondition :=
  withId (mkCondition "salary" "amount" "greaterThan" (JNum 90000)) "c2".
Definition unfinished : FilterCondition :=
  withId (mkCondition "name" "text" "contains" (JStr "")) "c3".
Definition staff : list JsValue := [john; anonymous; jane].

(** The three sample conditions are as the form builds them. *)
Lemma sample_conditions_mirror_registry :
  Forall mirrorsRegistry [engineers; wellPaid; unfinished].
Proof.
  repeat constructor; intros def Hdef; cbn in Hdef; injection Hdef as <-; reflexivity.
Qed.

Lemma applyFilters_keeps_order_witness :
  applyFilters staff [engineers; wellPaid] "OR" = Normal [john; jane] /\
  Subseq [john; jane] staff /\ incl [john; jane] staff /\
  (List.length [john; jane] <= List.length staff)%nat.
Proof.
  split; [reflexivity |].
  apply (applyFilters_keeps_order staff [engineers; wellPaid] "OR"). reflexivity.
Defined.

Lemma applyFilters_idempotent_witness :
  applyFilters staff [wellPaid] "AND" = Normal [john; jane] /\
  applyFilters [john; jane] [wellPaid] "AND" = Normal [john; jane].
Proof.
  split; [reflexivity |].
  apply (applyFilters_idempotent staff [wellPaid] "AND"). reflexivity.
Defined.

Lemma applyFilters_is_filter_witness :
  Forall (fun c => validateCondition c = Normal None) [engineers; wellPaid] /\
  Forall (fun c => plain (value c) = true) [engineers; wellPaid] /\
  Forall (fun record => plain record = true) staff /\
  applyFilters staff [engineers; wellPaid] "AND"
    = Normal (filter (fun r => forallb (holds r) [engineers; wellPaid]) staff).
Proof.
  assert (Hvalid : Forall (fun c => validateCondition c = Normal None) [engineers; wellPaid])
    by (repeat constructor).
  assert (Hmirror : Forall mirrorsRegistry [engineers; wellPaid]).
  { repeat constructor; intros def Hdef; cbn in Hdef; injection Hdef as <-; reflexivity. }
  assert (Hplain : Forall (fun c => plain (value c) = true) [engineers; wellPaid])
    by (repeat constructor).
  assert (Hdata : Forall (fun record => plain record = true) staff)
    by (repeat constructor).
  split; [exact Hvalid |]. split; [exact Hplain |]. split; [exact Hdata |].
  exact (proj2 (applyFilters_is_filter staff [engineers; wellPaid] "AND"
                  Hvalid Hmirror Hplain Hdata)).
Defined.

Lemma orEqual_operators_decompose_witness :
  let c := mkCondition "projects" "number" "equals" (JNum 4) in
  evaluateCondition jane (withOperator c "lessThanOrEqual") =
    (lt <- evaluateCondition jane (withOperator c "lessThan") ;;
     eq <- evaluateCondition jane (withOperator c "equals") ;;
     Normal (lt || eq)) /\
  evaluateCondition jane (withOperator c "greaterThanOrEqual") =
    (gt <- evaluateCondition jane (withOperator c "greaterThan") ;;
     eq <- evaluateCondition jane (withOperator c "equals") ;;
     Normal (gt || eq)).
Proof.
  intros c. apply (orEqual_operators_decompose jane c). left. reflexivity.
Defined.

Lemma number_comparisons_exclusive_witness :
  let c := mkCondition "projects" "number" "equals" (JStr "3") in
  exists lt eq gt,
    evaluateCondition jane (withOperator c "lessThan") = Normal lt /\
    evaluateCondition jane (withOperator c "equals") = Normal eq /\
    evaluateCondition jane (withOperator c "greaterThan") = Normal gt /\
    ((lt, eq, gt) = (true, false, false) \/
     (lt, eq, gt) = (false, true, false) \/
     (lt, eq, gt) = (false, false, true)).
Proof.
  intros c.
  exact (number_comparisons_exclusive jane c 4 3
           (or_introl eq_refl) eq_refl eq_refl eq_refl eq_refl eq_refl).
Defined.

Lemma validated_range_matches_interval_witness :
  let c := mkCondition "salary" "amount" "between"
             (JObj [("min", JNum 50000); ("max", JStr "100000")]) in
  validateCondition c = Normal None /\
  exists lo hi,
    ToNumber (getProp (value c) "min") = Normal lo /\
    ToNumber (getProp (value c) "max") = Normal hi /\
    PrimFloat.leb lo hi = true /\
    evaluateCondition john c
      = Normal (negb (PrimFloat.ltb 95000 lo) && negb (PrimFloat.ltb hi 95000)).
Proof.
  intros c. split; [reflexivity |].
  exact (validated_range_matches_interval john c 95000
           eq_refl (or_intror eq_refl) eq_refl eq_refl eq_refl eq_refl).
Defined.

Lemma isNot_negates_is_witness :
  evaluateCondition anonymous (withOperator engineers "is") = Normal false /\
  evaluateCondition anonymous (withOperator engineers "isNot") =
    (b <- evaluateCondition anonymous (withOperator engineers "is") ;; Normal (negb b)).
Proof.
  split; [reflexivity |]. apply (isNot_negates_is anonymous engineers). reflexivity.
Defined.

Lemma notIn_negates_in_witness :
  let c := mkCondition "skills" "multiSelect" "in" (JArr [JStr "Python"; JStr "Go"]) in
  exists b,
    evaluateCondition jane (withOperator c "in") = Normal b /\
    evaluateCondition jane (withOperator c "notIn") = Normal (negb b).
Proof. intros c. apply (notIn_negates_in jane c). reflexivity. Defined.

Lemma containsAll_implies_in_witness :
  let c := mkCondition "skills" "multiSelect" "containsAll"
             (JArr [JStr "React"; JStr "TypeScript"]) in
  evaluateCondition john (withOperator c "containsAll") = Normal true /\
  evaluateCondition john (withOperator c "in") = Normal true.
Proof.
  intros c. split; [reflexivity |].
  apply (containsAll_implies_in john c (JStr "React") [JStr "TypeScript"]); reflexivity.
Defined.

Lemma boolean_filter_by_truthiness_witness :
  let c := mkCondition "isActive" "boolean" "is" (JBool false) in
  evaluateCondition jane c = Normal true /\
  evaluateCondition john c = Normal false /\
  evaluateCondition anonymous c = Normal true.
Proof.
  intros c.
  destruct (boolean_filter_by_truthiness jane c false eq_refl eq_refl) as [Hjane _].
  destruct (boolean_filter_by_truthiness john c false eq_refl eq_refl) as [Hjohn _].
  destruct (boolean_filter_by_truthiness anonymous c false eq_refl eq_refl) as [_ Habsent].
  split; [exact Hjane |]. split; [exact Hjohn |]. apply Habsent. reflexivity.
Defined.

Lemma text_operators_by_strength_witness :
  let c := mkCondition "name" "text" "equals" (JStr "JOHN") in
  evaluateCondition john (withOperator c "equals") = Normal true /\
  evaluateCondition john (withOperator c "contains") = Normal true /\
  evaluateCondition john (withOperator c "startsWith") = Normal true /\
  evaluateCondition john (withOperator c "endsWith") = Normal true /\
  evaluateCondition john (withOperator c "notContains") = Normal false.
Proof.
  intros c. split; [reflexivity |].
  destruct (text_operators_by_strength john c eq_refl) as [Hequals _].
  apply Hequals. reflexivity.
Defined.

Lemma getNestedValue_short_circuits_witness :
  isNullish (getNestedValue anonymous "address") = true /\
  getNestedValue anonymous "address.city" = JUndefined.
Proof.
  split; [reflexivity |].
  apply (getNestedValue_short_circuits anonymous "address" "city"). reflexivity.
Defined.

Lemma validation_error_has_one_message_witness :
  let c := mkCondition "salary" "amount" "equals" (JStr "a lot") in
  validateCondition c = Normal (Some (valueError "Value must be a valid number")) /\
  exists msg,
    valueError "Value must be a valid number" = fieldError msg \/
    valueError "Value must be a valid number" = operatorError msg \/
    valueError "Value must be a valid number" = valueError msg.
Proof.
  intros c. split; [reflexivity |].
  apply (validation_error_has_one_message c). reflexivity.
Defined.

Lemma boolean_value_validity_witness :
  let c := mkCondition "isActive" "boolean" "is" (JBool false) in
  (validateCondition c = Normal None <-> isNullish (value c) = false) /\
  (forall b, value c = JBool b -> validateCondition c = Normal None).
Proof.
  intros c. eapply (boolean_value_validity c); reflexivity.
Defined.

Lemma selection_value_validity_witness :
  let single := mkCondition "department" "singleSelect" "isNot" (JStr "Sales") in
  let multi := mkCondition "skills" "multiSelect" "in" (JArr []) in
  (validateCondition single = Normal None <-> truthy (value single) = true) /\
  (validateCondition multi = Normal None <-> exists x rest, value multi = JArr (x :: rest)).
Proof.
  intros single multi. split.
  - eapply (selection_value_validity single); reflexivity.
  - eapply (selection_value_validity multi); reflexivity.
Defined.

Lemma text_value_validity_witness :
  let c := mkCondition "email" "text" "endsWith" (JStr "@example.com") in
  validateCondition c = Normal None <-> exists s, value c = JStr s /\ s <> "".
Proof.
  intros c. eapply (text_value_validity c); try reflexivity. discriminate.
Defined.

Lemma illegal_operator_is_operator_error_witness :
  validateCondition (mkCondition "salary" "amount" "contains" JNull)
    = Normal (Some (operatorError "Invalid operator for this field type")).
Proof.
  eapply (illegal_operator_is_operator_error
            (mkCondition "salary" "text" "contains" (JStr "x")));
    try reflexivity. discriminate.
Defined.

Lemma error_map_has_invalid_ids_witness :
  let conditions := [engineers; wellPaid; unfinished] in
  let errors := [("c3", valueError "Value is required")] in
  validateAllConditions conditions = Normal errors /\
  (mapHas "c3" errors = true <->
   exists c e, In c conditions /\ id c = "c3" /\ validateCondition c = Normal (Some e)).
Proof.
  intros conditions errors. split; [reflexivity |].
  apply (proj2 (error_map_has_invalid_ids conditions "c3")). reflexivity.
Defined.

Lemma error_map_lookup_witness :
  let conditions := [engineers; wellPaid; unfinished] in
  let errors := [("c3", valueError "Value is required")] in
  NoDup (map id conditions) /\
  validateAllConditions conditions = Normal errors /\
  validateCondition unfinished = Normal (mapGet "c3" errors) /\
  validateCondition wellPaid = Normal (mapGet "c2" errors).
Proof.
  intros conditions errors.
  assert (Hnd : NoDup (map id conditions)).
  { repeat constructor; cbn; intuition discriminate. }
  split; [exact Hnd |]. split; [reflexivity |]. split.
  - apply (error_map_lookup conditions unfinished errors Hnd); [cbn; auto | reflexivity].
  - apply (error_map_lookup conditions wellPaid errors Hnd); [cbn; auto | reflexivity].
Defined.

Lemma filteredData_defined_on_plain_data_witness :
  let state := {| FilterState.conditions := [engineers; wellPaid; unfinished];
                  FilterState.logicalOperator := "AND" |} in
  Forall (fun c => plain (value c) = true) (FilterState.conditions state) /\
  Forall (fun record => plain record = true) staff /\
  exists valid result,
    App.validConditions (FilterState.conditions state) = Normal valid /\
    Forall (fun c => In (fieldKeyOf c) (map key fieldDefinitions)) valid /\
    App.filteredData staff state = Normal result /\
    Subseq result staff /\
    (valid = [] -> result = staff).
Proof.
  intros state.
  assert (Hplain : Forall (fun c => plain (value c) = true) (FilterState.conditions state))
    by (repeat constructor).
  assert (Hdata : Forall (fun record => plain record = true) staff)
    by (repeat constructor).
  split; [exact Hplain |]. split; [exact Hdata |].
  exact (filteredData_defined_on_plain_data staff state
           sample_conditions_mirror_registry Hplain Hdata).
Defined.

Lemma field_change_agrees_with_registry_witness :
  let c := FilterConditionComponent.handleFieldChange unfinished "salary" in
  id c = "c3" /\ field c = "salary" /\ fieldType c = "amount" /\
  operator c = "equals" /\ value c = JStr "" /\
  (validateCondition c = Normal None <-> "amount" = "boolean").
Proof.
  intros c.
  destruct (field_change_agrees_with_registry unfinished "salary" _ eq_refl)
    as [Hid [Hfield [Htype [_ [_ Hvalid]]]]].
  split; [exact Hid |]. split; [exact Hfield |]. split; [exact Htype |].
  split; [reflexivity |]. split; [reflexivity | exact Hvalid].
Defined.

Lemma operator_change_resets_value_witness :
  let c := FilterConditionComponent.handleOperatorChange wellPaid "between" in
  field c = "salary" /\ fieldType c = "amount" /\ operator c = "between" /\
  (validateCondition c = Normal None <-> "amount" = "boolean").
Proof.
  intros c.
  exact (operator_change_resets_value wellPaid
           (mkField "salary" "Salary" "amount"
              ["equals"; "between"; "greaterThan"; "lessThan"] None None)
           "between" eq_refl eq_refl (or_intror (or_introl eq_refl))).
Defined.

Lemma remove_undoes_add_witness :
  let state := {| FilterState.conditions := [engineers; wellPaid];
                  FilterState.logicalOperator := "OR" |} in
  FilterBuilder.handleRemoveCondition "c9" (FilterBuilder.handleAddFilter "c9" state) = state.
Proof.
  intros state. apply (remove_undoes_add state "c9").
  intros c [<- | [<- | []]]; discriminate.
Defined.

Lemma builder_warning_meaning_witness :
  let state := {| FilterState.conditions := [engineers; wellPaid; unfinished];
                  FilterState.logicalOperator := "AND" |} in
  NoDup (map id (FilterState.conditions state)) /\
  FilterBuilder.hasErrors state = Normal true.
Proof.
  intros state.
  assert (Hnd : NoDup (map id (FilterState.conditions state))).
  { repeat constructor; cbn; intuition discriminate. }
  split; [exact Hnd |].
  apply (proj2 (builder_warning_meaning state Hnd)). split.
  - eexists. reflexivity.
  - exists unfinished, (valueError "Value is required").
    split; [cbn; auto |]. split; [discriminate | reflexivity].
Defined.
